(** * etrade_report_analyzer.py: a shallow embedding and its properties

    The embedding follows the Python module function by function:
    [get_exchange_trade], [format_value], the row loop of [read_csv],
    [generate_pretty_table_with_hierarchy] and [parse_data].

    Python floats are IEEE binary64, modelled by Rocq's primitive floats.
    Dictionaries keep insertion order and the code depends on it (the column
    list is the key order of a record), so a dict is an association list.
    Exceptions are an explicit result type; the module-level cache and the
    dict objects that the report formatter mutates are explicit state. *)

From Stdlib Require Import ZArith Floats Lia.
From stdpp Require Import base list strings pretty.

Open Scope Z_scope.
Open Scope string_scope.
Open Scope list_scope.

(** ** Exceptions and results *)

Inductive exn :=
| KeyError (key : string) (index : option nat)
| AttributeError
| TypeError
| ValueError
| AssertionError
| OverflowError
| IndexError
| ConnectionError.

Inductive Res (A : Type) :=
| Ok (a : A)
| Raise (e : exn).
Arguments Ok {A} a.
Arguments Raise {A} e.

#[export] Instance Res_ret : MRet Res := fun A a => Ok a.
#[export] Instance Res_bind : MBind Res := fun A B f m =>
  match m with Ok a => f a | Raise e => Raise e end.

(** A computation over a mutable state [S]: the state survives an
    exception, as a Python global or a mutated object does. *)
Definition M (S A : Type) : Type := S -> Res A * S.

Definition ret_M {S A} (a : A) : M S A := fun s => (Ok a, s).
Definition bind_M {S A B} (m : M S A) (f : A -> M S B) : M S B :=
  fun s => match m s with
           | (Ok a, s') => f a s'
           | (Raise e, s') => (Raise e, s')
           end.
Definition lift {S A} (r : Res A) : M S A := fun s => (r, s).
Definition get_state {S} : M S S := fun s => (Ok s, s).
Definition put_state {S} (s : S) : M S unit := fun _ => (Ok tt, s).

#[export] Instance M_ret {S} : MRet (M S) := fun A a => ret_M a.
#[export] Instance M_bind {S} : MBind (M S) := fun A B f m => bind_M m f.

(** ** Values *)

(** A [pd.Timestamp] parsed with [format="%m/%d/%Y"]: a calendar day at
    midnight.  pandas bounds the year to 1677..2262, four digits. *)
Record Timestamp := { ts_year : nat; ts_month : nat; ts_day : nat }.

(** The scalars a record can hold. *)
Inductive value :=
| VNone
| VBool (b : bool)
| VInt (z : Z)
| VFloat (f : float)
| VStr (s : string)
| VTimestamp (t : Timestamp)
| VNaT.

(** Parsed JSON, as [json.loads] returns it ([None] is [JNull]).  JSON
    arrays do not occur in the rate service's payload and are left out. *)
#[warnings="-register-all"]
Inductive json :=
| JNull
| JBool (b : bool)
| JInt (z : Z)
| JFloat (f : float)
| JStr (s : string)
| JObj (fields : list (string * json)).

(** ** Dictionaries with string keys *)

Section Dict.
Context {V : Type}.

Fixpoint dict_lookup (d : list (string * V)) (k : string) : option V :=
  match d with
  | [] => None
  | (k', v) :: d' => if String.eqb k' k then Some v else dict_lookup d' k
  end.

(** [d.get(k, default)] *)
Definition dict_get (d : list (string * V)) (k : string) (default : V) : V :=
  match dict_lookup d k with Some v => v | None => default end.

(** [d[k]] *)
Definition dict_item (d : list (string * V)) (k : string) : Res V :=
  match dict_lookup d k with Some v => Ok v | None => Raise (KeyError k None) end.

(** [d[k] = v]: an existing key keeps its position, a new one goes last. *)
Fixpoint dict_set (d : list (string * V)) (k : string) (v : V) : list (string * V) :=
  match d with
  | [] => [(k, v)]
  | (k', v') :: d' =>
      if String.eqb k' k then (k', v) :: d' else (k', v') :: dict_set d' k v
  end.

(** [d.update(other)] *)
Definition dict_update (d other : list (string * V)) : list (string * V) :=
  fold_left (fun acc kv => dict_set acc (fst kv) (snd kv)) other d.

(** [list(d.keys())] *)
Definition dict_keys (d : list (string * V)) : list string := map fst d.
End Dict.

(** A record: the keys of a Python dict are distinct, and [dict_set] keeps
    them so. *)
Definition dict := list (string * value).

(** ** Python arithmetic on scalars *)

(** [float(z)] for an [int]: correctly rounded, [OverflowError] when the
    integer is out of the binary64 range. *)
Definition float_of_int (z : Z) : Res float :=
  let f := SF2Prim (binary_normalize prec emax z 0 false) in
  if PrimFloat.is_infinity f then Raise OverflowError else Ok f.

(** The numeric tower: [bool] is a subclass of [int]. *)
Inductive num :=
| NInt (z : Z)
| NFloat (f : float).

Definition as_num (v : value) : option num :=
  match v with
  | VBool b => Some (NInt (Z.b2z b))
  | VInt z => Some (NInt z)
  | VFloat f => Some (NFloat f)
  | _ => None
  end.

Definition to_float (n : num) : Res float :=
  match n with
  | NInt z => float_of_int z
  | NFloat f => Ok f
  end.

Definition num_binop (iop : Z -> Z -> Z) (fop : float -> float -> float)
    (x y : num) : Res value :=
  match x, y with
  | NInt a, NInt b => Ok (VInt (iop a b))
  | _, _ =>
      fx ← to_float x;
      fy ← to_float y;
      Ok (VFloat (fop fx fy))
  end.

(** [s * n] for a string: [n] copies, none when [n <= 0]. *)
Fixpoint str_repeat (s : string) (n : nat) : string :=
  match n with
  | O => ""
  | S n' => s +:+ str_repeat s n'
  end.

(** The operators below cover the numeric tower and strings.  The pandas
    date scalars have an arithmetic of their own ([Timestamp - Timestamp]
    is a [Timedelta]); [read_csv] stores one only under [SaleDate], which
    no operator reads, and the embedding treats them as unsupported
    operands. *)

(** [a + b] *)
Definition py_add (a b : value) : Res value :=
  match as_num a, as_num b with
  | Some x, Some y => num_binop Z.add PrimFloat.add x y
  | _, _ =>
      match a, b with
      | VStr s, VStr t => Ok (VStr (s +:+ t))
      | _, _ => Raise TypeError
      end
  end.

(** [a - b] *)
Definition py_sub (a b : value) : Res value :=
  match as_num a, as_num b with
  | Some x, Some y => num_binop Z.sub PrimFloat.sub x y
  | _, _ => Raise TypeError
  end.

(** [a * b] *)
Definition py_mul (a b : value) : Res value :=
  match as_num a, as_num b with
  | Some x, Some y => num_binop Z.mul PrimFloat.mul x y
  | Some (NInt n), None =>
      match b with
      | VStr s => Ok (VStr (str_repeat s (Z.to_nat n)))
      | _ => Raise TypeError
      end
  | None, Some (NInt n) =>
      match a with
      | VStr s => Ok (VStr (str_repeat s (Z.to_nat n)))
      | _ => Raise TypeError
      end
  | _, _ => Raise TypeError
  end.

(** [isinstance(x, (int, float))] *)
Definition is_int_or_float (v : value) : bool :=
  match as_num v with Some _ => true | None => false end.

(** [sum(xs)]: starts from the integer 0 and adds from the left.  (From
    CPython 3.12 on, [sum] carries a compensation term over floats; the
    properties below use [py_sum] only as the sum that the code takes.) *)
Definition py_sum (xs : list value) : Res value :=
  fold_left (fun acc x => a ← acc; py_add a x) xs (Ok (VInt 0)).

(** ** Equality *)

(** An [int] against a [float]: Python compares the exact values. *)
Definition int_eq_float (z : Z) (f : float) : bool :=
  match Prim2SF f with
  | S754_zero _ => Z.eqb z 0
  | S754_finite s m e =>
      let sm := if s then Z.neg m else Z.pos m in
      if Z.leb 0 e then Z.eqb z (sm * 2 ^ e) else Z.eqb (z * 2 ^ (- e)) sm
  | _ => false
  end.

Definition num_eq (x y : num) : bool :=
  match x, y with
  | NInt a, NInt b => Z.eqb a b
  | NFloat a, NFloat b => PrimFloat.eqb a b
  | NInt a, NFloat b => int_eq_float a b
  | NFloat a, NInt b => int_eq_float b a
  end.

Definition Timestamp_eqb (a b : Timestamp) : bool :=
  Nat.eqb (ts_year a) (ts_year b) && Nat.eqb (ts_month a) (ts_month b)
  && Nat.eqb (ts_day a) (ts_day b).

(** [a == b] *)
Definition py_eq (a b : value) : bool :=
  match as_num a, as_num b with
  | Some x, Some y => num_eq x y
  | _, _ =>
      match a, b with
      | VNone, VNone => true
      | VStr s, VStr t => String.eqb s t
      | VTimestamp s, VTimestamp t => Timestamp_eqb s t
      | _, _ => false
      end
  end.

(** A dict finds a key that is the same object or that compares equal.
    [pd.NaT] is a singleton, so it finds itself although [NaT == NaT] is
    false.  The other scalars carry no identity of their own: this is the
    test by equality, under which a NaN finds nothing, and the grouping
    below adds the identity of the keys that it uses. *)
Definition key_match (a b : value) : bool :=
  match a, b with
  | VNaT, VNaT => true
  | _, _ => py_eq a b
  end.

(** ** Text *)

Definition zfill (width : nat) (s : string) : string :=
  str_repeat "0" (width - String.length s) +:+ s.

(** [ts.strftime("%Y-%m-%d")] *)
Definition strftime_Ymd (t : Timestamp) : string :=
  zfill 4 (pretty (ts_year t)) +:+ "-" +:+ zfill 2 (pretty (ts_month t))
  +:+ "-" +:+ zfill 2 (pretty (ts_day t)).

(** [ts.strftime("%d.%m.%Y")] *)
Definition strftime_dmY (t : Timestamp) : string :=
  zfill 2 (pretty (ts_day t)) +:+ "." +:+ zfill 2 (pretty (ts_month t))
  +:+ "." +:+ zfill 4 (pretty (ts_year t)).

(** [sub in s] for strings *)
Fixpoint str_contains (sub s : string) : bool :=
  String.prefix sub s
  || match s with
     | EmptyString => false
     | String _ s' => str_contains sub s'
     end.

(** [bool(j)] for a parsed JSON value *)
Definition json_truthy (j : json) : bool :=
  match j with
  | JNull => false
  | JBool b => b
  | JInt z => negb (Z.eqb z 0)
  | JFloat f => negb (PrimFloat.eqb f 0%float)
  | JStr s => negb (String.eqb s "")
  | JObj fields => match fields with [] => false | _ => true end
  end.

(** [j == s] for a string [s] *)
Definition json_eq_str (j : json) (s : string) : bool :=
  match j with
  | JStr t => String.eqb t s
  | _ => false
  end.

(** The JSON scalars as record values; an object is none. *)
Definition value_of_json (j : json) : option value :=
  match j with
  | JNull => Some VNone
  | JBool b => Some (VBool b)
  | JInt z => Some (VInt z)
  | JFloat f => Some (VFloat f)
  | JStr s => Some (VStr s)
  | JObj _ => None
  end.

(** [v * j]: no type multiplies with a dict. *)
Definition py_mul_json (v : value) (j : json) : Res value :=
  match value_of_json j with
  | Some r => py_mul v r
  | None => Raise TypeError
  end.

(** [v.strftime(fmt)]: [pd.NaT] refuses with a [ValueError], and only the
    date scalars have the method. *)
Definition strftime (v : value) (fmt : Timestamp -> string) : Res string :=
  match v with
  | VTimestamp t => Ok (fmt t)
  | VNaT => Raise ValueError
  | _ => Raise AttributeError
  end.

(** [v.year]: [pd.NaT.year] is NaN. *)
Definition year_of (v : value) : Res value :=
  match v with
  | VTimestamp t => Ok (VInt (Z.of_nat (ts_year t)))
  | VNaT => Ok (VFloat PrimFloat.nan)
  | _ => Raise AttributeError
  end.

(** ** The module's state *)

(** What [requests.get] returns: the status code and the body, [None]
    when [json.loads] rejects it. *)
Record Response := { status_code : Z; content : option json }.

(** [EXCHANGE_CACHE] holds the decoded responses, oldest first.
    [requests_log] lists the URLs fetched so far: it is not in the Python
    module and only counts the calls of [requests.get]. *)
Record World := {
  EXCHANGE_CACHE : list (list (string * json));
  requests_log : list string
}.

Definition CURRENCY_API : string := "https://api.frankfurter.app".

(** [full_url] of [get_exchange_trade] *)
Definition rate_url (date base : string) : string :=
  CURRENCY_API +:+ "/" +:+ date +:+ "?base=" +:+ base.

(** The world after one more call of [requests.get]. *)
Definition logged (full_url : string) (w : World) : World :=
  {| EXCHANGE_CACHE := EXCHANGE_CACHE w;
     requests_log := requests_log w ++ [full_url] |}.

(** The world after [EXCHANGE_CACHE.append(api_return)]. *)
Definition cached (api_return : list (string * json)) (w : World) : World :=
  {| EXCHANGE_CACHE := EXCHANGE_CACHE w ++ [api_return];
     requests_log := requests_log w |}.

(** The cache scan of [get_exchange_trade]: the loop has no [break], so
    the last response whose ["date"] equals [date] gives the rates. *)
Definition cached_rates (date : string) (cache : list (list (string * json))) : json :=
  fold_left
    (fun rates dict_elem =>
       if json_eq_str (dict_get dict_elem "date" JNull) date
       then dict_get dict_elem "rates" JNull
       else rates)
    cache JNull.

Definition cache_append (api_return : list (string * json)) : M World unit :=
  fun w => (Ok tt, cached api_return w).

(** ** Dict objects and the report's grouping *)

(** [generate_pretty_table_with_hierarchy] assigns into the dicts of its
    input list, and the groups it builds hold the same objects.  A dict
    object is therefore an address into a store, and a list of records is a
    list of addresses.  The store also tells which object each record
    holds under "PlanType", the one value of a record that becomes a dict
    key: a dict finds a key that is the same object even when the key
    does not equal itself, as a NaN. *)
Definition ref := nat.

Record heap := {
  dict_at :> ref -> dict;
  key_object : ref -> nat
}.

(** The dict at [r] is replaced by one with the same plan-type object. *)
Definition heap_set (h : heap) (r : ref) (d : dict) : heap :=
  {| dict_at := fun r' => if Nat.eqb r' r then d else h r';
     key_object := key_object h |}.

(** Insertion-ordered dicts keyed by a scalar that equals itself. *)
Section VDict.
Context {A : Type}.

Fixpoint vdict_lookup (d : list (value * A)) (k : value) : option A :=
  match d with
  | [] => None
  | (k', a) :: d' => if key_match k' k then Some a else vdict_lookup d' k
  end.

(** [d[k] = a]: a key already present stays as it is and where it is. *)
Fixpoint vdict_set (d : list (value * A)) (k : value) (a : A) : list (value * A) :=
  match d with
  | [] => [(k, a)]
  | (k', a') :: d' =>
      if key_match k' k then (k', a) :: d' else (k', a') :: vdict_set d' k a
  end.
End VDict.

(** The same for any key: [found] is the test [stored is key or stored ==
    key] of a slot against the key that is looked up or assigned. *)
Section Slots.
Context {A : Type} (found : value * A -> bool).

Fixpoint slot_lookup (d : list (value * A)) : option A :=
  match d with
  | [] => None
  | (k', a) :: d' => if found (k', a) then Some a else slot_lookup d'
  end.

Fixpoint slot_set (d : list (value * A)) (k : value) (a : A) : list (value * A) :=
  match d with
  | [] => [(k, a)]
  | (k', a') :: d' =>
      if found (k', a') then (k', a) :: d' else (k', a') :: slot_set d' k a
  end.
End Slots.

(** [grouped_data]: year, then plan type, then the records in input order. *)
Definition groups := list (value * list (value * list ref)).

(** The test for the year of an entry.  A year that equals itself is found
    by equality.  The other year is the NaN of [NaT.year], which is the
    one object [np.nan] and finds the slot that it made.  (No pass of the
    loop gets to the grouping with that year.) *)
Definition year_found {A} (year : value) (slot : value * A) : bool :=
  if key_match year year then key_match slot.1 year
  else negb (key_match slot.1 slot.1).

(** The test for the plan type of [entry] in the dict of its year.  A plan
    type that equals itself is found by equality: the same object is then
    an equal one.  A plan type that does not (a NaN) is found by identity
    alone, under a key that is a NaN as well.  The key of a slot is the
    plan-type object of the record that made the slot, the first of its
    records; a slot without records is the one that this pass has just
    made for this object. *)
Definition plan_found (h : heap) (entry : ref) (plan_type : value)
    (slot : value * list ref) : bool :=
  if key_match plan_type plan_type then key_match slot.1 plan_type
  else negb (key_match slot.1 slot.1)
       && match slot.2 with
          | first :: _ => Nat.eqb (key_object h first) (key_object h entry)
          | [] => true
          end.

(** The three statements that file an entry under its year and plan type. *)
Definition group_add (h : heap) (grouped_data : groups) (year plan_type : value)
    (entry : ref) : groups :=
  let of_year := year_found year in
  let of_plan := plan_found h entry plan_type in
  let grouped_data :=
    match slot_lookup of_year grouped_data with
    | Some _ => grouped_data
    | None => slot_set of_year grouped_data year []
    end in
  let plans := default [] (slot_lookup of_year grouped_data) in
  let plans :=
    match slot_lookup of_plan plans with
    | Some _ => plans
    | None => slot_set of_plan plans plan_type []
    end in
  let records := default [] (slot_lookup of_plan plans) in
  slot_set of_year grouped_data year
    (slot_set of_plan plans plan_type (records ++ [entry])).

(** One pass of the grouping loop for the entry at index [i].  A missing
    key is re-raised as a [KeyError] that names the index; the date is
    overwritten before the plan type is read. *)
Definition group_entry (filter_year : option Z) (i : nat) (entry : ref)
    (grouped_data : groups) : M heap groups :=
  h ← get_state;
  match dict_lookup (dict_at h entry) "Verkaufsdatum" with
  | None => lift (Raise (KeyError "Verkaufsdatum" (Some i)))
  | Some date =>
      year ← lift (year_of date);
      let skip :=
        match filter_year with
        | Some fy => negb (Z.eqb fy 0) && negb (py_eq year (VInt fy))
        | None => false
        end in
      if skip then mret grouped_data
      else
        shown ← lift (strftime date strftime_dmY);
        put_state (heap_set h entry (dict_set (h entry) "Verkaufsdatum" (VStr shown)));;
        h ← get_state;
        match dict_lookup (dict_at h entry) "PlanType" with
        | None => lift (Raise (KeyError "PlanType" (Some i)))
        | Some plan_type => mret (group_add h grouped_data year plan_type entry)
        end
  end.

Fixpoint group_loop (filter_year : option Z) (i : nat) (data : list ref)
    (grouped_data : groups) : M heap groups :=
  match data with
  | [] => mret grouped_data
  | entry :: rest =>
      grouped_data ← group_entry filter_year i entry grouped_data;
      group_loop filter_year (S i) rest grouped_data
  end.

(** The (year, plan type, records) triples in the order of the two nested
    [items()] loops. *)
Definition group_list (grouped_data : groups) : list (value * value * list ref) :=
  concat (map (fun yp => map (fun pr => (fst yp, fst pr, snd pr)) (snd yp)) grouped_data).

(** A [PrettyTable]: its field names and the rows added to it.  Its own
    checks (distinct field names, rows as wide as the header) hold for the
    tables built here. *)
Record Table := { field_names : list string; rows : list (list value) }.

(** [key in names] for a list of strings *)
Definition str_in (key : string) (names : list string) : bool :=
  existsb (String.eqb key) names.

(** The defaults of [exclude_fields] and [exclude_total]. *)
Definition default_exclude_fields : list string := ["PurchasePrice"].
Definition default_exclude_total : list string :=
  ["Gewinn/Verlust"; "Order"; "Verkaufsdatum"; "Rabatt (inkl.)"; "Type"].

(** A pandas row of [read_csv] after the column selection, renaming and
    coercions: the two cleaned columns are floats, [SaleDate] is a
    Timestamp or [NaT] ([None] here), the others hold what pandas parsed. *)
Record Row := {
  PlanType : value;
  OrderType : value;
  SharesSold : value;
  SaleDate : option Timestamp;
  OrderNumber : value;
  GainLossPerShare : float;
  AdjustedCostPerShare : float;
  PurchasePrice : value
}.

Definition date_value (d : option Timestamp) : value :=
  match d with Some t => VTimestamp t | None => VNaT end.

Section Collaborators.

(** The HTTP client: the response to a URL, given the URLs fetched before. *)
Variable requests_get : list string -> string -> Res Response.
(** [locale.currency(value, symbol=False, grouping=True)] under de_DE. *)
Variable locale_currency : float -> string.
(** [repr] of a float, which is also its [str]. *)
Variable repr_float : float -> string.

(** [str(v)] *)
Definition py_str (v : value) : string :=
  match v with
  | VNone => "None"
  | VBool true => "True"
  | VBool false => "False"
  | VInt z => pretty z
  | VFloat f => repr_float f
  | VStr s => s
  | VTimestamp t => strftime_Ymd t +:+ " 00:00:00"
  | VNaT => "NaT"
  end.

Definition fetch (full_url : string) : M World Response :=
  fun w => (requests_get (requests_log w) full_url, logged full_url w).

Definition get_exchange_trade (date base : string) (return_currency : option string)
    : M World json :=
  let full_url := rate_url date base in
  w ← get_state;
  let rates :=
    if (1 <=? length (EXCHANGE_CACHE w))%nat
    then cached_rates date (EXCHANGE_CACHE w)
    else JNull in
  rates ← match rates with
          | JNull =>
              req ← fetch full_url;
              if Z.eqb (status_code req) 200 then
                match content req with
                | None => lift (Raise ValueError)
                | Some (JObj api_return) =>
                    let rates := dict_get api_return "rates" JNull in
                    match rates with
                    | JObj _ => cache_append api_return;; mret rates
                    | _ => lift (Raise AssertionError)
                    end
                | Some _ => lift (Raise AttributeError)
                end
              else mret JNull
          | _ => mret rates
          end;
  match return_currency with
  | Some c =>
      if negb (String.eqb c "") then
        match rates with
        | JObj d => mret (dict_get d c JNull)
        | _ => lift (Raise AttributeError)
        end
      else mret rates
  | None => mret rates
  end.

(** [format_value] *)
Definition format_value (v : value) : string :=
  match v with
  | VFloat f => locale_currency f
  | _ => py_str v
  end.

(** The dict that the row loop of [read_csv] appends for one row. *)
Definition row_entry (row : Row) : dict :=
  [ ("OrderNumber", VStr (py_str (OrderNumber row)));
    ("SaleDate", date_value (SaleDate row));
    ("OrderType", OrderType row);
    ("PlanType", PlanType row);
    ("SharesSold", SharesSold row);
    ("AdjustedCostPerShare", VFloat (AdjustedCostPerShare row));
    ("GainLossPerShare", VFloat (GainLossPerShare row));
    ("PurchasePrice", PurchasePrice row);
    ("is_selltocover", VBool (str_contains "STC" (py_str (OrderType row)))) ].

(** [read_csv] from the cleaned data frame on. *)
Definition read_csv (rows : list Row) : list dict :=
  fold_left (fun return_list row => return_list ++ [row_entry row]) rows [].

(** The body of the loop of [parse_data]. *)
Definition parse_entry (exchange : bool) (entry : dict) : M World dict :=
  let espp := py_eq (dict_get entry "PlanType" VNone) (VStr "ESPP") in
  let is_selltocover := dict_get entry "is_selltocover" (VBool false) in
  let purchase_price_per_share :=
    if negb espp
    then dict_get entry "AdjustedCostPerShare" (VFloat 0%float)
    else dict_get entry "PurchasePrice" (VFloat 0%float) in
  sell_price_per_share ← lift (
    if negb espp
    then py_add (dict_get entry "AdjustedCostPerShare" VNone)
                (dict_get entry "GainLossPerShare" (VFloat 0%float))
    else Ok (dict_get entry "AdjustedCostPerShare" (VFloat 0%float)));
  gainloss_per_share ← lift (
    if negb espp
    then Ok (dict_get entry "GainLossPerShare" (VFloat 0%float))
    else py_sub sell_price_per_share purchase_price_per_share);
  total_value ← lift (py_mul sell_price_per_share (dict_get entry "SharesSold" (VInt 0)));
  kapitalertrag_usd ← lift (py_mul gainloss_per_share (dict_get entry "SharesSold" (VInt 0)));
  exchange_rate ← (
    if exchange then
      date ← lift (strftime (dict_get entry "SaleDate" VNone) strftime_Ymd);
      get_exchange_trade date "USD" (Some "EUR")
    else mret JNull);
  kapitalertrag_eur ← lift (
    if json_truthy exchange_rate
    then py_mul_json kapitalertrag_usd exchange_rate
    else Ok (VStr "n/a"));
  sale_date ← lift (dict_item entry "SaleDate");
  let updated_dict : dict :=
    [ ("Order", VStr (py_str (dict_get entry "OrderNumber" VNone)));
      ("Verkaufsdatum", sale_date);
      ("Type", dict_get entry "OrderType" VNone);
      ("PlanType", dict_get entry "PlanType" VNone);
      ("Anz.", dict_get entry "SharesSold" VNone);
      ("Kaufwert", purchase_price_per_share);
      ("Gewinn/Verlust", gainloss_per_share);
      ("Verkaufswert", sell_price_per_share);
      ("Orderwert", total_value);
      ("KapitalErtrag (USD)", kapitalertrag_usd);
      ("KapitalErtrag (EUR)", kapitalertrag_eur);
      ("is_selltocover", is_selltocover) ] in
  mret (if espp
        then dict_update updated_dict [("Rabatt (inkl.)", VStr "15%")]
        else updated_dict).

Fixpoint parse_loop (exchange : bool) (data parsed_data : list dict)
    : M World (list dict) :=
  match data with
  | [] => mret parsed_data
  | entry :: rest =>
      updated_dict ← parse_entry exchange entry;
      parse_loop exchange rest (parsed_data ++ [updated_dict])
  end.

Definition parse_data (data : list dict) (exchange : bool) : M World (list dict) :=
  if (length data <? 1)%nat then mret [] else parse_loop exchange data [].

(** ** The report *)

(** The column list of a table, from the keys of its first record. *)
Definition table_field_names (exclude_fields existing_keys : list string) : list string :=
  ["Year"; "PlanType"]
  ++ List.filter
       (fun key => negb (str_in key (["Year"; "PlanType"] ++ exclude_fields)))
       existing_keys.

(** The cell of the totals row under [field]. *)
Definition total_cell (exclude_total : list string) (h : heap) (records : list ref)
    (field : string) : Res value :=
  let column_values := map (fun record => dict_get (h record) field (VInt 0)) records in
  if negb (str_in field exclude_total) then
    total ← py_sum (map (fun x => if is_int_or_float x then x else VInt 0) column_values);
    Ok (VStr (format_value total))
  else Ok (VStr "").

(** The body of the loop over the groups. *)
Definition make_table (exclude_fields exclude_total : list string) (h : heap)
    (year plan_type : value) (records : list ref) : Res Table :=
  first ← match records with
          | [] => Raise IndexError
          | record :: _ => Ok record
          end;
  let existing_keys := dict_keys (h first) in
  let field_names := table_field_names exclude_fields existing_keys in
  let data_rows :=
    map (fun record =>
           [year; plan_type]
           ++ map (fun field => VStr (format_value (dict_get (h record) field (VStr ""))))
                  (drop 2 field_names))
        records in
  let rule := map (fun _ => VStr "----") field_names in
  totals ← mapM (total_cell exclude_total h records) (drop 2 field_names);
  let total_row := [VStr "Total"; VStr ""] ++ totals in
  Ok {| field_names := field_names; rows := data_rows ++ [rule] ++ [total_row] |}.

(** [data] is a list of dict objects by its type, so the [TypeError] of
    the first statement cannot arise.  Callers that leave
    [exclude_fields] or [exclude_total] out pass [default_exclude_fields]
    and [default_exclude_total]. *)
Definition generate_pretty_table_with_hierarchy (data : list ref)
    (filter_year : option Z) (exclude_fields exclude_total : list string)
    : M heap (list Table) :=
  let default_exclude := ["is_selltocover"] in
  let exclude_fields :=
    match exclude_fields ++ default_exclude with
    | [] => default_exclude
    | fields => fields
    end in
  grouped_data ← group_loop filter_year 0 data [];
  h ← get_state;
  lift (mapM (fun g => make_table exclude_fields exclude_total h g.1.1 g.1.2 g.2)
             (group_list grouped_data)).

End Collaborators.

(** ** Records as the data model types them *)

(** The field [k] of [entry] holds the float [x]. *)
Definition float_field (entry : dict) (k : string) (x : float) : Prop :=
  dict_lookup entry k = Some (VFloat x).

Definition has_float (entry : dict) (k : string) : bool :=
  match dict_lookup entry k with
  | Some (VFloat _) => true
  | _ => false
  end.

(** A trade record whose four numeric fields are floats and which has a
    sale date (a Timestamp or [NaT]). *)
Definition float_record (entry : dict) : bool :=
  has_float entry "AdjustedCostPerShare"
  && has_float entry "GainLossPerShare"
  && has_float entry "SharesSold"
  && has_float entry "PurchasePrice"
  && match dict_lookup entry "SaleDate" with Some _ => true | None => false end.

(** [entry.get("PlanType") == "ESPP"] *)
Definition is_espp (entry : dict) : bool :=
  py_eq (dict_get entry "PlanType" VNone) (VStr "ESPP").

(** ** The year filter and the records it meets *)

(** The year filter as the loop applies it to a Timestamp: [filter_year]
    is used when it is truthy, and compared with the year as integers. *)
Definition year_passes (filter_year : option Z) (t : Timestamp) : bool :=
  match filter_year with
  | Some fy => Z.eqb fy 0 || Z.eqb (Z.of_nat (ts_year t)) fy
  | None => true
  end.

(** The record after [entry["Verkaufsdatum"] = ...strftime("%d.%m.%Y")]. *)
Definition shown (d : dict) (t : Timestamp) : dict :=
  dict_set d "Verkaufsdatum" (VStr (strftime_dmY t)).

(** [filter_year] is given and truthy. *)
Definition filter_active (filter_year : option Z) : bool :=
  match filter_year with
  | Some fy => negb (Z.eqb fy 0)
  | None => false
  end.

(** Every record of [data] is a distinct object, with a Timestamp under
    Verkaufsdatum and a plan type, or, when a year filter is on, with
    [NaT] under Verkaufsdatum (no year equals its NaN year). *)
Definition dated_records (filter_year : option Z) (h : heap) (data : list ref) : Prop :=
  NoDup data
  /\ forall e, e ∈ data ->
       (exists t plan_type,
          dict_lookup (h e) "Verkaufsdatum" = Some (VTimestamp t)
          /\ dict_lookup (h e) "PlanType" = Some plan_type)
       \/ (filter_active filter_year = true
           /\ dict_lookup (h e) "Verkaufsdatum" = Some VNaT).

(** A record as the grouping loop leaves it. *)
Definition rendered_record (filter_year : option Z) (d : dict) : dict :=
  match dict_lookup d "Verkaufsdatum" with
  | Some (VTimestamp t) => if year_passes filter_year t then shown d t else d
  | _ => d
  end.

(** ** The command-line entry point *)

(** [bool(v)]: the date scalars, [pd.NaT] included, define no truth value
    of their own and are truthy as any object is. *)
Definition py_truthy (v : value) : bool :=
  match v with
  | VNone => false
  | VBool b => b
  | VInt z => negb (Z.eqb z 0)
  | VFloat f => negb (PrimFloat.eqb f 0%float)
  | VStr s => negb (String.eqb s "")
  | VTimestamp _ => true
  | VNaT => true
  end.

(** The test of the filter loop of [main]: the element is appended. *)
Definition kept (selltocover : bool) (elem : dict) : bool :=
  negb (py_truthy (dict_get elem "is_selltocover" (VBool false)) && negb selltocover).

(** The filter loop of [main], which builds [new_data]. *)
Definition main_filter (selltocover : bool) (data : list dict) : list dict :=
  if (0 <? length data)%nat
  then fold_left
         (fun new_data elem =>
            if kept selltocover elem then new_data ++ [elem] else new_data)
         data []
  else [].

(** The dict objects of a list that its builder alone holds: the object
    at position [r] of the list is at address [r], and [objects r] is the
    object that it holds under "PlanType". *)
Definition store_of (objects : ref -> nat) (items : list dict) : heap :=
  {| dict_at := fun r => default [] (items !! r); key_object := objects |}.

Definition refs_of (items : list dict) : list ref := seq 0 (length items).

Section Main.
Variable requests_get : list string -> string -> Res Response.
Variable locale_currency : float -> string.
Variable repr_float : float -> string.
(** What pandas does in [read_csv] before the row loop: it reads the file,
    selects and renames the columns and coerces the amounts and the dates.
    The result is the rows of the cleaned frame, or the exception of a
    file that cannot be read, of a missing column ([KeyError]) or of an
    amount that is no number ([ValueError]). *)
Variable cleaned_frame : string -> Res (list Row).
(** The object that pandas put into the plan-type cell of the row behind
    the line item at each position of [new_data]. *)
Variable plan_type_object : ref -> nat.

(** [main] from the parsed arguments on; it returns the tables that it
    prints, in order.  An exception of [read_csv] ends it before any line
    item is computed. *)
Definition main (input_file : string) (selltocover : bool) (year : option Z)
    (include_exchange : bool) : M World (list Table) :=
  rows ← lift (cleaned_frame input_file);
  data ← parse_data requests_get repr_float (read_csv repr_float rows) include_exchange;
  let new_data := main_filter selltocover data in
  tables ← lift (generate_pretty_table_with_hierarchy locale_currency repr_float
                   (refs_of new_data) year
                   default_exclude_fields default_exclude_total
                   (store_of plan_type_object new_data)).1;
  mret (if (0 <? length tables)%nat then tables else []).

End Main.

(** ** Vocabulary of the further properties *)

(** The response holds an object under ["rates"], as the assertion of
    [get_exchange_trade] demands before it caches one. *)
Definition has_rates (api_return : list (string * json)) : bool :=
  match dict_get api_return "rates" JNull with
  | JObj _ => true
  | _ => false
  end.

(** The response carries [date] in its ["date"] field. *)
Definition dated (date : string) (api_return : list (string * json)) : bool :=
  json_eq_str (dict_get api_return "date" JNull) date.

(** The keys of every line item, in the order in which [parse_data]
    writes them; an ESPP item has "Rabatt (inkl.)" after them. *)
Definition item_keys : list string :=
  [ "Order"; "Verkaufsdatum"; "Type"; "PlanType"; "Anz."; "Kaufwert";
    "Gewinn/Verlust"; "Verkaufswert"; "Orderwert"; "KapitalErtrag (USD)";
    "KapitalErtrag (EUR)"; "is_selltocover" ].

(** The numeric fields of the record are floats (the sale date may be
    missing). *)
Definition float_amounts (entry : dict) : bool :=
  has_float entry "AdjustedCostPerShare"
  && has_float entry "GainLossPerShare"
  && has_float entry "SharesSold"
  && has_float entry "PurchasePrice".

(** The rates for the record's sale date are in the cache, and hold
    [rate] under "EUR" ([JNull] when they have no such key). *)
Definition rate_cached (w : World) (entry : dict) (rate : json) : Prop :=
  exists t rates,
    dict_lookup entry "SaleDate" = Some (VTimestamp t)
    /\ cached_rates (strftime_Ymd t) (EXCHANGE_CACHE w) = JObj rates
    /\ dict_get rates "EUR" JNull = rate.

(** What the conversion stores for a USD gain and a looked-up rate that
    is a float or missing. *)
Definition in_eur (usd : float) (rate : json) : value :=
  match rate with
  | JFloat r => if PrimFloat.eqb r 0%float then VStr "n/a" else VFloat (PrimFloat.mul usd r)
  | _ => VStr "n/a"
  end.

(** The quantity and the purchase price of the row were parsed as floats. *)
Definition float_row (row : Row) : bool :=
  match SharesSold row, PurchasePrice row with
  | VFloat _, VFloat _ => true
  | _, _ => false
  end.

(** Keys that a dict finds by their value alone: a string, an integer or
    [None] equals only itself among such keys. *)
Definition plain_key (v : value) : bool :=
  match v with
  | VStr _ | VInt _ | VNone => true
  | _ => false
  end.

(** The plan type of every record of [data] is such a key. *)
Definition plain_plan_types (h : heap) (data : list ref) : Prop :=
  forall e plan_type,
    e ∈ data -> dict_lookup (h e) "PlanType" = Some plan_type ->
    plain_key plan_type = true.

(** The record passes the year filter and has the year [year] and the plan
    type [plan_type]. *)
Definition filed_under (filter_year : option Z) (year plan_type : value) (d : dict)
    : bool :=
  match dict_lookup d "Verkaufsdatum", dict_lookup d "PlanType" with
  | Some (VTimestamp t), Some p =>
      year_passes filter_year t
      && key_match (VInt (Z.of_nat (ts_year t))) year
      && key_match p plan_type
  | _, _ => false
  end.

(** [grouped_data.get(year, {}).get(plan_type, [])] *)
Definition records_of (grouped_data : groups) (year plan_type : value) : list ref :=
  default [] (vdict_lookup (default [] (vdict_lookup grouped_data year)) plan_type).

(** The keys of a dict of groups are plain and distinct. *)
Definition keys_ok {A} (d : list (value * A)) : Prop :=
  Forall (fun k => plain_key k = true) (map fst d) /\ NoDup (map fst d).

(** The shape of [grouped_data] over records with plain plan types: no
    year and no plan type of a year twice, and no empty list of records. *)
Definition groups_ok (grouped_data : groups) : Prop :=
  keys_ok grouped_data
  /\ Forall (fun yp => keys_ok yp.2 /\ Forall (fun pr => pr.2 <> []) yp.2) grouped_data.

(** The row of [record] in the table of [year] and [plan_type]. *)
Definition data_row (format : value -> string) (h : heap) (names : list string)
    (year plan_type : value) (record : ref) : list value :=
  [year; plan_type]
  ++ map (fun field => VStr (format (dict_get (h record) field (VStr ""))))
         (drop 2 names).

(** ** Example inputs *)

(** Stand-ins for the collaborators, to run the functions on examples;
    the properties below hold for every HTTP client and formatter. *)

Definition round_half_even (n d : Z) : Z :=
  let q := n / d in
  let r := n mod d in
  if (2 * r <? d)%Z then q
  else if (d <? 2 * r)%Z then q + 1
  else if Z.even q then q else q + 1.

(** The magnitude of a finite float in hundredths, rounded to nearest. *)
Definition hundredths (f : float) : option Z :=
  match Prim2SF f with
  | S754_zero _ => Some 0
  | S754_finite _ m e =>
      Some (if (0 <=? e)%Z then 100 * Z.pos m * 2 ^ e
            else round_half_even (100 * Z.pos m) (2 ^ (- e)))
  | _ => None
  end.

Fixpoint group_thousands (fuel : nat) (n : Z) : string :=
  match fuel with
  | O => pretty n
  | S fuel' =>
      if (n <? 1000)%Z then pretty n
      else group_thousands fuel' (n / 1000) +:+ "." +:+ zfill 3 (pretty (n mod 1000))
  end.

(** Two decimals after a comma and thousands grouped by dots, as the
    de_DE locale prints a finite amount. *)
Definition de_currency (f : float) : string :=
  match hundredths f with
  | Some c =>
      (if PrimFloat.ltb f 0%float then "-" else "")
      +:+ group_thousands 110 (c / 100) +:+ "," +:+ zfill 2 (pretty (c mod 100))
  | None => "nan"
  end.

(** [repr] of a float that is a whole number below 1e16, and of NaN; the
    examples print no other float with [str]. *)
Definition repr_whole (f : float) : string :=
  match hundredths f with
  | Some c => (if PrimFloat.ltb f 0%float then "-" else "") +:+ pretty (c / 100) +:+ ".0"
  | None => "nan"
  end.

(** A rate service asked for Sunday 2023-01-15: it answers with the rates
    of the last business day, and says so in ["date"]. *)
Definition weekend_service (log : list string) (url : string) : Res Response :=
  Ok {| status_code := 200;
        content := Some (JObj [ ("amount", JFloat 1%float);
                                ("base", JStr "USD");
                                ("date", JStr "2023-01-13");
                                ("rates", JObj [("EUR", JFloat 0.9375%float)]) ]) |}.

(** A rate service asked for Monday 2023-01-16. *)
Definition weekday_service (log : list string) (url : string) : Res Response :=
  Ok {| status_code := 200;
        content := Some (JObj [ ("amount", JFloat 1%float);
                                ("base", JStr "USD");
                                ("date", JStr "2023-01-16");
                                ("rates", JObj [ ("EUR", JFloat 0.9375%float);
                                                 ("GBP", JFloat 0.8125%float) ]) ]) |}.

(** A rate service that quotes a rate of zero. *)
Definition zero_service (log : list string) (url : string) : Res Response :=
  Ok {| status_code := 200;
        content := Some (JObj [ ("date", JStr "2023-01-16");
                                ("rates", JObj [("EUR", JFloat 0%float)]) ]) |}.

(** A rate service that is down. *)
Definition down_service (log : list string) (url : string) : Res Response :=
  Ok {| status_code := 503; content := None |}.

Definition fresh_world : World := {| EXCHANGE_CACHE := []; requests_log := [] |}.

(** The RSU row of the specification's example, sold on a Monday. *)
Definition rsu_row : Row :=
  {| PlanType := VStr "RSU"; OrderType := VStr "Sale"; SharesSold := VFloat 10%float;
     SaleDate := Some {| ts_year := 2023; ts_month := 1; ts_day := 16 |};
     OrderNumber := VInt 1; GainLossPerShare := 5%float;
     AdjustedCostPerShare := 20%float; PurchasePrice := VFloat 0%float |}.

(** The same row under the ESPP, bought at 17. *)
Definition espp_row : Row :=
  {| PlanType := VStr "ESPP"; OrderType := VStr "Sale"; SharesSold := VFloat 10%float;
     SaleDate := Some {| ts_year := 2023; ts_month := 1; ts_day := 16 |};
     OrderNumber := VInt 2; GainLossPerShare := 5%float;
     AdjustedCostPerShare := 20%float; PurchasePrice := VFloat 17%float |}.

(** A row whose date did not parse. *)
Definition undated_row : Row :=
  {| PlanType := VStr "RSU"; OrderType := VStr "Sale"; SharesSold := VFloat 10%float;
     SaleDate := None;
     OrderNumber := VInt 3; GainLossPerShare := 5%float;
     AdjustedCostPerShare := 20%float; PurchasePrice := VFloat 0%float |}.

(** A row sold in 2022. *)
Definition old_row : Row :=
  {| PlanType := VStr "RSU"; OrderType := VStr "Sale"; SharesSold := VFloat 4%float;
     SaleDate := Some {| ts_year := 2022; ts_month := 11; ts_day := 3 |};
     OrderNumber := VInt 4; GainLossPerShare := 2.5%float;
     AdjustedCostPerShare := 10%float; PurchasePrice := VFloat 0%float |}.

Definition order_type_row (order_type : string) : Row :=
  {| PlanType := VStr "RSU"; OrderType := VStr order_type; SharesSold := VFloat 3%float;
     SaleDate := Some {| ts_year := 2023; ts_month := 1; ts_day := 16 |};
     OrderNumber := VInt 5; GainLossPerShare := 5%float;
     AdjustedCostPerShare := 20%float; PurchasePrice := VFloat 0%float |}.

(** A store whose objects are the line items of the rows above, computed
    without conversion, at the addresses 0, 1, 2, 3. *)
Definition report_items : list dict :=
  match parse_data down_service repr_whole
          (read_csv repr_whole [rsu_row; rsu_row; old_row; undated_row]) false fresh_world with
  | (Ok items, _) => items
  | _ => []
  end.

Definition report_heap : heap := store_of (fun r => r) report_items.

(** A store with one record that still carries its purchase price. *)
Definition priced_heap : heap :=
  {| dict_at := fun _ =>
       [ ("Verkaufsdatum", VTimestamp {| ts_year := 2023; ts_month := 1; ts_day := 16 |});
         ("PlanType", VStr "RSU");
         ("PurchasePrice", VFloat 17%float) ];
     key_object := fun r => r |}.

(** The records of the two example rows, and of the row without a date. *)
Definition rsu_record : dict := row_entry repr_whole rsu_row.
Definition espp_record : dict := row_entry repr_whole espp_row.
Definition undated_record : dict := row_entry repr_whole undated_row.
Definition trade_records : list dict := read_csv repr_whole [rsu_row; espp_row].

(** The line items of [trade_records] without conversion, and with
    conversion against [weekday_service]. *)
Definition plain_items : list dict :=
  match parse_data down_service repr_whole trade_records false fresh_world with
  | (Ok items, _) => items
  | _ => []
  end.

Definition converted_items : list dict :=
  match parse_data weekday_service repr_whole trade_records true fresh_world with
  | (Ok items, _) => items
  | _ => []
  end.

Definition converted_world : World :=
  (parse_data weekday_service repr_whole trade_records true fresh_world).2.

(** The report of 2023 over [report_heap]. *)
Definition report_2023 : Res (list Table) * heap :=
  generate_pretty_table_with_hierarchy de_currency repr_whole
    [0%nat; 1%nat; 2%nat; 3%nat] (Some 2023) default_exclude_fields default_exclude_total
    report_heap.

Definition tables_of (r : Res (list Table)) : list Table :=
  match r with Ok tables => tables | Raise _ => [] end.

(** The report over [priced_heap], for a caller that excludes nothing. *)
Definition report_priced : Res (list Table) * heap :=
  generate_pretty_table_with_hierarchy de_currency repr_whole
    [0%nat] None [] default_exclude_total priced_heap.

(** A service that answers 200 with the given body. *)
Definition answering (body : option json) (log : list string) (url : string)
    : Res Response :=
  Ok {| status_code := 200; content := body |}.

(** Responses as a cache may hold them: Monday's rates, an earlier answer
    for the same Monday, and Friday's rates. *)
Definition monday_response : list (string * json) :=
  [ ("date", JStr "2023-01-16"); ("rates", JObj [("EUR", JFloat 0.9375%float)]) ].

Definition stale_response : list (string * json) :=
  [ ("date", JStr "2023-01-16"); ("rates", JObj [("EUR", JFloat 0.5%float)]) ].

Definition friday_response : list (string * json) :=
  [ ("date", JStr "2023-01-13"); ("rates", JObj [("EUR", JFloat 0.875%float)]) ].

(** A record that lacks its sale date, and records that lack their cost
    basis. *)
Definition dateless_record : dict :=
  [ ("PlanType", VStr "RSU"); ("SharesSold", VFloat 10%float);
    ("AdjustedCostPerShare", VFloat 20%float); ("GainLossPerShare", VFloat 5%float);
    ("PurchasePrice", VFloat 0%float) ].

Definition costless_record (plan_type : string) : dict :=
  [ ("PlanType", VStr plan_type);
    ("SaleDate", VTimestamp {| ts_year := 2023; ts_month := 1; ts_day := 16 |});
    ("SharesSold", VFloat 10%float); ("GainLossPerShare", VFloat 5%float);
    ("PurchasePrice", VFloat 17%float) ].

Definition costless_items : list dict :=
  match parse_data down_service repr_whole [costless_record "ESPP"] false fresh_world with
  | (Ok items, _) => items
  | _ => []
  end.

(** A store of three line items: a complete one, one without its date and
    one without its plan type. *)
Definition partial_items : list dict :=
  [ [ ("Verkaufsdatum", VTimestamp {| ts_year := 2023; ts_month := 1; ts_day := 16 |});
      ("PlanType", VStr "RSU"); ("Anz.", VFloat 10%float) ];
    [ ("PlanType", VStr "RSU"); ("Anz.", VFloat 4%float) ];
    [ ("Verkaufsdatum", VTimestamp {| ts_year := 2023; ts_month := 2; ts_day := 1 |});
      ("Anz.", VFloat 3%float) ] ].

Definition partial_heap : heap := store_of (fun r => r) partial_items.

(** Two line items whose plan type is missing, a NaN, and a complete one;
    their report of all years when each item holds a NaN of its own
    ([own_object]) and when the two hold one object ([one_object]). *)
Definition nan_items : list dict :=
  [ [ ("Verkaufsdatum", VTimestamp {| ts_year := 2023; ts_month := 1; ts_day := 16 |});
      ("PlanType", VFloat PrimFloat.nan); ("Anz.", VFloat 10%float) ];
    [ ("Verkaufsdatum", VTimestamp {| ts_year := 2023; ts_month := 2; ts_day := 1 |});
      ("PlanType", VFloat PrimFloat.nan); ("Anz.", VFloat 4%float) ];
    [ ("Verkaufsdatum", VTimestamp {| ts_year := 2023; ts_month := 2; ts_day := 1 |});
      ("PlanType", VStr "RSU"); ("Anz.", VFloat 3%float) ] ].

Definition report_nan (objects : ref -> nat) : Res (list Table) * heap :=
  generate_pretty_table_with_hierarchy de_currency repr_whole
    [0%nat; 1%nat; 2%nat] None default_exclude_fields default_exclude_total
    (store_of objects nan_items).

Definition own_object (r : ref) : nat := r.
Definition one_object (r : ref) : nat := Nat.pred r.

(** A file system in which every file cleans to [rows]. *)
Definition frame_of (rows : list Row) (input_file : string) : Res (list Row) := Ok rows.

(** ** Running the state monad *)

Lemma Ok_inj {A} (a b : A) : Ok a = Ok b -> a = b.
Proof. intros H. now inversion H. Qed.

Lemma bind_M_Ok {S A B} (m : M S A) (f : A -> M S B) (s s' : S) (b : B) :
  (m ≫= f) s = (Ok b, s') ->
  exists a s1, m s = (Ok a, s1) /\ f a s1 = (Ok b, s').
Proof.
  unfold mbind, M_bind, bind_M.
  destruct (m s) as [[a | e] s1]; intros H; [eauto | discriminate].
Qed.

Lemma bind_M_run {S A B} (m : M S A) (f : A -> M S B) (s s1 : S) (a : A) :
  m s = (Ok a, s1) -> (m ≫= f) s = f a s1.
Proof. intros H. unfold mbind, M_bind, bind_M. now rewrite H. Qed.

Lemma bind_M_raise {S A B} (m : M S A) (f : A -> M S B) (s s1 : S) (e : exn) :
  m s = (Raise e, s1) -> (m ≫= f) s = (Raise e, s1).
Proof. intros H. unfold mbind, M_bind, bind_M. now rewrite H. Qed.

Lemma lift_inv {S A} (r x : Res A) (s s' : S) :
  lift r s = (x, s') -> x = r /\ s' = s.
Proof. unfold lift. intros H. now inversion H. Qed.

Lemma mret_inv {S A} (a : A) (x : Res A) (s s' : S) :
  (mret a : M S A) s = (x, s') -> x = Ok a /\ s' = s.
Proof. unfold mret, M_ret, ret_M. intros H. now inversion H. Qed.

(** Invert the successful run of a sequence of binds. *)
Ltac run_all :=
  repeat match goal with
  | H : (_ ≫= _) _ = (Ok _, _) |- _ =>
      apply bind_M_Ok in H; destruct H as (? & ? & ? & H)
  | H : lift _ _ = (_, _) |- _ =>
      apply lift_inv in H; destruct H as [H ?]; subst
  | H : mret _ _ = (_, _) |- _ =>
      apply mret_inv in H; destruct H as [H ?]; subst
  end.

(** ** The exchange-rate lookup *)

Section Exchange.
Variable requests_get : list string -> string -> Res Response.

Lemma cached_rates_guard (date : string) (cache : list (list (string * json))) :
  (if (1 <=? length cache)%nat then cached_rates date cache else JNull)
  = cached_rates date cache.
Proof. now destruct cache. Qed.

Lemma cached_rates_snoc (date : string) (cache : list (list (string * json)))
    (api_return : list (string * json)) :
  cached_rates date (cache ++ [api_return])
  = if json_eq_str (dict_get api_return "date" JNull) date
    then dict_get api_return "rates" JNull
    else cached_rates date cache.
Proof. unfold cached_rates. now rewrite fold_left_app. Qed.

(** A lookup that finds rates in the cache fetches nothing. *)
Lemma get_exchange_trade_hit (date base c : string) (w : World)
    (rates : list (string * json)) :
  cached_rates date (EXCHANGE_CACHE w) = JObj rates ->
  c <> "" ->
  get_exchange_trade requests_get date base (Some c) w
  = (Ok (dict_get rates c JNull), w).
Proof.
  intros Hhit Hc. unfold get_exchange_trade.
  unfold mbind, M_bind, bind_M, get_state. rewrite cached_rates_guard, Hhit.
  cbn. apply String.eqb_neq in Hc. now rewrite Hc.
Qed.

(** A lookup that misses the cache and is answered with status 200 and a
    JSON object whose ["rates"] is an object: one fetch, the whole response
    appended to the cache. *)
Lemma get_exchange_trade_fetched (date base c : string) (w : World)
    (resp : Response) (api_return rates : list (string * json)) :
  cached_rates date (EXCHANGE_CACHE w) = JNull ->
  requests_get (requests_log w) (rate_url date base) = Ok resp ->
  status_code resp = 200 ->
  content resp = Some (JObj api_return) ->
  dict_get api_return "rates" JNull = JObj rates ->
  c <> "" ->
  get_exchange_trade requests_get date base (Some c) w
  = (Ok (dict_get rates c JNull), cached api_return (logged (rate_url date base) w)).
Proof.
  intros Hmiss Hget Hstatus Hcontent Hrates Hc. unfold get_exchange_trade.
  unfold mbind, M_bind, bind_M, get_state, fetch.
  rewrite cached_rates_guard, Hmiss, Hget, Hstatus, Hcontent, Hrates.
  cbn. apply String.eqb_neq in Hc. now rewrite Hc.
Qed.

(** A lookup that misses the cache and is answered with another status
    reaches [rates.get(return_currency)] with [rates] still [None]. *)
Lemma get_exchange_trade_failed (date base c : string) (w : World) (resp : Response) :
  cached_rates date (EXCHANGE_CACHE w) = JNull ->
  requests_get (requests_log w) (rate_url date base) = Ok resp ->
  status_code resp <> 200 ->
  c <> "" ->
  get_exchange_trade requests_get date base (Some c) w
  = (Raise AttributeError, logged (rate_url date base) w).
Proof.
  intros Hmiss Hget Hstatus Hc. unfold get_exchange_trade.
  unfold mbind, M_bind, bind_M, get_state, fetch.
  rewrite cached_rates_guard, Hmiss, Hget.
  apply Z.eqb_neq in Hstatus. rewrite Hstatus.
  cbn. apply String.eqb_neq in Hc. now rewrite Hc.
Qed.

(** Without a return currency the same lookup returns [None]. *)
Lemma get_exchange_trade_failed_no_currency (date base : string) (w : World)
    (resp : Response) :
  cached_rates date (EXCHANGE_CACHE w) = JNull ->
  requests_get (requests_log w) (rate_url date base) = Ok resp ->
  status_code resp <> 200 ->
  get_exchange_trade requests_get date base None w
  = (Ok JNull, logged (rate_url date base) w).
Proof.
  intros Hmiss Hget Hstatus. unfold get_exchange_trade.
  unfold mbind, M_bind, bind_M, get_state, fetch.
  rewrite cached_rates_guard, Hmiss, Hget.
  apply Z.eqb_neq in Hstatus. now rewrite Hstatus.
Qed.

(** C3, as the code has it.  When the fetch of a lookup with a target
    currency is answered with a status other than 200, the lookup raises
    [AttributeError] after the one request: it does not return [None]. *)
Theorem failed_fetch_raises (date base target : string) (w : World) (resp : Response) :
  cached_rates date (EXCHANGE_CACHE w) = JNull ->
  requests_get (requests_log w) (rate_url date base) = Ok resp ->
  status_code resp <> 200 ->
  target <> "" ->
  get_exchange_trade requests_get date base (Some target) w
  = (Raise AttributeError, logged (rate_url date base) w).
Proof. apply get_exchange_trade_failed. Qed.

(** C4, amended.  When the first lookup for a date fetches successfully and
    the response carries that same date in its ["date"] field, the lookup
    issues one request, and a second lookup for the date issues none and
    leaves the cache as it is: it is answered from the rates of the cached
    response, for the same target currency with the same value and for
    any other target (and any base) from the same response. *)
Theorem cache_second_lookup (date base base2 target target2 : string) (w : World)
    (resp : Response) (api_return rates : list (string * json)) :
  cached_rates date (EXCHANGE_CACHE w) = JNull ->
  requests_get (requests_log w) (rate_url date base) = Ok resp ->
  status_code resp = 200 ->
  content resp = Some (JObj api_return) ->
  dict_get api_return "rates" JNull = JObj rates ->
  json_eq_str (dict_get api_return "date" JNull) date = true ->
  target <> "" ->
  target2 <> "" ->
  exists w1,
    get_exchange_trade requests_get date base (Some target) w
    = (Ok (dict_get rates target JNull), w1)
    /\ requests_log w1 = requests_log w ++ [rate_url date base]
    /\ get_exchange_trade requests_get date base2 (Some target2) w1
       = (Ok (dict_get rates target2 JNull), w1).
Proof.
  intros Hmiss Hget Hstatus Hcontent Hrates Hdate Ht Ht2.
  eexists. split; [eapply get_exchange_trade_fetched; eassumption |].
  split; [reflexivity |].
  apply get_exchange_trade_hit; [| assumption].
  unfold cached, logged. cbn [EXCHANGE_CACHE]. now rewrite cached_rates_snoc, Hdate.
Qed.

End Exchange.

(** ** What one pass of [parse_data] computes *)

Section ParseEntry.
Variable requests_get : list string -> string -> Res Response.
Variable repr_float : float -> string.

(** A successful pass read the sale date, computed the four amounts with
    the operators of the plan type's branch, and stored them under the
    German column names. *)
Lemma parse_entry_Ok (exchange : bool) (entry item : dict) (w w' : World) :
  parse_entry requests_get repr_float exchange entry w = (Ok item, w') ->
  exists purchase sell gain total usd eur date,
    purchase = (if is_espp entry
                then dict_get entry "PurchasePrice" (VFloat 0%float)
                else dict_get entry "AdjustedCostPerShare" (VFloat 0%float))
    /\ (if is_espp entry
        then sell = dict_get entry "AdjustedCostPerShare" (VFloat 0%float)
        else py_add (dict_get entry "AdjustedCostPerShare" VNone)
                    (dict_get entry "GainLossPerShare" (VFloat 0%float)) = Ok sell)
    /\ (if is_espp entry
        then py_sub sell purchase = Ok gain
        else gain = dict_get entry "GainLossPerShare" (VFloat 0%float))
    /\ py_mul sell (dict_get entry "SharesSold" (VInt 0)) = Ok total
    /\ py_mul gain (dict_get entry "SharesSold" (VInt 0)) = Ok usd
    /\ dict_lookup entry "SaleDate" = Some date
    /\ (if exchange
        then exists day rate,
               strftime date strftime_Ymd = Ok day
               /\ get_exchange_trade requests_get day "USD" (Some "EUR") w = (Ok rate, w')
               /\ (if json_truthy rate
                   then py_mul_json usd rate = Ok eur
                   else eur = VStr "n/a")
        else w' = w /\ eur = VStr "n/a")
    /\ dict_lookup item "Verkaufsdatum" = Some date
    /\ dict_lookup item "Kaufwert" = Some purchase
    /\ dict_lookup item "Gewinn/Verlust" = Some gain
    /\ dict_lookup item "Verkaufswert" = Some sell
    /\ dict_lookup item "Orderwert" = Some total
    /\ dict_lookup item "KapitalErtrag (USD)" = Some usd
    /\ dict_lookup item "KapitalErtrag (EUR)" = Some eur
    /\ dict_lookup item "Rabatt (inkl.)"
       = (if is_espp entry then Some (VStr "15%") else None).
Proof.
  unfold parse_entry. fold (is_espp entry). intros H.
  run_all.
  destruct (is_espp entry) eqn:Hespp; simpl in *.
  all: destruct exchange.
  all: run_all.
  all: try match goal with H : Ok _ = dict_item _ _ |- _ => unfold dict_item in H end.
  all: destruct (dict_lookup entry "SaleDate") as [date|] eqn:Hdate; try discriminate.
  all: repeat match goal with
         | H : Ok _ = Ok _ |- _ => inversion H; subst; clear H
         | H : Ok _ = (if json_truthy JNull then _ else _) |- _ =>
             cbn [json_truthy] in H
         | H : Ok _ = strftime (dict_get _ _ _) _ |- _ =>
             unfold dict_get in H; rewrite Hdate in H
         end.
  all: eexists _, _, _, _, _, _, _.
  all: repeat match goal with |- _ /\ _ => split end.
  all: try reflexivity; try (symmetry; eassumption).
  all: try (eexists _, _; split; [symmetry; eassumption | split; [eassumption |]]).
  all: try match goal with
           | H : Ok _ = (if json_truthy ?r then _ else _) |- _ =>
               destruct (json_truthy r); [now symmetry | now inversion H]
           end.
Qed.
(** Without conversion a pass leaves the cache and the request log alone,
    whatever it returns. *)
Lemma parse_entry_no_exchange (entry : dict) (w w' : World) (r : Res dict) :
  parse_entry requests_get repr_float false entry w = (r, w') -> w' = w.
Proof.
  unfold parse_entry, mbind, M_bind, bind_M, lift, mret, M_ret, ret_M.
  repeat match goal with
         | |- context [match ?x with Ok _ => _ | Raise _ => _ end] => destruct x
         | |- context [let (_, _) := ?x in _] => destruct x
         end.
  all: intros H; now inversion H.
Qed.

(** A record with float fields passes when no conversion is asked for. *)
Lemma parse_entry_floats (entry : dict) (w : World) :
  float_record entry = true ->
  exists item, parse_entry requests_get repr_float false entry w = (Ok item, w).
Proof.
  unfold float_record, has_float. intros H.
  repeat (apply andb_prop in H; destruct H as [H ?]).
  repeat match goal with
         | H : match dict_lookup ?e ?k with _ => _ end = true |- _ =>
             let E := fresh "E" in
             destruct (dict_lookup e k) as [[]|] eqn:E; try discriminate; clear H
         end.
  all: unfold parse_entry, dict_get, dict_item.
  all: repeat match goal with E : dict_lookup _ _ = _ |- _ => rewrite E; clear E end.
  all: destruct (py_eq _ _); cbn; eauto.
Qed.

Lemma parse_data_loop (data : list dict) (exchange : bool) (w : World) :
  parse_data requests_get repr_float data exchange w
  = parse_loop requests_get repr_float exchange data [] w.
Proof. unfold parse_data. now destruct data. Qed.

Lemma parse_loop_acc (exchange : bool) (data : list dict) :
  forall (acc parsed : list dict) (w w' : World),
    parse_loop requests_get repr_float exchange data acc w = (Ok parsed, w') ->
    exists items, parsed = acc ++ items.
Proof.
  induction data as [| entry rest IH]; intros acc parsed w w' H; cbn in H.
  - run_all. inversion H; subst. exists []. now rewrite app_nil_r.
  - run_all. apply IH in H. destruct H as (items & ->).
    eexists (_ :: items). now rewrite <- app_assoc.
Qed.

(** The loop of [parse_data] met the entry at position [i] in the state
    that the entries before it left, and appended what the pass over it
    returned. *)
Lemma parse_loop_nth (exchange : bool) (data : list dict) :
  forall (acc parsed : list dict) (w w' : World) (i : nat) (entry : dict),
    parse_loop requests_get repr_float exchange data acc w = (Ok parsed, w') ->
    data !! i = Some entry ->
    exists item wi wi',
      parsed !! (length acc + i)%nat = Some item
      /\ parse_loop requests_get repr_float exchange (take i data) acc w
         = (Ok (take (length acc + i) parsed), wi)
      /\ parse_entry requests_get repr_float exchange entry wi = (Ok item, wi').
Proof.
  induction data as [| e rest IH]; intros acc parsed w w' i entry H Hi;
    [discriminate Hi |].
  cbn in H. apply bind_M_Ok in H. destruct H as (item0 & w0 & Hpass0 & H).
  destruct i as [| j]; cbn in Hi.
  - inversion Hi; subst e. destruct (parse_loop_acc _ _ _ _ _ _ H) as [items ->].
    exists item0, w, w0. rewrite Nat.add_0_r, <- app_assoc.
    split; [now apply list_lookup_middle |].
    split; [| assumption]. cbn. now rewrite take_app_length.
  - destruct (IH _ _ _ _ _ _ H Hi) as (item & wi & wi' & Hitem & Hpre & Hpass).
    rewrite length_app in Hitem, Hpre. cbn [length] in Hitem, Hpre.
    replace (length acc + 1 + j)%nat with (length acc + S j)%nat in Hitem, Hpre by lia.
    exists item, wi, wi'. split; [assumption |]. split; [| assumption].
    cbn [take parse_loop]. now rewrite (bind_M_run _ _ _ _ _ Hpass0).
Qed.

(** For [parse_data]: the item at position [i] of the result is what a
    pass over the entry at position [i] returned, in the state that
    [parse_data] leaves after the entries before it. *)
Lemma parse_data_Ok_nth (data parsed : list dict) (exchange : bool) (w w' : World)
    (i : nat) (entry : dict) :
  parse_data requests_get repr_float data exchange w = (Ok parsed, w') ->
  data !! i = Some entry ->
  exists item wi wi',
    parsed !! i = Some item
    /\ parse_data requests_get repr_float (take i data) exchange w
       = (Ok (take i parsed), wi)
    /\ parse_entry requests_get repr_float exchange entry wi = (Ok item, wi').
Proof.
  rewrite !parse_data_loop. intros H Hi.
  exact (parse_loop_nth exchange data [] parsed w w' i entry H Hi).
Qed.

Lemma parse_loop_floats (data : list dict) :
  Forall (fun entry => float_record entry = true) data ->
  forall (acc : list dict) (w : World),
    exists parsed,
      parse_loop requests_get repr_float false data acc w = (Ok parsed, w).
Proof.
  induction 1 as [| entry rest Hentry _ IH]; intros acc w; cbn.
  - eexists. reflexivity.
  - destruct (parse_entry_floats entry w Hentry) as (item & Hitem).
    rewrite (bind_M_run _ _ _ _ _ Hitem). apply IH.
Qed.

Lemma parse_data_floats (data : list dict) (w : World) :
  Forall (fun entry => float_record entry = true) data ->
  exists parsed, parse_data requests_get repr_float data false w = (Ok parsed, w).
Proof.
  intros H. unfold parse_data. destruct (length data <? 1)%nat.
  - eexists. reflexivity.
  - now apply parse_loop_floats.
Qed.

Lemma parse_loop_no_exchange (data : list dict) :
  forall (acc : list dict) (w w' : World) (r : Res (list dict)),
    parse_loop requests_get repr_float false data acc w = (r, w') -> w' = w.
Proof.
  induction data as [| entry rest IH]; intros acc w w' r H; cbn in H.
  - now apply mret_inv in H.
  - unfold mbind, M_bind, bind_M in H.
    destruct (parse_entry _ _ _ _ _) as [[item | e] w1] eqn:Hentry.
    + apply parse_entry_no_exchange in Hentry. subst w1. now apply IH in H.
    + apply parse_entry_no_exchange in Hentry. inversion H. congruence.
Qed.

(** ** The two plan-type branches *)

(** C1.  For a record whose plan type is "ESPP", with float cost basis [a]
    and purchase price [p]: the line item has purchase value [p] (Kaufwert),
    sale value [a] (Verkaufswert), gain/loss per share [a - p]
    (Gewinn/Verlust), whatever the record holds under GainLossPerShare, and
    the discount annotation "15%" (Rabatt (inkl.)).  Without conversion,
    float records always produce their line items. *)
Theorem parse_data_espp (data : list dict) (w : World) (i : nat) (entry : dict)
    (a p : float) :
  data !! i = Some entry ->
  is_espp entry = true ->
  float_field entry "AdjustedCostPerShare" a ->
  float_field entry "PurchasePrice" p ->
  (Forall (fun e => float_record e = true) data ->
   exists parsed, parse_data requests_get repr_float data false w = (Ok parsed, w))
  /\ (forall exchange parsed w',
        parse_data requests_get repr_float data exchange w = (Ok parsed, w') ->
        exists item,
          parsed !! i = Some item
          /\ dict_lookup item "Kaufwert" = Some (VFloat p)
          /\ dict_lookup item "Verkaufswert" = Some (VFloat a)
          /\ dict_lookup item "Gewinn/Verlust" = Some (VFloat (PrimFloat.sub a p))
          /\ dict_lookup item "Rabatt (inkl.)" = Some (VStr "15%")).
Proof.
  intros Hi Hespp Ha Hp. split; [apply parse_data_floats |].
  intros exchange parsed w' Hrun.
  destruct (parse_data_Ok_nth _ _ _ _ _ _ _ Hrun Hi)
    as (item & wi & wi' & Hitem & Hbefore & Hpass).
  apply parse_entry_Ok in Hpass.
  destruct Hpass as (purchase & sell & gain & total & usd & eur & date & Hpass).
  rewrite Hespp in Hpass. unfold float_field in Ha, Hp. unfold dict_get in Hpass.
  rewrite Ha, Hp in Hpass.
  destruct Hpass as (-> & -> & Hgain & _ & _ & _ & _ & _ & HK & HG & HV & _ & _ & _ & HR).
  cbn in Hgain. inversion Hgain; subst gain. eauto 8.
Qed.

(** C2.  For a record whose plan type is not "ESPP", with float cost basis
    [a] and gain/loss per share [g]: the line item has purchase value [a],
    sale value [a + g] and gain/loss per share [g] unchanged.  For a record
    of either plan type with [s] shares sold, the order value is the sale
    value times [s] and the gain in USD is the gain/loss per share times
    [s].  Without conversion, float records always produce their line
    items. *)
Theorem parse_data_non_espp (data : list dict) (w : World) (i : nat) (entry : dict)
    (a g s p : float) :
  data !! i = Some entry ->
  float_field entry "AdjustedCostPerShare" a ->
  float_field entry "GainLossPerShare" g ->
  float_field entry "SharesSold" s ->
  float_field entry "PurchasePrice" p ->
  (Forall (fun e => float_record e = true) data ->
   exists parsed, parse_data requests_get repr_float data false w = (Ok parsed, w))
  /\ (forall exchange parsed w',
        parse_data requests_get repr_float data exchange w = (Ok parsed, w') ->
        exists item sell gain,
          parsed !! i = Some item
          /\ dict_lookup item "Verkaufswert" = Some (VFloat sell)
          /\ dict_lookup item "Gewinn/Verlust" = Some (VFloat gain)
          /\ dict_lookup item "Orderwert" = Some (VFloat (PrimFloat.mul sell s))
          /\ dict_lookup item "KapitalErtrag (USD)"
             = Some (VFloat (PrimFloat.mul gain s))
          /\ (is_espp entry = false ->
              dict_lookup item "Kaufwert" = Some (VFloat a)
              /\ sell = PrimFloat.add a g
              /\ gain = g)).
Proof.
  intros Hi Ha Hg Hs Hp. split; [apply parse_data_floats |].
  intros exchange parsed w' Hrun.
  destruct (parse_data_Ok_nth _ _ _ _ _ _ _ Hrun Hi)
    as (item & wi & wi' & Hitem & Hbefore & Hpass).
  apply parse_entry_Ok in Hpass.
  destruct Hpass as (purchase & sell & gain & total & usd & eur & date & Hpass).
  unfold float_field in Ha, Hg, Hs, Hp. unfold dict_get in Hpass.
  rewrite Ha, Hg, Hs, Hp in Hpass.
  destruct (is_espp entry).
  - destruct Hpass as (-> & -> & Hgain & Htotal & Husd & _ & _ & _ & HK & HG & HV & HO & HU & _).
    cbn in Hgain. inversion Hgain; subst gain.
    cbn in Htotal, Husd. inversion Htotal; subst total. inversion Husd; subst usd.
    exists item, a, (PrimFloat.sub a p).
    do 5 (split; [assumption |]). intros Hf; discriminate Hf.
  - destruct Hpass as (-> & Hsell & -> & Htotal & Husd & _ & _ & _ & HK & HG & HV & HO & HU & _).
    cbn in Hsell. inversion Hsell; subst sell.
    cbn in Htotal, Husd. inversion Htotal; subst total. inversion Husd; subst usd.
    exists item, (PrimFloat.add a g), g.
    do 5 (split; [assumption |]). intros _. now repeat split.
Qed.

(** ** Conversion *)

Ltac float_fields H :=
  unfold float_record, has_float in H;
  repeat (apply andb_prop in H; destruct H as [H ?]);
  repeat match goal with
         | H : match dict_lookup ?e ?k with _ => _ end = true |- _ =>
             let E := fresh "E" in
             destruct (dict_lookup e k) as [[]|] eqn:E; try discriminate; clear H
         end.

(** With conversion on, a pass over a float record whose sale date is
    [NaT] stops at [strftime]. *)
Lemma parse_entry_NaT (entry : dict) (w : World) :
  float_record entry = true ->
  dict_lookup entry "SaleDate" = Some VNaT ->
  parse_entry requests_get repr_float true entry w = (Raise ValueError, w).
Proof.
  intros H Hdate. float_fields H.
  all: unfold parse_entry, dict_get, dict_item.
  all: inversion Hdate; subst.
  all: repeat match goal with E : dict_lookup _ _ = _ |- _ => rewrite E; clear E end.
  all: now destruct (py_eq _ _).
Qed.

(** With conversion on, a pass whose lookup is answered with a status
    other than 200 stops inside [get_exchange_trade]. *)
Lemma parse_entry_failed_fetch (entry : dict) (w : World) (t : Timestamp)
    (resp : Response) :
  float_record entry = true ->
  dict_lookup entry "SaleDate" = Some (VTimestamp t) ->
  cached_rates (strftime_Ymd t) (EXCHANGE_CACHE w) = JNull ->
  requests_get (requests_log w) (rate_url (strftime_Ymd t) "USD") = Ok resp ->
  status_code resp <> 200 ->
  parse_entry requests_get repr_float true entry w
  = (Raise AttributeError, logged (rate_url (strftime_Ymd t) "USD") w).
Proof.
  intros H Hdate Hmiss Hget Hstatus. float_fields H.
  all: unfold parse_entry, dict_get, dict_item.
  all: inversion Hdate; subst.
  all: repeat match goal with E : dict_lookup _ _ = _ |- _ => rewrite E; clear E end.
  all: destruct (py_eq _ _); cbn -[get_exchange_trade strftime_Ymd rate_url].
  all: unfold mbind, M_bind, bind_M, lift.
  all: now rewrite (get_exchange_trade_failed requests_get _ _ _ _ _ Hmiss Hget Hstatus).
Qed.

Lemma parse_data_first_raises (entry : dict) (rest : list dict) (exchange : bool)
    (w w' : World) (e : exn) :
  parse_entry requests_get repr_float exchange entry w = (Raise e, w') ->
  parse_data requests_get repr_float (entry :: rest) exchange w = (Raise e, w').
Proof.
  intros H. unfold parse_data. cbn [length Nat.ltb Nat.leb parse_loop].
  now apply bind_M_raise.
Qed.

(** C5, as the code has it.  With conversion on, a float record whose sale
    date is null produces no line item: [parse_data] raises [ValueError]
    at that record.  A record whose rate lookup is answered with a status
    other than 200 produces none either: [parse_data] raises
    [AttributeError].  Neither is given the "n/a" value. *)
Theorem no_rate_raises (entry : dict) (rest : list dict) (w : World) :
  float_record entry = true ->
  (dict_lookup entry "SaleDate" = Some VNaT ->
   parse_data requests_get repr_float (entry :: rest) true w = (Raise ValueError, w))
  /\ (forall t resp,
        dict_lookup entry "SaleDate" = Some (VTimestamp t) ->
        cached_rates (strftime_Ymd t) (EXCHANGE_CACHE w) = JNull ->
        requests_get (requests_log w) (rate_url (strftime_Ymd t) "USD") = Ok resp ->
        status_code resp <> 200 ->
        parse_data requests_get repr_float (entry :: rest) true w
        = (Raise AttributeError, logged (rate_url (strftime_Ymd t) "USD") w)).
Proof.
  intros H. split.
  - intros Hdate. now apply parse_data_first_raises, parse_entry_NaT.
  - intros t resp Hdate Hmiss Hget Hstatus.
    apply parse_data_first_raises. now apply parse_entry_failed_fetch with resp.
Qed.

Lemma parse_data_no_exchange (data : list dict) (w w' : World) (r : Res (list dict)) :
  parse_data requests_get repr_float data false w = (r, w') -> w' = w.
Proof.
  unfold parse_data. destruct (length data <? 1)%nat.
  - intros H. now apply mret_inv in H.
  - apply parse_loop_no_exchange.
Qed.

(** C6, amended.  Without conversion no lookup is made (the cache and the
    request log are as before) and every line item has "n/a" under
    KapitalErtrag (EUR).  With conversion, the item of a record was given
    the result [rate] of the lookup for its sale date, formatted
    YYYY-MM-DD, with target "EUR", made in the state [wi] that the records
    before it left: when [rate] is truthy (a number is when
    it is not zero) the item has the USD gain times [rate], and otherwise,
    a zero rate included, it has "n/a". *)
Theorem parse_data_conversion (data parsed : list dict) (exchange : bool)
    (w w' : World) (i : nat) (entry : dict) :
  parse_data requests_get repr_float data exchange w = (Ok parsed, w') ->
  data !! i = Some entry ->
  exists item usd,
    parsed !! i = Some item
    /\ dict_lookup item "KapitalErtrag (USD)" = Some usd
    /\ if exchange
       then exists t rate wi wi',
              dict_lookup entry "SaleDate" = Some (VTimestamp t)
              /\ parse_data requests_get repr_float (take i data) true w
                 = (Ok (take i parsed), wi)
              /\ get_exchange_trade requests_get (strftime_Ymd t) "USD" (Some "EUR") wi
                 = (Ok rate, wi')
              /\ if json_truthy rate
                 then exists eur,
                        py_mul_json usd rate = Ok eur
                        /\ dict_lookup item "KapitalErtrag (EUR)" = Some eur
                 else dict_lookup item "KapitalErtrag (EUR)" = Some (VStr "n/a")
       else w' = w
            /\ dict_lookup item "KapitalErtrag (EUR)" = Some (VStr "n/a").
Proof.
  intros Hrun Hi.
  destruct (parse_data_Ok_nth _ _ _ _ _ _ _ Hrun Hi)
    as (item & wi & wi' & Hitem & Hbefore & Hpass).
  apply parse_entry_Ok in Hpass.
  destruct Hpass as (purchase & sell & gain & total & usd & eur & date & Hpass).
  destruct Hpass as (_ & _ & _ & _ & _ & Hdate & Hex & _ & _ & _ & _ & _ & HU & HE & _).
  exists item, usd. do 2 (split; [assumption |]).
  destruct exchange.
  - destruct Hex as (day & rate & Hday & Hlookup & Heur).
    destruct date; try discriminate Hday. inversion Hday; subst day.
    exists t, rate, wi, wi'. do 3 (split; [assumption |]).
    destruct (json_truthy rate); [eauto | now subst eur].
  - destruct Hex as [_ ->]. split; [| assumption].
    now apply parse_data_no_exchange in Hrun.
Qed.

End ParseEntry.

(** ** Sell-to-cover detection *)

Lemma prefix_spec (sub s : string) :
  String.prefix sub s = true <-> exists post, s = sub +:+ post.
Proof.
  revert s. induction sub as [| a sub IH]; intros s; cbn.
  - split; [intros _; now exists s | now destruct s].
  - destruct s as [| b s]; cbn.
    + split; [discriminate | intros [post H]; discriminate H].
    + destruct (Ascii.ascii_dec a b) as [-> | Hne].
      * rewrite IH. split; intros [post H]; exists post.
        -- subst s. reflexivity.
        -- cbn in H. now inversion H.
      * split; [discriminate | intros [post H]; cbn in H; inversion H; congruence].
Qed.

Lemma str_contains_spec (sub s : string) :
  str_contains sub s = true <-> exists pre post, s = pre +:+ sub +:+ post.
Proof.
  induction s as [| c s IH].
  - cbn [str_contains]. rewrite orb_false_r, prefix_spec. split.
    + intros [post H]. now exists "", post.
    + intros (pre & post & H). destruct pre; [now exists post | discriminate H].
  - cbn [str_contains]. rewrite orb_true_iff, prefix_spec, IH. split.
    + intros [[post H] | (pre & post & H)].
      * now exists "", post.
      * exists (String c pre), post. cbn. now rewrite H.
    + intros (pre & post & H). destruct pre as [| c' pre].
      * left. now exists post.
      * right. inversion H. now exists pre, post.
Qed.

Section ReadCsv.
Variable repr_float : float -> string.

Lemma read_csv_map (rows : list Row) :
  read_csv repr_float rows = map (row_entry repr_float) rows.
Proof.
  unfold read_csv.
  enough (H : forall acc, fold_left (fun return_list row =>
                                       return_list ++ [row_entry repr_float row])
                                    rows acc
                          = acc ++ map (row_entry repr_float) rows) by apply H.
  induction rows as [| row rows IH]; intros acc; cbn.
  - now rewrite app_nil_r.
  - rewrite IH. now rewrite <- app_assoc.
Qed.

(** C8, amended.  The record of a row has [is_selltocover] true exactly
    when the text of the row's order type contains "STC".  (The order type
    "Sale to Cover" does not contain it.) *)
Theorem read_csv_selltocover (rows : list Row) (i : nat) (row : Row) :
  rows !! i = Some row ->
  exists entry b,
    read_csv repr_float rows !! i = Some entry
    /\ dict_lookup entry "is_selltocover" = Some (VBool b)
    /\ (b = true <->
        exists pre post, py_str repr_float (OrderType row) = pre +:+ "STC" +:+ post).
Proof.
  intros Hi. rewrite read_csv_map.
  exists (row_entry repr_float row), (str_contains "STC" (py_str repr_float (OrderType row))).
  split; [now rewrite list_lookup_fmap, Hi |].
  split; [reflexivity | apply str_contains_spec].
Qed.

End ReadCsv.

(** ** The report: grouping, columns and totals *)

Lemma dict_lookup_set_same {V} (d : list (string * V)) (k : string) (v : V) :
  dict_lookup (dict_set d k v) k = Some v.
Proof.
  induction d as [| [k' v'] d IH]; cbn.
  - now rewrite String.eqb_refl.
  - destruct (String.eqb k' k) eqn:E; cbn; now rewrite E.
Qed.

Lemma dict_lookup_set_other {V} (d : list (string * V)) (k k' : string) (v : V) :
  k <> k' -> dict_lookup (dict_set d k v) k' = dict_lookup d k'.
Proof.
  intros Hne. induction d as [| [k0 v0] d IH]; cbn.
  - apply String.eqb_neq in Hne. now rewrite Hne.
  - destruct (String.eqb k0 k) eqn:E; cbn.
    + apply String.eqb_eq in E. subst k0.
      apply String.eqb_neq in Hne. now rewrite Hne.
    + now rewrite IH.
Qed.

Lemma mapM_Res_Ok {A B} (f : A -> Res B) (l : list A) (k : list B) :
  mapM f l = Ok k -> Forall2 (fun x y => f x = Ok y) l k.
Proof.
  revert k. induction l as [| x l IH]; intros k; cbn.
  - intros H. inversion H. constructor.
  - destruct (f x) as [y | e] eqn:Hx; cbn; [| discriminate].
    destruct (mapM f l) as [ys | e]; cbn; [| discriminate].
    intros H. inversion H. constructor; auto.
Qed.

Lemma group_entry_timestamp (filter_year : option Z) (i : nat) (entry : ref)
    (grouped_data : groups) (h : heap) (t : Timestamp) (plan_type : value) :
  dict_lookup (h entry) "Verkaufsdatum" = Some (VTimestamp t) ->
  dict_lookup (h entry) "PlanType" = Some plan_type ->
  group_entry filter_year i entry grouped_data h
  = if year_passes filter_year t
    then (Ok (group_add h grouped_data (VInt (Z.of_nat (ts_year t))) plan_type entry),
          heap_set h entry (shown (h entry) t))
    else (Ok grouped_data, h).
Proof.
  intros Hdate Hplan. unfold group_entry, mbind, M_bind, bind_M, get_state.
  rewrite Hdate. cbn [year_of lift strftime].
  assert (Hskip : match filter_year with
                  | Some fy => negb (Z.eqb fy 0)
                               && negb (py_eq (VInt (Z.of_nat (ts_year t))) (VInt fy))
                  | None => false
                  end = negb (year_passes filter_year t)).
  { unfold year_passes. destruct filter_year as [fy |]; [| reflexivity].
    cbn. now rewrite negb_orb. }
  rewrite Hskip. destruct (year_passes filter_year t); cbn; [| reflexivity].
  unfold heap_set at 1. rewrite Nat.eqb_refl.
  rewrite dict_lookup_set_other by discriminate. now rewrite Hplan.
Qed.

Lemma heap_set_same (h : heap) (r : ref) (d : dict) : heap_set h r d r = d.
Proof. unfold heap_set. cbn [dict_at]. now rewrite Nat.eqb_refl. Qed.

Lemma heap_set_other (h : heap) (r r' : ref) (d : dict) :
  r' <> r -> heap_set h r d r' = h r'.
Proof.
  intros Hne. unfold heap_set. cbn [dict_at]. apply Nat.eqb_neq in Hne. now rewrite Hne.
Qed.

Lemma group_entry_NaT (filter_year : option Z) (i : nat) (entry : ref)
    (grouped_data : groups) (h : heap) :
  filter_active filter_year = true ->
  dict_lookup (h entry) "Verkaufsdatum" = Some VNaT ->
  group_entry filter_year i entry grouped_data h = (Ok grouped_data, h).
Proof.
  intros Hactive Hdate. unfold group_entry, mbind, M_bind, bind_M, get_state.
  rewrite Hdate. cbn [year_of lift].
  destruct filter_year as [fy |]; [| discriminate Hactive].
  cbn [filter_active] in Hactive. rewrite Hactive.
  assert (Hnan : py_eq (VFloat PrimFloat.nan) (VInt fy) = false) by reflexivity.
  now rewrite Hnan.
Qed.

(** The grouping loop over such records runs to its end; it rewrites the
    date of the records that pass the year filter and nothing else. *)
Lemma group_loop_effect (filter_year : option Z) (data : list ref) :
  forall (i : nat) (grouped_data : groups) (h : heap),
    dated_records filter_year h data ->
    exists grouped h',
      group_loop filter_year i data grouped_data h = (Ok grouped, h')
      /\ (forall e, e ∉ data -> h' e = h e)
      /\ (forall e, e ∈ data -> h' e = rendered_record filter_year (h e)).
Proof.
  induction data as [| entry rest IH]; intros i grouped_data h [Hnodup Hdated].
  - exists grouped_data, h. cbn. split; [reflexivity |]. split; [reflexivity |].
    intros e He. now apply elem_of_nil in He.
  - apply NoDup_cons in Hnodup. destruct Hnodup as [Hfresh Hnodup].
    assert (Hstep : exists grouped1 h1,
               group_entry filter_year i entry grouped_data h = (Ok grouped1, h1)
               /\ (forall e, e <> entry -> h1 e = h e)
               /\ h1 entry = rendered_record filter_year (h entry)).
    { unfold rendered_record.
      destruct (Hdated entry) as [(t & plan_type & Hdate & Hplan) | [Hactive Hdate]];
        [apply elem_of_cons; now left | |].
      - rewrite (group_entry_timestamp _ _ _ _ _ _ _ Hdate Hplan), Hdate.
        destruct (year_passes filter_year t).
        + do 2 eexists. split; [reflexivity |].
          split; [intros e Hne; now apply heap_set_other | apply heap_set_same].
        + do 2 eexists. split; [reflexivity |]. now split.
      - rewrite (group_entry_NaT _ _ _ _ _ Hactive Hdate), Hdate.
        do 2 eexists. split; [reflexivity |]. now split. }
    destruct Hstep as (grouped1 & h1 & Hstep & Hother & Hentry).
    assert (Hrest : dated_records filter_year h1 rest).
    { split; [assumption |]. intros e He.
      rewrite Hother by (intros ->; contradiction).
      apply Hdated, elem_of_cons. now right. }
    destruct (IH (S i) grouped1 h1 Hrest) as (grouped & h' & Hrun & Hframe & Hin).
    exists grouped, h'. cbn [group_loop].
    split; [now rewrite (bind_M_run _ _ _ _ _ Hstep) |]. split.
    + intros e He. rewrite not_elem_of_cons in He. destruct He as [Hne He].
      rewrite Hframe by assumption. now apply Hother.
    + intros e He. apply elem_of_cons in He. destruct He as [-> | He].
      * now rewrite Hframe.
      * assert (Hne : e <> entry) by (intros ->; contradiction).
        rewrite <- (Hother e Hne). now apply Hin.
Qed.

Section Report.
Variable locale_currency : float -> string.
Variable repr_float : float -> string.

#[local] Abbreviation render :=
  (generate_pretty_table_with_hierarchy locale_currency repr_float).

(** The caller's list [exclude_fields] with "is_selltocover" after it is
    never empty, so the [or] of the code never falls back. *)
Lemma exclude_fields_effective (exclude_fields : list string) :
  match exclude_fields ++ ["is_selltocover"] with
  | [] => ["is_selltocover"]
  | fields => fields
  end = exclude_fields ++ ["is_selltocover"].
Proof. now destruct exclude_fields. Qed.

(** Table building reads the store and leaves it as the grouping loop
    left it. *)
Lemma render_heap (data : list ref) (filter_year : option Z)
    (exclude_fields exclude_total : list string) (h h' : heap) (r : Res (list Table)) :
  render data filter_year exclude_fields exclude_total h = (r, h') ->
  exists g, group_loop filter_year 0 data [] h = (g, h').
Proof.
  unfold generate_pretty_table_with_hierarchy, mbind, M_bind, bind_M, get_state, lift.
  destruct (group_loop filter_year 0 data [] h) as [[grouped | e] h1]; intros H.
  - inversion H. eauto.
  - inversion H. eauto.
Qed.

(** C10.  For a list of distinct records that each hold a Timestamp under
    Verkaufsdatum and a plan type (or, under a year filter, [NaT]),
    rendering leaves the caller's objects changed in place: a record whose
    year passes the year filter has its Verkaufsdatum overwritten with the
    DD.MM.YYYY string (and is otherwise as before), a record that the
    filter excludes is as before, its date still the Timestamp or [NaT],
    and so is every object outside the list.  This holds whether or not
    the tables can then be built. *)
Theorem render_overwrites_dates (data : list ref) (filter_year : option Z)
    (exclude_fields exclude_total : list string) (h h' : heap) (r : Res (list Table)) :
  dated_records filter_year h data ->
  render data filter_year exclude_fields exclude_total h = (r, h') ->
  (forall e t,
     e ∈ data ->
     dict_lookup (h e) "Verkaufsdatum" = Some (VTimestamp t) ->
     if year_passes filter_year t
     then h' e = dict_set (h e) "Verkaufsdatum" (VStr (strftime_dmY t))
          /\ dict_lookup (h' e) "Verkaufsdatum" = Some (VStr (strftime_dmY t))
     else h' e = h e)
  /\ (forall e,
        e ∈ data -> dict_lookup (h e) "Verkaufsdatum" = Some VNaT -> h' e = h e)
  /\ (forall e, e ∉ data -> h' e = h e).
Proof.
  intros Hdated Hrun. apply render_heap in Hrun. destruct Hrun as [g Hrun].
  destruct (group_loop_effect filter_year data 0 [] h Hdated)
    as (grouped & h1 & Hloop & Hframe & Hin).
  rewrite Hloop in Hrun. inversion Hrun; subst h1.
  split; [| split; [| assumption]].
  - intros e t He Hdate. specialize (Hin e He).
    unfold rendered_record in Hin. rewrite Hdate in Hin.
    destruct (year_passes filter_year t); [| assumption].
    split; [assumption |]. rewrite Hin. apply dict_lookup_set_same.
  - intros e He Hdate. specialize (Hin e He).
    unfold rendered_record in Hin. now rewrite Hdate in Hin.
Qed.

(** A rendered report: the groups that the loop built, and one table for
    each, in order. *)
Lemma render_Ok (data : list ref) (filter_year : option Z)
    (exclude_fields exclude_total : list string) (h h' : heap) (tables : list Table) :
  render data filter_year exclude_fields exclude_total h = (Ok tables, h') ->
  exists grouped,
    group_loop filter_year 0 data [] h = (Ok grouped, h')
    /\ Forall2 (fun g t =>
                  make_table locale_currency repr_float
                    (exclude_fields ++ ["is_selltocover"]) exclude_total h'
                    g.1.1 g.1.2 g.2 = Ok t)
               (group_list grouped) tables.
Proof.
  unfold generate_pretty_table_with_hierarchy. rewrite exclude_fields_effective.
  intros H. run_all. unfold get_state in *.
  match goal with H : (Ok _, _) = (Ok _, _) |- _ => inversion H; subst; clear H end.
  eexists. split; [eassumption |]. apply mapM_Res_Ok. now symmetry.
Qed.

(** What [make_table] returns for a group. *)
Lemma make_table_Ok (exclude_fields exclude_total : list string) (h : heap)
    (year plan_type : value) (records : list ref) (t : Table) :
  make_table locale_currency repr_float exclude_fields exclude_total h
    year plan_type records = Ok t ->
  exists first rest totals,
    records = first :: rest
    /\ field_names t = table_field_names exclude_fields (dict_keys (h first))
    /\ last (rows t) = Some ([VStr "Total"; VStr ""] ++ totals)
    /\ Forall2 (fun field cell =>
                  total_cell locale_currency repr_float exclude_total h records field
                  = Ok cell)
               (drop 2 (field_names t)) totals.
Proof.
  unfold make_table. destruct records as [| first rest]; [discriminate |].
  unfold mbind, Res_bind.
  destruct (mapM _ _) as [totals | e] eqn:Htotals; [| discriminate].
  intros H. apply Ok_inj in H. subst t. cbv beta iota delta [field_names rows].
  exists first, rest, totals. split; [reflexivity |]. split; [reflexivity |].
  split; [| now apply mapM_Res_Ok].
  rewrite app_assoc. apply last_snoc.
Qed.

(** C9, amended.  The columns that a rendered table leaves out are the
    caller's list [exclude_fields] together with "is_selltocover"
    ("PurchasePrice" is only the default of [exclude_fields], for a caller
    that passes none): the column list of the table of a group is "Year",
    "PlanType" and then the keys of the group's first record that are not
    "Year", "PlanType", in [exclude_fields] or "is_selltocover". *)
Theorem table_columns (data : list ref) (filter_year : option Z)
    (exclude_fields exclude_total : list string) (h h' : heap) (tables : list Table) :
  render data filter_year exclude_fields exclude_total h = (Ok tables, h') ->
  exists grouped,
    group_loop filter_year 0 data [] h = (Ok grouped, h')
    /\ Forall2 (fun g t =>
                  exists first rest,
                    g.2 = first :: rest
                    /\ field_names t
                       = ["Year"; "PlanType"]
                         ++ List.filter
                              (fun key =>
                                 negb (str_in key (["Year"; "PlanType"]
                                                   ++ exclude_fields
                                                   ++ ["is_selltocover"])))
                              (dict_keys (h' first)))
               (group_list grouped) tables.
Proof.
  intros Hrun. apply render_Ok in Hrun. destruct Hrun as (grouped & Hloop & Htables).
  exists grouped. split; [assumption |].
  eapply Forall2_impl; [exact Htables |].
  intros g t Ht. apply make_table_Ok in Ht.
  destruct Ht as (first & rest & totals & Hrecords & Hnames & _).
  exists first, rest. split; assumption.
Qed.


End Report.


(** ** Further properties of the exchange-rate lookup *)

(** Case analysis over one call of [get_exchange_trade]: every way
    through the function. *)
Ltac lookup_cases :=
  unfold get_exchange_trade, mbind, M_bind, bind_M, get_state, fetch, lift,
    cache_append, mret, M_ret, ret_M;
  rewrite cached_rates_guard;
  repeat match goal with
         | |- context [match ?x with _ => _ end] =>
             lazymatch x with
             | context [match _ with _ => _ end] => fail
             | _ => destruct x eqn:?
             end
         end.

Lemma cached_rates_kind (date : string) (cache : list (list (string * json))) :
  Forall (fun api_return => has_rates api_return = true) cache ->
  cached_rates date cache = JNull \/ exists rates, cached_rates date cache = JObj rates.
Proof.
  induction cache as [| api_return cache IH] using rev_ind; intros H.
  - now left.
  - apply Forall_app in H. destruct H as [Hcache Hlast].
    rewrite cached_rates_snoc. destruct (json_eq_str _ _); [| now apply IH].
    rewrite Forall_singleton in Hlast. unfold has_rates in Hlast.
    destruct (dict_get api_return "rates" JNull); try discriminate. eauto.
Qed.

Section ExchangeMore.
Variable requests_get : list string -> string -> Res Response.

(** The footprint of one call on the state. *)
Lemma get_exchange_trade_footprint (date base : string)
    (return_currency : option string) (w : World) :
  let w' := (get_exchange_trade requests_get date base return_currency w).2 in
  requests_log w'
  = requests_log w
    ++ match cached_rates date (EXCHANGE_CACHE w) with
       | JNull => [rate_url date base]
       | _ => []
       end
  /\ (EXCHANGE_CACHE w' = EXCHANGE_CACHE w
      \/ exists api_return,
           EXCHANGE_CACHE w' = EXCHANGE_CACHE w ++ [api_return]
           /\ cached_rates date (EXCHANGE_CACHE w) = JNull).
Proof.
  lookup_cases.
  all: cbn; rewrite ?app_nil_r; split; eauto.
Qed.

(** X1.  A lookup issues exactly one request, for [rate_url date base],
    when the cache holds no rates for the date, and none when it does;
    the cache is left as it was or gets one response appended, and the
    latter only after a request. *)
Theorem lookup_requests (date base : string) (return_currency : option string)
    (w : World) :
  let w' := (get_exchange_trade requests_get date base return_currency w).2 in
  requests_log w'
  = requests_log w
    ++ match cached_rates date (EXCHANGE_CACHE w) with
       | JNull => [rate_url date base]
       | _ => []
       end
  /\ (EXCHANGE_CACHE w' = EXCHANGE_CACHE w
      \/ exists api_return,
           EXCHANGE_CACHE w' = EXCHANGE_CACHE w ++ [api_return]
           /\ cached_rates date (EXCHANGE_CACHE w) = JNull).
Proof. exact (get_exchange_trade_footprint date base return_currency w). Qed.

(** X2.  The cache only ever holds responses with an object under
    ["rates"]: a lookup keeps that, whatever the service answers.  With
    such a cache, a lookup with a target currency that finds rates for
    the date returns without raising and leaves the state alone. *)
Theorem cache_keeps_rates (date base : string) (return_currency : option string)
    (w : World) :
  Forall (fun api_return => has_rates api_return = true) (EXCHANGE_CACHE w) ->
  Forall (fun api_return => has_rates api_return = true)
    (EXCHANGE_CACHE (get_exchange_trade requests_get date base return_currency w).2)
  /\ (cached_rates date (EXCHANGE_CACHE w) <> JNull ->
      exists rate,
        get_exchange_trade requests_get date base return_currency w = (Ok rate, w)).
Proof.
  intros Hinv. split.
  - destruct (get_exchange_trade_footprint date base return_currency w)
      as [_ [Hsame | Hgrown]].
    + cbv zeta in Hsame. now rewrite Hsame.
    + destruct Hgrown as (api_return & Hgrown & _). cbv zeta in Hgrown.
      rewrite Hgrown. apply Forall_app. split; [assumption |].
      rewrite Forall_singleton. revert Hgrown. lookup_cases.
      all: cbn; intros Hgrown; try (apply (f_equal length) in Hgrown;
                                    rewrite ?length_app in Hgrown; cbn in Hgrown; lia).
      all: apply app_inj_tail in Hgrown; destruct Hgrown as [_ <-].
      all: unfold has_rates;
        match goal with
        | H : dict_get _ "rates" JNull = JObj _ |- _ => now rewrite H
        end.
  - intros Hhit. destruct (cached_rates_kind date _ Hinv) as [Hnull | [rates Hrates]];
      [contradiction |].
    lookup_cases; try discriminate; eauto.
Qed.

(** X3.  A lookup that raises has cached nothing: the cache, which holds
    only responses with rates, is as it was and has no rates for the date,
    so the next lookup for the date asks the service again. *)
Theorem failed_lookup_caches_nothing (date base : string)
    (return_currency : option string) (w w' : World) (e : exn) :
  Forall (fun api_return => has_rates api_return = true) (EXCHANGE_CACHE w) ->
  get_exchange_trade requests_get date base return_currency w = (Raise e, w') ->
  EXCHANGE_CACHE w' = EXCHANGE_CACHE w
  /\ cached_rates date (EXCHANGE_CACHE w') = JNull.
Proof.
  intros Hinv. destruct (cached_rates_kind date _ Hinv) as [Hnull | [rates Hrates]];
    revert Hnull || revert Hrates.
  all: lookup_cases.
  all: intros Hkind H; inversion H; subst; cbn; try discriminate; now split.
Qed.

(** X4.  A response with status 200 that is not what the code expects
    ends the lookup after the one request and is not cached: a body that
    is not JSON raises [ValueError], JSON that is not an object raises
    [AttributeError], and an object without an object under ["rates"]
    fails the assertion. *)
Theorem malformed_response_raises (date base : string)
    (return_currency : option string) (w : World) (resp : Response) :
  cached_rates date (EXCHANGE_CACHE w) = JNull ->
  requests_get (requests_log w) (rate_url date base) = Ok resp ->
  status_code resp = 200 ->
  let run := get_exchange_trade requests_get date base return_currency w in
  let asked := logged (rate_url date base) w in
  (content resp = None -> run = (Raise ValueError, asked))
  /\ (forall body,
        content resp = Some body ->
        (forall api_return, body <> JObj api_return) ->
        run = (Raise AttributeError, asked))
  /\ (forall api_return,
        content resp = Some (JObj api_return) ->
        has_rates api_return = false ->
        run = (Raise AssertionError, asked)).
Proof.
  intros Hmiss Hget Hstatus run asked. subst run asked.
  unfold get_exchange_trade, mbind, M_bind, bind_M, get_state, fetch, lift.
  rewrite cached_rates_guard, Hmiss, Hget, Hstatus. cbn [Z.eqb Pos.eqb].
  split; [| split].
  - now intros ->.
  - intros body -> Hbody. destruct body; try reflexivity. now destruct (Hbody fields).
  - intros api_return -> Hrates. unfold has_rates in Hrates.
    destruct (dict_get api_return "rates" JNull); try discriminate; reflexivity.
Qed.

End ExchangeMore.

(** X5.  The cache is searched by the ["date"] field of the responses it
    holds, and the latest response with the date answers: with no such
    response the search finds nothing, and otherwise it finds what the
    last of them holds under ["rates"]. *)
Theorem latest_response_answers (date : string)
    (before after : list (list (string * json))) (api_return : list (string * json)) :
  Forall (fun other => dated date other = false) after ->
  cached_rates date after = JNull
  /\ (dated date api_return = true ->
      cached_rates date (before ++ api_return :: after)
      = dict_get api_return "rates" JNull).
Proof.
  induction after as [| other after IH] using rev_ind; intros Hafter.
  - split; [reflexivity |]. intros Hdated.
    rewrite cached_rates_snoc. unfold dated in Hdated. now rewrite Hdated.
  - apply Forall_app in Hafter. destruct Hafter as [Hafter Hother].
    rewrite Forall_singleton in Hother. unfold dated in Hother.
    destruct (IH Hafter) as [Hnone Hlast].
    split.
    + now rewrite cached_rates_snoc, Hother.
    + intros Hdated. rewrite app_comm_cons, app_assoc, cached_rates_snoc, Hother.
      now apply Hlast.
Qed.


Section ExchangeWhole.
Variable requests_get : list string -> string -> Res Response.

(** X22.  A lookup without a target currency (none, or the empty string)
    returns the whole rates object, from the cache or from the response
    that it fetches and caches; when the fetch is answered with a status
    other than 200 it returns [None] and does not raise. *)
Theorem lookup_without_currency (date base : string) (return_currency : option string)
    (w : World) :
  return_currency = None \/ return_currency = Some "" ->
  let run := get_exchange_trade requests_get date base return_currency w in
  (forall rates,
      cached_rates date (EXCHANGE_CACHE w) = JObj rates -> run = (Ok (JObj rates), w))
  /\ (forall resp,
        cached_rates date (EXCHANGE_CACHE w) = JNull ->
        requests_get (requests_log w) (rate_url date base) = Ok resp ->
        (status_code resp <> 200 -> run = (Ok JNull, logged (rate_url date base) w))
        /\ (forall api_return rates,
              status_code resp = 200 ->
              content resp = Some (JObj api_return) ->
              dict_get api_return "rates" JNull = JObj rates ->
              run = (Ok (JObj rates), cached api_return (logged (rate_url date base) w)))).
Proof.
  intros Hnone run. subst run.
  unfold get_exchange_trade, mbind, M_bind, bind_M, get_state, fetch.
  rewrite cached_rates_guard. split.
  - intros rates ->. now destruct Hnone as [-> | ->].
  - intros resp -> ->. split.
    + intros Hstatus. apply Z.eqb_neq in Hstatus. rewrite Hstatus.
      now destruct Hnone as [-> | ->].
    + intros api_return rates -> -> ->. now destruct Hnone as [-> | ->].
Qed.

End ExchangeWhole.

(** ** Further properties of [parse_data] *)

Section ParseMore.
Variable requests_get : list string -> string -> Res Response.
Variable repr_float : float -> string.

#[local] Abbreviation parse := (parse_data requests_get repr_float).

(** The line item that a pass returns, written out. *)
Lemma parse_entry_item (exchange : bool) (entry item : dict) (w w' : World) :
  parse_entry requests_get repr_float exchange entry w = (Ok item, w') ->
  exists date purchase gain sell total usd eur,
    dict_lookup entry "SaleDate" = Some date
    /\ item
       = [ ("Order", VStr (py_str repr_float (dict_get entry "OrderNumber" VNone)));
           ("Verkaufsdatum", date);
           ("Type", dict_get entry "OrderType" VNone);
           ("PlanType", dict_get entry "PlanType" VNone);
           ("Anz.", dict_get entry "SharesSold" VNone);
           ("Kaufwert", purchase);
           ("Gewinn/Verlust", gain);
           ("Verkaufswert", sell);
           ("Orderwert", total);
           ("KapitalErtrag (USD)", usd);
           ("KapitalErtrag (EUR)", eur);
           ("is_selltocover", dict_get entry "is_selltocover" (VBool false)) ]
         ++ (if is_espp entry then [("Rabatt (inkl.)", VStr "15%")] else []).
Proof.
  unfold parse_entry. fold (is_espp entry). intros H. run_all.
  unfold dict_item in *.
  destruct (dict_lookup entry "SaleDate") as [date |] eqn:Hdate; [| discriminate].
  repeat match goal with
         | H : Ok _ = Ok _ |- _ => apply Ok_inj in H; subst
         end.
  exists date. destruct (is_espp entry); do 6 eexists; split; reflexivity.
Qed.

Lemma parse_loop_length (exchange : bool) (data : list dict) :
  forall (acc parsed : list dict) (w w' : World),
    parse_loop requests_get repr_float exchange data acc w = (Ok parsed, w') ->
    length parsed = (length acc + length data)%nat.
Proof.
  induction data as [| entry rest IH]; intros acc parsed w w' H; cbn in H.
  - run_all. apply Ok_inj in H. subst. cbn. lia.
  - run_all. apply IH in H. rewrite length_app in H. cbn in *. lia.
Qed.

Lemma parse_data_length (data parsed : list dict) (exchange : bool) (w w' : World) :
  parse data exchange w = (Ok parsed, w') ->
  length parsed = length data.
Proof.
  rewrite parse_data_loop. intros H. now apply parse_loop_length in H.
Qed.

(** X6.  [parse_data] returns one line item for each record, in the order
    of the records: there are as many items as records, and the item at
    position [i] is what the body of the loop returned for the record at
    position [i], run in the state that the records before it left. *)
Theorem parse_data_one_item_per_record (data parsed : list dict) (exchange : bool)
    (w w' : World) :
  parse data exchange w = (Ok parsed, w') ->
  length parsed = length data
  /\ forall i entry,
       data !! i = Some entry ->
       exists item wi wi',
         parsed !! i = Some item
         /\ parse (take i data) exchange w = (Ok (take i parsed), wi)
         /\ parse_entry requests_get repr_float exchange entry wi = (Ok item, wi').
Proof.
  intros Hrun. split; [exact (parse_data_length _ _ _ _ _ Hrun) |].
  intros i entry Hi. exact (parse_data_Ok_nth _ _ _ _ _ _ _ _ _ Hrun Hi).
Qed.

Lemma parse_data_fields (data parsed : list dict) (exchange : bool)
    (w w' : World) (i : nat) (entry : dict) :
  parse data exchange w = (Ok parsed, w') ->
  data !! i = Some entry ->
  exists item,
    parsed !! i = Some item
    /\ dict_lookup item "Order"
       = Some (VStr (py_str repr_float (dict_get entry "OrderNumber" VNone)))
    /\ dict_lookup item "Verkaufsdatum" = dict_lookup entry "SaleDate"
    /\ dict_lookup item "Type" = Some (dict_get entry "OrderType" VNone)
    /\ dict_lookup item "PlanType" = Some (dict_get entry "PlanType" VNone)
    /\ dict_lookup item "Anz." = Some (dict_get entry "SharesSold" VNone)
    /\ dict_lookup item "is_selltocover"
       = Some (dict_get entry "is_selltocover" (VBool false)).
Proof.
  intros Hrun Hi.
  destruct (parse_data_Ok_nth _ _ _ _ _ _ _ _ _ Hrun Hi)
    as (item & wi & wi' & Hitem & _ & Hpass).
  apply parse_entry_item in Hpass.
  destruct Hpass as (date & purchase & gain & sell & total & usd & eur & Hdate & ->).
  eexists. split; [exact Hitem |]. rewrite Hdate.
  destruct (is_espp entry); repeat split; reflexivity.
Qed.

(** X7.  The item at position [i] carries the fields of the record at
    position [i] that are not computed: the order number as text, the sale
    date, the order type, the plan type, the shares sold, and the
    sell-to-cover flag ([False] when the record has none). *)
Theorem parse_data_passes_fields (data parsed : list dict) (exchange : bool)
    (w w' : World) (i : nat) (entry : dict) :
  parse data exchange w = (Ok parsed, w') ->
  data !! i = Some entry ->
  exists item,
    parsed !! i = Some item
    /\ dict_lookup item "Order"
       = Some (VStr (py_str repr_float (dict_get entry "OrderNumber" VNone)))
    /\ dict_lookup item "Verkaufsdatum" = dict_lookup entry "SaleDate"
    /\ dict_lookup item "Type" = Some (dict_get entry "OrderType" VNone)
    /\ dict_lookup item "PlanType" = Some (dict_get entry "PlanType" VNone)
    /\ dict_lookup item "Anz." = Some (dict_get entry "SharesSold" VNone)
    /\ dict_lookup item "is_selltocover"
       = Some (dict_get entry "is_selltocover" (VBool false)).
Proof. apply parse_data_fields. Qed.

(** X8.  Every line item has the twelve keys of [item_keys], in that
    order; the item of an ESPP record has "Rabatt (inkl.)" after them and
    the item of any other record has no such key.  The keys are distinct. *)
Theorem parse_data_item_keys (data parsed : list dict) (exchange : bool)
    (w w' : World) (i : nat) (entry : dict) :
  parse data exchange w = (Ok parsed, w') ->
  data !! i = Some entry ->
  exists item,
    parsed !! i = Some item
    /\ dict_keys item
       = item_keys ++ (if is_espp entry then ["Rabatt (inkl.)"] else [])
    /\ NoDup (dict_keys item)
    /\ (is_espp entry = false -> dict_lookup item "Rabatt (inkl.)" = None).
Proof.
  intros Hrun Hi.
  destruct (parse_data_Ok_nth _ _ _ _ _ _ _ _ _ Hrun Hi)
    as (item & wi & wi' & Hitem & _ & Hpass).
  apply parse_entry_item in Hpass.
  destruct Hpass as (date & purchase & gain & sell & total & usd & eur & Hdate & ->).
  eexists. split; [exact Hitem |].
  destruct (is_espp entry); cbn.
  - split; [reflexivity |]. split; [| discriminate].
    apply (bool_decide_unpack _). vm_compute. exact I.
  - split; [reflexivity |]. split; [| reflexivity].
    apply (bool_decide_unpack _). vm_compute. exact I.
Qed.

(** Split the hypothesis that the amounts are floats into the lookups. *)
Ltac amounts H :=
  unfold float_amounts, has_float in H;
  repeat (apply andb_prop in H; destruct H as [H ?]);
  repeat match goal with
         | H : match dict_lookup ?e ?k with _ => _ end = true |- _ =>
             let E := fresh "E" in
             destruct (dict_lookup e k) as [[]|] eqn:E; try discriminate; clear H
         end.

Ltac lookups :=
  unfold parse_entry, dict_get, dict_item;
  repeat match goal with E : dict_lookup _ _ = _ |- _ => rewrite E; clear E end.

(** X9.  A record without a "SaleDate" key, its amounts floats, ends the
    run: without conversion with the [KeyError] of [entry["SaleDate"]],
    with conversion with the [AttributeError] of [None.strftime], before
    any lookup. *)
Theorem missing_sale_date_raises (entry : dict) (rest : list dict) (w : World) :
  float_amounts entry = true ->
  dict_lookup entry "SaleDate" = None ->
  parse (entry :: rest) false w = (Raise (KeyError "SaleDate" None), w)
  /\ parse (entry :: rest) true w = (Raise AttributeError, w).
Proof.
  intros H Hdate. amounts H.
  all: split; apply parse_data_first_raises; lookups; now destruct (py_eq _ _).
Qed.

(** X10.  The cost basis is read with a default of 0.0 for an ESPP record
    and without one in the sum of any other record: a record without an
    "AdjustedCostPerShare" key ends the run with a [TypeError] unless it
    is an ESPP record, whose sale value is then 0.0. *)
Theorem missing_cost_basis (entry : dict) (rest : list dict) (exchange : bool)
    (w : World) :
  dict_lookup entry "AdjustedCostPerShare" = None ->
  (is_espp entry = false ->
   parse (entry :: rest) exchange w = (Raise TypeError, w))
  /\ (is_espp entry = true ->
      forall parsed w',
        parse (entry :: rest) exchange w = (Ok parsed, w') ->
        exists item,
          parsed !! 0%nat = Some item
          /\ dict_lookup item "Verkaufswert" = Some (VFloat 0%float)).
Proof.
  intros Hcost. split.
  - intros Hespp. apply parse_data_first_raises.
    unfold parse_entry. fold (is_espp entry). rewrite Hespp.
    unfold dict_get. now rewrite Hcost.
  - intros Hespp parsed w' Hrun.
    destruct (parse_data_Ok_nth _ _ _ _ _ _ _ 0%nat entry Hrun eq_refl)
      as (item & wi & wi' & Hitem & _ & Hpass).
    apply parse_entry_Ok in Hpass.
    destruct Hpass as (purchase & sell & gain & total & usd & eur & date & Hpass).
    rewrite Hespp in Hpass.
    destruct Hpass as (_ & -> & _ & _ & _ & _ & _ & _ & _ & _ & HV & _).
    exists item. split; [assumption |]. rewrite HV. unfold dict_get. now rewrite Hcost.
Qed.

(** With the rates of its sale date in the cache, a pass over a float
    record asks nothing of the service. *)
Lemma parse_entry_cached (entry : dict) (w : World) (rate : json) :
  float_record entry = true ->
  rate_cached w entry rate ->
  (rate = JNull \/ exists r, rate = JFloat r) ->
  exists item usd,
    parse_entry requests_get repr_float true entry w = (Ok item, w)
    /\ dict_lookup item "KapitalErtrag (USD)" = Some (VFloat usd)
    /\ dict_lookup item "KapitalErtrag (EUR)" = Some (in_eur usd rate).
Proof.
  intros H (t & rates & Hdate & Hhit & Hrate) Hkind.
  assert (Hlookup : get_exchange_trade requests_get (strftime_Ymd t) "USD" (Some "EUR") w
                    = (Ok rate, w)).
  { rewrite <- Hrate. now apply get_exchange_trade_hit. }
  unfold float_record in H. apply andb_prop in H. destruct H as [H _].
  fold (float_amounts entry) in H. amounts H.
  all: lookups.
  all: destruct (py_eq _ _); cbn -[get_exchange_trade strftime_Ymd].
  all: unfold mbind, M_bind, bind_M, lift; rewrite Hlookup.
  all: destruct Hkind as [-> | [r ->]]; cbn;
    try destruct (PrimFloat.eqb r 0%float); cbn; do 2 eexists; repeat split.
Qed.

(** X11.  When the rates of every record's sale date are already in the
    cache, with a float or nothing under "EUR", [parse_data] with
    conversion makes no request and leaves the cache as it is; each item
    has the USD gain times the rate under KapitalErtrag (EUR), or "n/a"
    when the rates have no "EUR" or quote it at zero. *)
Theorem cached_conversion (data : list dict) (w : World) :
  Forall (fun entry =>
            float_record entry = true
            /\ exists rate,
                 rate_cached w entry rate
                 /\ (rate = JNull \/ exists r, rate = JFloat r))
         data ->
  exists parsed,
    parse data true w = (Ok parsed, w)
    /\ Forall2 (fun entry item =>
                  exists usd rate,
                    rate_cached w entry rate
                    /\ dict_lookup item "KapitalErtrag (USD)" = Some (VFloat usd)
                    /\ dict_lookup item "KapitalErtrag (EUR)" = Some (in_eur usd rate))
               data parsed.
Proof.
  rewrite parse_data_loop. intros H.
  enough (Hacc : forall acc,
             exists items,
               parse_loop requests_get repr_float true data acc w = (Ok (acc ++ items), w)
               /\ Forall2 (fun entry item =>
                             exists usd rate,
                               rate_cached w entry rate
                               /\ dict_lookup item "KapitalErtrag (USD)" = Some (VFloat usd)
                               /\ dict_lookup item "KapitalErtrag (EUR)"
                                  = Some (in_eur usd rate))
                          data items).
  { destruct (Hacc []) as (items & Hrun & Hitems). now exists items. }
  induction H as [| entry rest [Hfloat (rate & Hcached & Hkind)] _ IH]; intros acc.
  - exists []. rewrite app_nil_r. split; [reflexivity | constructor].
  - destruct (parse_entry_cached entry w rate Hfloat Hcached Hkind)
      as (item & usd & Hpass & Husd & Heur).
    destruct (IH (acc ++ [item])) as (items & Hrun & Hitems).
    exists (item :: items). cbn [parse_loop].
    rewrite (bind_M_run _ _ _ _ _ Hpass), Hrun, <- app_assoc.
    split; [reflexivity |]. constructor; eauto.
Qed.

End ParseMore.

(** ** From rows to line items *)

Section RowsToItems.
Variable requests_get : list string -> string -> Res Response.
Variable repr_float : float -> string.

Lemma row_entry_float_record (row : Row) :
  float_row row = true -> float_record (row_entry repr_float row) = true.
Proof.
  unfold float_row. destruct row as [plan order shares date number gain cost price].
  cbn. destruct shares; try discriminate. destruct price; try discriminate.
  reflexivity.
Qed.

(** X12.  [read_csv] followed by [parse_data] without conversion turns
    rows whose quantity and purchase price are floats into one line item
    per row, in row order, whatever the sale date, and touches neither the
    cache nor the network.  The item of a row has the row's order number
    as text, its sale date ([NaT] when it did not parse), and the flag
    that the row's order type contains "STC". *)
Theorem rows_to_items (rows : list Row) (w : World) :
  Forall (fun row => float_row row = true) rows ->
  exists items,
    parse_data requests_get repr_float (read_csv repr_float rows) false w = (Ok items, w)
    /\ length items = length rows
    /\ forall i row,
         rows !! i = Some row ->
         exists item,
           items !! i = Some item
           /\ dict_lookup item "Order" = Some (VStr (py_str repr_float (OrderNumber row)))
           /\ dict_lookup item "Verkaufsdatum" = Some (date_value (SaleDate row))
           /\ dict_lookup item "is_selltocover"
              = Some (VBool (str_contains "STC" (py_str repr_float (OrderType row)))).
Proof.
  intros Hrows.
  assert (Hrecords : Forall (fun entry => float_record entry = true)
                       (read_csv repr_float rows)).
  { rewrite read_csv_map. apply Forall_fmap.
    eapply Forall_impl; [exact Hrows |]. intros row. apply row_entry_float_record. }
  destruct (parse_data_floats requests_get repr_float _ w Hrecords) as (items & Hrun).
  exists items. split; [assumption |].
  assert (Hlen : length items = length rows).
  { rewrite (parse_data_length _ _ _ _ _ _ _ Hrun).
    now rewrite read_csv_map, length_fmap. }
  split; [assumption |]. intros i row Hi.
  assert (Hentry : read_csv repr_float rows !! i = Some (row_entry repr_float row)).
  { now rewrite read_csv_map, list_lookup_fmap, Hi. }
  destruct (parse_data_fields _ _ _ _ _ _ _ _ _ Hrun Hentry)
    as (item & Hitem & Horder & Hdate & _ & _ & _ & Hflag).
  exists item. split; [assumption |]. now repeat split.
Qed.

End RowsToItems.

(** ** Further properties of the report *)

Lemma group_loop_app (filter_year : option Z) (before after : list ref) :
  forall (i : nat) (grouped_data : groups) (h : heap),
    group_loop filter_year i (before ++ after) grouped_data h
    = (group_loop filter_year i before grouped_data
         ≫= group_loop filter_year (i + length before) after) h.
Proof.
  induction before as [| entry before IH]; intros i grouped_data h.
  - cbn. now rewrite Nat.add_0_r.
  - cbn [app group_loop length]. unfold mbind, M_bind, bind_M.
    destruct (group_entry filter_year i entry grouped_data h) as [[g | e] h1];
      [| reflexivity].
    rewrite IH. unfold mbind, M_bind, bind_M.
    now replace (i + S (length before))%nat with (S i + length before)%nat by lia.
Qed.

(** The loop over a list whose first records are well dated gets to the
    record after them, with those records rewritten. *)
Lemma group_loop_reaches (filter_year : option Z) (before : list ref) (entry : ref)
    (after : list ref) (h : heap) :
  dated_records filter_year h before ->
  entry ∉ before ->
  exists grouped h1,
    group_loop filter_year 0 (before ++ entry :: after) [] h
    = (group_entry filter_year (length before) entry grouped
         ≫= group_loop filter_year (S (length before)) after) h1
    /\ h1 entry = h entry
    /\ (forall e, e ∈ before -> h1 e = rendered_record filter_year (h e))
    /\ (forall e, e ∉ before -> h1 e = h e).
Proof.
  intros Hdated Hfresh.
  destruct (group_loop_effect filter_year before 0 [] h Hdated)
    as (grouped & h1 & Hloop & Hframe & Hin).
  exists grouped, h1. split; [| split; [now apply Hframe | now split]].
  rewrite group_loop_app. now rewrite (bind_M_run _ _ _ _ _ Hloop).
Qed.

Lemma group_entry_year_zero (i : nat) (entry : ref) (grouped_data : groups) (h : heap) :
  group_entry (Some 0) i entry grouped_data h = group_entry None i entry grouped_data h.
Proof. reflexivity. Qed.

Lemma group_loop_year_zero (data : list ref) :
  forall (i : nat) (grouped_data : groups) (h : heap),
    group_loop (Some 0) i data grouped_data h = group_loop None i data grouped_data h.
Proof.
  induction data as [| entry rest IH]; intros i grouped_data h; [reflexivity |].
  cbn [group_loop]. unfold mbind, M_bind, bind_M. rewrite group_entry_year_zero.
  destruct (group_entry None i entry grouped_data h) as [[g | e] h1]; [apply IH | easy].
Qed.

Section ReportMore.
Variable locale_currency : float -> string.
Variable repr_float : float -> string.

#[local] Abbreviation render :=
  (generate_pretty_table_with_hierarchy locale_currency repr_float).

(** The table of a group, written out. *)
Lemma make_table_rows (exclude_fields exclude_total : list string) (h : heap)
    (year plan_type : value) (records : list ref) (t : Table) :
  make_table locale_currency repr_float exclude_fields exclude_total h
    year plan_type records = Ok t ->
  exists first rest totals,
    records = first :: rest
    /\ field_names t = table_field_names exclude_fields (dict_keys (h first))
    /\ length totals = length (drop 2 (field_names t))
    /\ rows t
       = map (fun record =>
                [year; plan_type]
                ++ map (fun field =>
                          VStr (format_value locale_currency repr_float
                                  (dict_get (h record) field (VStr ""))))
                       (drop 2 (field_names t)))
             records
         ++ [map (fun _ => VStr "----") (field_names t)]
         ++ [[VStr "Total"; VStr ""] ++ totals].
Proof.
  unfold make_table. destruct records as [| first rest]; [discriminate |].
  unfold mbind, Res_bind.
  destruct (mapM _ _) as [totals | e] eqn:Htotals; [| discriminate].
  intros H. apply Ok_inj in H. subst t. cbv beta iota delta [field_names rows].
  exists first, rest, totals. split; [reflexivity |]. split; [reflexivity |].
  split; [| reflexivity].
  apply mapM_Res_Ok in Htotals. symmetry. exact (Forall2_length _ _ _ Htotals).
Qed.

Lemma table_field_names_drop (exclude_fields existing_keys : list string) :
  length (table_field_names exclude_fields existing_keys)
  = (2 + length (drop 2 (table_field_names exclude_fields existing_keys)))%nat.
Proof. reflexivity. Qed.

Lemma table_field_names_NoDup (exclude_fields existing_keys : list string) :
  NoDup existing_keys -> NoDup (table_field_names exclude_fields existing_keys).
Proof.
  intros Hkeys. unfold table_field_names. cbn [app].
  assert (Hout : forall name,
             str_in name ["Year"; "PlanType"] = true ->
             name ∉ List.filter
                      (fun key => negb (str_in key (["Year"; "PlanType"] ++ exclude_fields)))
                      existing_keys).
  { intros name Hname Hin. apply list_elem_of_In, filter_In in Hin.
    destruct Hin as [_ Hin]. apply negb_true_iff in Hin.
    unfold str_in in *. rewrite existsb_app in Hin. now rewrite Hname in Hin. }
  apply NoDup_cons. split.
  - rewrite not_elem_of_cons. split; [discriminate | now apply Hout].
  - apply NoDup_cons. split; [now apply Hout |].
    apply NoDup_ListNoDup, List.NoDup_filter. now apply NoDup_ListNoDup.
Qed.

(** X13.  Every table that is rendered is a well-formed [PrettyTable]: it
    has one row for each record of its group, then the rule and the totals
    row; every row is as wide as the header; and the field names are
    distinct when the keys of the group's first record are, as those of a
    dict are. *)
Theorem tables_well_formed (data : list ref) (filter_year : option Z)
    (exclude_fields exclude_total : list string) (h h' : heap) (tables : list Table) :
  render data filter_year exclude_fields exclude_total h = (Ok tables, h') ->
  exists grouped,
    group_loop filter_year 0 data [] h = (Ok grouped, h')
    /\ Forall2 (fun g t =>
                 length (rows t) = (length g.2 + 2)%nat
                 /\ Forall (fun row => length row = length (field_names t)) (rows t)
                 /\ (forall first rest,
                       g.2 = first :: rest ->
                       NoDup (dict_keys (h' first)) ->
                       NoDup (field_names t)))
              (group_list grouped) tables.
Proof.
  intros Hrun. apply render_Ok in Hrun. destruct Hrun as (grouped & Hloop & Htables).
  exists grouped. split; [assumption |].
  eapply Forall2_impl; [exact Htables |].
  intros g t Ht. apply make_table_rows in Ht.
  destruct Ht as (first & rest & totals & Hrecords & Hnames & Htotals & Hrows).
  assert (Hwidth : length (field_names t) = (2 + length (drop 2 (field_names t)))%nat).
  { rewrite Hnames. apply table_field_names_drop. }
  split; [| split].
  - rewrite Hrows, !length_app, length_map. cbn. lia.
  - rewrite Hrows, !Forall_app. split; [| split].
    + apply Forall_fmap, Forall_forall. intros record _. cbn.
      rewrite length_map. lia.
    + rewrite Forall_singleton. apply length_map.
    + rewrite Forall_singleton. cbn. lia.
  - intros first' rest' Hg Hkeys. rewrite Hrecords in Hg. inversion Hg; subst first'.
    rewrite Hnames. now apply table_field_names_NoDup.
Qed.

(** X14.  A record without a "Verkaufsdatum" key ends the rendering with
    a [KeyError] that names the key and the record's index, and no table
    is returned; the records before it that passed the year filter stay
    rewritten. *)
Theorem missing_date_key_raises (before : list ref) (entry : ref) (after : list ref)
    (filter_year : option Z) (exclude_fields exclude_total : list string) (h : heap) :
  dated_records filter_year h before ->
  entry ∉ before ->
  dict_lookup (h entry) "Verkaufsdatum" = None ->
  exists h1,
    render (before ++ entry :: after) filter_year exclude_fields exclude_total h
    = (Raise (KeyError "Verkaufsdatum" (Some (length before))), h1)
    /\ (forall e, e ∈ before -> h1 e = rendered_record filter_year (h e))
    /\ (forall e, e ∉ before -> h1 e = h e).
Proof.
  intros Hdated Hfresh Hmissing.
  destruct (group_loop_reaches filter_year before entry after h Hdated Hfresh)
    as (grouped & h1 & Hloop & Hentry & Hin & Hframe).
  exists h1. split; [| now split].
  unfold generate_pretty_table_with_hierarchy. apply bind_M_raise.
  rewrite Hloop. apply bind_M_raise.
  unfold group_entry, mbind, M_bind, bind_M, get_state. now rewrite Hentry, Hmissing.
Qed.

(** X15.  A record that passes the year filter and has no "PlanType" key
    ends the rendering with a [KeyError] that names the key and the
    record's index, after its date was overwritten: the caller's record is
    left with the display string although no table is returned. *)
Theorem missing_plan_type_raises (before : list ref) (entry : ref) (after : list ref)
    (filter_year : option Z) (exclude_fields exclude_total : list string) (h : heap)
    (t : Timestamp) :
  dated_records filter_year h before ->
  entry ∉ before ->
  dict_lookup (h entry) "Verkaufsdatum" = Some (VTimestamp t) ->
  year_passes filter_year t = true ->
  dict_lookup (h entry) "PlanType" = None ->
  exists h2,
    render (before ++ entry :: after) filter_year exclude_fields exclude_total h
    = (Raise (KeyError "PlanType" (Some (length before))), h2)
    /\ h2 entry = dict_set (h entry) "Verkaufsdatum" (VStr (strftime_dmY t))
    /\ (forall e, e ∈ before -> h2 e = rendered_record filter_year (h e))
    /\ (forall e, e ∉ before -> e <> entry -> h2 e = h e).
Proof.
  intros Hdated Hfresh Hdate Hpass Hmissing.
  destruct (group_loop_reaches filter_year before entry after h Hdated Hfresh)
    as (grouped & h1 & Hloop & Hentry & Hin & Hframe).
  exists (heap_set h1 entry (shown (h1 entry) t)). split; [| split; [| split]].
  - unfold generate_pretty_table_with_hierarchy. apply bind_M_raise.
    rewrite Hloop. apply bind_M_raise.
    unfold group_entry, mbind, M_bind, bind_M, get_state.
    rewrite Hentry, Hdate. cbn [year_of lift strftime].
    assert (Hskip : match filter_year with
                    | Some fy => negb (Z.eqb fy 0)
                                 && negb (py_eq (VInt (Z.of_nat (ts_year t))) (VInt fy))
                    | None => false
                    end = false).
    { unfold year_passes in Hpass. destruct filter_year as [fy |]; [| reflexivity].
      cbn. apply orb_true_iff in Hpass. destruct Hpass as [-> | ->]; [reflexivity |].
      apply andb_false_r. }
    rewrite Hskip. cbn. unfold heap_set at 1. rewrite Nat.eqb_refl.
    rewrite dict_lookup_set_other by discriminate. now rewrite Hmissing.
  - rewrite heap_set_same. now rewrite Hentry.
  - intros e He. rewrite heap_set_other by (intros ->; contradiction). now apply Hin.
  - intros e He Hne. rewrite heap_set_other by assumption. now apply Hframe.
Qed.

(** X16.  A year filter of 0 is no filter: [if filter_year:] takes it for
    absent, and the report is that of all years. *)
Theorem year_zero_is_no_filter (data : list ref)
    (exclude_fields exclude_total : list string) (h : heap) :
  render data (Some 0) exclude_fields exclude_total h
  = render data None exclude_fields exclude_total h.
Proof.
  unfold generate_pretty_table_with_hierarchy, mbind, M_bind, bind_M.
  now rewrite group_loop_year_zero.
Qed.

End ReportMore.
(** ** How the report groups its records *)

Lemma key_match_plain (a b : value) :
  plain_key a = true -> plain_key b = true -> key_match a b = true <-> a = b.
Proof.
  destruct a, b; try discriminate; intros _ _; cbn;
    try (split; [discriminate | congruence]); try tauto.
  - rewrite Z.eqb_eq. split; congruence.
  - rewrite String.eqb_eq. split; congruence.
Qed.

Lemma key_match_plain_refl (a : value) : plain_key a = true -> key_match a a = true.
Proof. intros Ha. now apply key_match_plain. Qed.

Lemma vdict_set_keys {A} (d : list (value * A)) (k : value) (a : A) :
  map fst (vdict_set d k a)
  = match vdict_lookup d k with
    | Some _ => map fst d
    | None => map fst d ++ [k]
    end.
Proof.
  induction d as [| [k0 a0] d IH]; cbn; [reflexivity |].
  destruct (key_match k0 k); cbn; [reflexivity |].
  rewrite IH. now destruct (vdict_lookup d k).
Qed.

Lemma vdict_lookup_set_same {A} (d : list (value * A)) (k : value) (a : A) :
  key_match k k = true -> vdict_lookup (vdict_set d k a) k = Some a.
Proof.
  intros Hk. induction d as [| [k0 a0] d IH]; cbn.
  - now rewrite Hk.
  - destruct (key_match k0 k) eqn:E; cbn; now rewrite E.
Qed.

Lemma vdict_set_set {A} (d : list (value * A)) (k : value) (a b : A) :
  key_match k k = true -> vdict_set (vdict_set d k a) k b = vdict_set d k b.
Proof.
  intros Hk. induction d as [| [k0 a0] d IH]; cbn.
  - now rewrite Hk.
  - destruct (key_match k0 k) eqn:E; cbn; rewrite E; [reflexivity | now rewrite IH].
Qed.

Lemma vdict_lookup_set {A} (d : list (value * A)) (k k' : value) (a : A) :
  Forall (fun k0 => plain_key k0 = true) (map fst d) ->
  plain_key k = true -> plain_key k' = true ->
  vdict_lookup (vdict_set d k a) k'
  = if key_match k k' then Some a else vdict_lookup d k'.
Proof.
  intros Hd Hk Hk'. induction d as [| [k0 a0] d IH]; cbn; [reflexivity |].
  cbn in Hd. apply Forall_cons in Hd. destruct Hd as [Hk0 Hd].
  destruct (key_match k0 k) eqn:E; cbn.
  - apply key_match_plain in E; [| assumption ..]. subst k0.
    now destruct (key_match k k').
  - destruct (key_match k0 k') eqn:E'.
    + apply key_match_plain in E'; [| assumption ..]. subst k0.
      destruct (key_match k k') eqn:E''; [| reflexivity].
      apply key_match_plain in E''; [| assumption ..]. subst k'.
      rewrite key_match_plain_refl in E by assumption. discriminate.
    + now apply IH.
Qed.

Lemma vdict_lookup_Forall {A} (P : A -> Prop) (d : list (value * A)) (k : value) (a : A) :
  Forall (fun x => P x.2) d -> vdict_lookup d k = Some a -> P a.
Proof.
  intros Hd. induction Hd as [| [k0 a0] d H0 Hd IH]; cbn; [discriminate |].
  destruct (key_match k0 k); [| assumption]. intros H. now inversion H; subst.
Qed.

Lemma vdict_set_Forall {A} (P : A -> Prop) (d : list (value * A)) (k : value) (a : A) :
  Forall (fun x => P x.2) d -> P a -> Forall (fun x => P x.2) (vdict_set d k a).
Proof.
  intros Hd Ha. induction Hd as [| [k0 a0] d H0 Hd IH]; cbn.
  - now constructor.
  - destruct (key_match k0 k); constructor; assumption.
Qed.

Lemma vdict_lookup_None {A} (d : list (value * A)) (k : value) :
  Forall (fun k0 => plain_key k0 = true) (map fst d) -> plain_key k = true ->
  vdict_lookup d k = None -> k ∉ map fst d.
Proof.
  intros Hd Hk. induction d as [| [k0 a0] d IH]; cbn.
  - intros _ H. now apply elem_of_nil in H.
  - cbn in Hd. apply Forall_cons in Hd. destruct Hd as [Hk0 Hd].
    destruct (key_match k0 k) eqn:E; [discriminate |].
    intros Hnone. rewrite not_elem_of_cons. split; [| now apply IH].
    intros ->. rewrite key_match_plain_refl in E by assumption. discriminate.
Qed.

Lemma vdict_lookup_elem {A} (d : list (value * A)) (k : value) (a : A) :
  vdict_lookup d k = Some a -> exists k0, (k0, a) ∈ d /\ key_match k0 k = true.
Proof.
  induction d as [| [k0 a0] d IH]; cbn; [discriminate |].
  destruct (key_match k0 k) eqn:E.
  - intros H. inversion H; subst. exists k0. split; [apply elem_of_cons; now left | assumption].
  - intros H. destruct (IH H) as (k1 & Hin & Hk1).
    exists k1. split; [apply elem_of_cons; now right | assumption].
Qed.

Lemma vdict_elem_lookup {A} (d : list (value * A)) (k : value) (a : A) :
  keys_ok d -> (k, a) ∈ d -> vdict_lookup d k = Some a.
Proof.
  intros [Hplain Hnodup]. induction d as [| [k0 a0] d IH]; cbn.
  - intros H. now apply elem_of_nil in H.
  - cbn in Hplain, Hnodup. apply Forall_cons in Hplain. destruct Hplain as [Hk0 Hplain].
    apply NoDup_cons in Hnodup. destruct Hnodup as [Hfresh Hnodup].
    intros Hin. apply elem_of_cons in Hin. destruct Hin as [Heq | Hin].
    + inversion Heq; subst. now rewrite key_match_plain_refl.
    + assert (Hk : k ∈ map fst d).
      { apply list_elem_of_fmap. now exists (k, a). }
      destruct (key_match k0 k) eqn:E; [| now apply IH].
      apply key_match_plain in E; [now subst | assumption |].
      rewrite Forall_forall in Hplain. now apply Hplain.
Qed.

Lemma keys_ok_set {A} (d : list (value * A)) (k : value) (a : A) :
  keys_ok d -> plain_key k = true -> keys_ok (vdict_set d k a).
Proof.
  intros [Hplain Hnodup] Hk. unfold keys_ok. rewrite vdict_set_keys.
  destruct (vdict_lookup d k) eqn:E; [now split |]. split.
  - apply Forall_app. split; [assumption | now constructor].
  - apply NoDup_app. split; [assumption |]. split; [| apply NoDup_singleton].
    intros k0 Hk0 Hin. apply list_elem_of_singleton in Hin. subst k0.
    now apply (vdict_lookup_None d k).
Qed.

Lemma keys_ok_nil {A} : keys_ok (@nil (value * A)).
Proof. split; constructor. Qed.

Lemma slot_lookup_equal {A} (found : value * A -> bool) (d : list (value * A))
    (k : value) :
  (forall slot, found slot = key_match slot.1 k) ->
  slot_lookup found d = vdict_lookup d k.
Proof.
  intros Hfound. induction d as [| [k0 a0] d IH]; cbn; [reflexivity |].
  now rewrite Hfound, IH.
Qed.

Lemma slot_set_equal {A} (found : value * A -> bool) (d : list (value * A))
    (k : value) (a : A) :
  (forall slot, found slot = key_match slot.1 k) ->
  slot_set found d k a = vdict_set d k a.
Proof.
  intros Hfound. induction d as [| [k0 a0] d IH]; cbn; [reflexivity |].
  now rewrite Hfound, IH.
Qed.

Lemma year_found_equal {A} (year : value) :
  key_match year year = true ->
  forall slot : value * A, year_found year slot = key_match slot.1 year.
Proof. intros Hy slot. unfold year_found. now rewrite Hy. Qed.

Lemma plan_found_equal (h : heap) (entry : ref) (plan_type : value) :
  key_match plan_type plan_type = true ->
  forall slot, plan_found h entry plan_type slot = key_match slot.1 plan_type.
Proof. intros Hp slot. unfold plan_found. now rewrite Hp. Qed.

(** The three statements that file an entry under keys that equal
    themselves, as one update. *)
Lemma group_add_eq (h : heap) (grouped_data : groups) (year plan_type : value)
    (entry : ref) :
  key_match year year = true -> key_match plan_type plan_type = true ->
  group_add h grouped_data year plan_type entry
  = vdict_set grouped_data year
      (vdict_set (default [] (vdict_lookup grouped_data year)) plan_type
         (records_of grouped_data year plan_type ++ [entry])).
Proof.
  intros Hy Hp. unfold group_add, records_of. cbv zeta.
  pose proof (year_found_equal (A:=list (value * list ref)) year Hy) as Hyear.
  pose proof (plan_found_equal h entry plan_type Hp) as Hplan.
  rewrite ?(slot_lookup_equal _ _ year Hyear), ?(slot_set_equal _ _ year _ Hyear).
  rewrite ?(slot_lookup_equal _ _ year Hyear).
  destruct (vdict_lookup grouped_data year) as [plans |] eqn:Eyear; cbn [from_option id].
  - rewrite Eyear. cbn [from_option id].
    rewrite ?(slot_lookup_equal _ _ plan_type Hplan), ?(slot_set_equal _ _ plan_type _ Hplan).
    rewrite ?(slot_lookup_equal _ _ plan_type Hplan).
    destruct (vdict_lookup plans plan_type) as [records |] eqn:Eplan; cbn [from_option id].
    + now rewrite Eplan.
    + rewrite vdict_lookup_set_same by assumption. cbn [from_option id].
      now rewrite vdict_set_set.
  - rewrite vdict_lookup_set_same by assumption. cbn [from_option id].
    rewrite ?(slot_lookup_equal _ _ plan_type Hplan), ?(slot_set_equal _ _ plan_type _ Hplan).
    rewrite ?(slot_lookup_equal _ _ plan_type Hplan).
    cbn [vdict_lookup vdict_set]. rewrite !Hp. cbn [from_option id].
    now rewrite vdict_set_set.
Qed.

Lemma groups_ok_plans (grouped_data : groups) (year : value) :
  groups_ok grouped_data ->
  keys_ok (default [] (vdict_lookup grouped_data year))
  /\ Forall (fun pr => pr.2 <> []) (default [] (vdict_lookup grouped_data year)).
Proof.
  intros [_ Hinner].
  destruct (vdict_lookup grouped_data year) as [plans |] eqn:E; cbn [from_option id].
  - exact (vdict_lookup_Forall
             (fun plans => keys_ok plans /\ Forall (fun pr => pr.2 <> []) plans)
             _ _ _ Hinner E).
  - split; [apply keys_ok_nil | constructor].
Qed.

Lemma groups_ok_add (h : heap) (grouped_data : groups) (year plan_type : value)
    (entry : ref) :
  groups_ok grouped_data -> plain_key year = true -> plain_key plan_type = true ->
  groups_ok (group_add h grouped_data year plan_type entry).
Proof.
  intros Hok Hy Hp.
  rewrite group_add_eq by now apply key_match_plain_refl.
  destruct (groups_ok_plans grouped_data year Hok) as [Hkeys Hfull].
  destruct Hok as [Hyears Hinner]. split; [now apply keys_ok_set |].
  apply (vdict_set_Forall
           (fun plans => keys_ok plans /\ Forall (fun pr => pr.2 <> []) plans));
    [assumption |].
  split; [now apply keys_ok_set |].
  apply (vdict_set_Forall (fun records => records <> [])); [assumption |].
  intros H. now apply app_eq_nil in H.
Qed.

Lemma records_of_add (h : heap) (grouped_data : groups) (year plan_type : value)
    (entry : ref) (year' plan_type' : value) :
  groups_ok grouped_data ->
  plain_key year = true -> plain_key plan_type = true ->
  plain_key year' = true -> plain_key plan_type' = true ->
  records_of (group_add h grouped_data year plan_type entry) year' plan_type'
  = if key_match year year' && key_match plan_type plan_type'
    then records_of grouped_data year' plan_type' ++ [entry]
    else records_of grouped_data year' plan_type'.
Proof.
  intros Hok Hy Hp Hy' Hp'.
  rewrite group_add_eq by now apply key_match_plain_refl.
  destruct (groups_ok_plans grouped_data year Hok) as [[Hkeys _] _].
  destruct Hok as [[Hyears _] _].
  unfold records_of at 1. rewrite vdict_lookup_set by assumption.
  destruct (key_match year year') eqn:Ey; cbn [andb from_option id]; [| reflexivity].
  apply key_match_plain in Ey; [| assumption ..]. subst year'.
  rewrite vdict_lookup_set by assumption.
  destruct (key_match plan_type plan_type') eqn:Ep; cbn [from_option id]; [| reflexivity].
  apply key_match_plain in Ep; [| assumption ..]. now subst plan_type'.
Qed.

Lemma filter_snoc {A} (f : A -> bool) (l : list A) (x : A) :
  List.filter f (l ++ [x]) = if f x then List.filter f l ++ [x] else List.filter f l.
Proof. rewrite List.filter_app. cbn. destruct (f x); [reflexivity | apply app_nil_r]. Qed.

(** One pass of the grouping loop over a record that is as it was given. *)
Lemma group_entry_files (filter_year : option Z) (h : heap) (i : nat) (entry : ref)
    (grouped_data : groups) (h1 : heap) (seen : list ref) :
  ((exists t plan_type,
      dict_lookup (h entry) "Verkaufsdatum" = Some (VTimestamp t)
      /\ dict_lookup (h entry) "PlanType" = Some plan_type
      /\ plain_key plan_type = true)
   \/ (filter_active filter_year = true
       /\ dict_lookup (h entry) "Verkaufsdatum" = Some VNaT)) ->
  h1 entry = h entry ->
  groups_ok grouped_data ->
  (forall year plan_type,
      plain_key year = true -> plain_key plan_type = true ->
      records_of grouped_data year plan_type
      = List.filter (fun e => filed_under filter_year year plan_type (h e)) seen) ->
  exists grouped1 h2,
    group_entry filter_year i entry grouped_data h1 = (Ok grouped1, h2)
    /\ (forall e, e <> entry -> h2 e = h1 e)
    /\ groups_ok grouped1
    /\ (forall year plan_type,
          plain_key year = true -> plain_key plan_type = true ->
          records_of grouped1 year plan_type
          = List.filter (fun e => filed_under filter_year year plan_type (h e))
              (seen ++ [entry])).
Proof.
  intros Hentry Hsame Hok Hseen.
  destruct Hentry as [(t & plan_type & Hdate & Hplan & Hplain) | [Hactive Hdate]].
  - rewrite (group_entry_timestamp filter_year i entry grouped_data h1 t plan_type)
      by (rewrite Hsame; assumption).
    destruct (year_passes filter_year t) eqn:Hpass.
    + do 2 eexists. split; [reflexivity |].
      split; [intros e Hne; now apply heap_set_other |].
      split; [now apply groups_ok_add |].
      intros year' plan_type' Hy' Hp'.
      rewrite records_of_add by (assumption || reflexivity).
      rewrite filter_snoc. unfold filed_under at 1.
      rewrite Hdate, Hplan, Hpass. cbn [andb].
      rewrite Hseen by assumption.
      now destruct (key_match _ year' && key_match plan_type plan_type').
    + do 2 eexists. split; [reflexivity |]. split; [reflexivity |].
      split; [assumption |].
      intros year' plan_type' Hy' Hp'.
      rewrite filter_snoc. unfold filed_under at 1.
      rewrite Hdate, Hplan, Hpass. cbn [andb]. now apply Hseen.
  - rewrite (group_entry_NaT filter_year i entry grouped_data h1 Hactive)
      by (rewrite Hsame; assumption).
    do 2 eexists. split; [reflexivity |]. split; [reflexivity |].
    split; [assumption |].
    intros year' plan_type' Hy' Hp'.
    rewrite filter_snoc. unfold filed_under at 1. rewrite Hdate. now apply Hseen.
Qed.

(** The grouping loop files every record that passes the year filter under
    its year and plan type, after the records filed there before it. *)
Lemma group_loop_files (filter_year : option Z) (h : heap) (data : list ref) :
  forall (i : nat) (grouped_data : groups) (h1 : heap) (seen : list ref)
         (grouped : groups) (h' : heap),
    dated_records filter_year h data ->
    plain_plan_types h data ->
    (forall e, e ∈ data -> h1 e = h e) ->
    groups_ok grouped_data ->
    (forall year plan_type,
        plain_key year = true -> plain_key plan_type = true ->
        records_of grouped_data year plan_type
        = List.filter (fun e => filed_under filter_year year plan_type (h e)) seen) ->
    group_loop filter_year i data grouped_data h1 = (Ok grouped, h') ->
    groups_ok grouped
    /\ (forall year plan_type,
          plain_key year = true -> plain_key plan_type = true ->
          records_of grouped year plan_type
          = List.filter (fun e => filed_under filter_year year plan_type (h e))
              (seen ++ data)).
Proof.
  induction data as [| entry rest IH];
    intros i grouped_data h1 seen grouped h' [Hnodup Hdated] Hplain Hsame Hok Hseen Hrun.
  - cbn in Hrun. inversion Hrun; subst. rewrite app_nil_r. now split.
  - apply NoDup_cons in Hnodup. destruct Hnodup as [Hfresh Hnodup].
    assert (Hentry : (exists t plan_type,
                         dict_lookup (h entry) "Verkaufsdatum" = Some (VTimestamp t)
                         /\ dict_lookup (h entry) "PlanType" = Some plan_type
                         /\ plain_key plan_type = true)
                     \/ (filter_active filter_year = true
                         /\ dict_lookup (h entry) "Verkaufsdatum" = Some VNaT)).
    { destruct (Hdated entry) as [(t & plan_type & Hdate & Hplan) | Hnat];
        [apply elem_of_cons; now left | left | now right].
      exists t, plan_type. split; [assumption |]. split; [assumption |].
      apply (Hplain entry); [apply elem_of_cons; now left | assumption]. }
    destruct (group_entry_files filter_year h i entry grouped_data h1 seen
                Hentry (Hsame entry ltac:(apply elem_of_cons; now left)) Hok Hseen)
      as (grouped1 & h2 & Hstep & Hframe & Hok1 & Hseen1).
    cbn [group_loop] in Hrun. rewrite (bind_M_run _ _ _ _ _ Hstep) in Hrun.
    replace (seen ++ entry :: rest) with ((seen ++ [entry]) ++ rest)
      by now rewrite <- app_assoc.
    apply (IH (S i) grouped1 h2 (seen ++ [entry]) grouped h'); try assumption.
    + split; [assumption |]. intros e He. apply Hdated, elem_of_cons. now right.
    + intros e p He. apply Hplain, elem_of_cons. now right.
    + intros e He. rewrite Hframe by (intros ->; contradiction).
      apply Hsame, elem_of_cons. now right.
Qed.

Lemma elem_of_group_list (grouped_data : groups) (year plan_type : value)
    (records : list ref) :
  (year, plan_type, records) ∈ group_list grouped_data
  <-> exists plans, (year, plans) ∈ grouped_data /\ (plan_type, records) ∈ plans.
Proof.
  unfold group_list. induction grouped_data as [| [y plans] rest IH]; cbn.
  - split; [intros H; now apply elem_of_nil in H |].
    intros (plans & H & _). now apply elem_of_nil in H.
  - rewrite elem_of_app, IH. split.
    + intros [Hhere | (plans' & Hin & Hrec)].
      * apply list_elem_of_fmap in Hhere. destruct Hhere as ([p r] & Heq & Hin).
        cbn in Heq. inversion Heq; subst.
        exists plans. split; [apply elem_of_cons; now left | assumption].
      * exists plans'. split; [apply elem_of_cons; now right | assumption].
    + intros (plans' & Hin & Hrec). apply elem_of_cons in Hin.
      destruct Hin as [Heq | Hin].
      * inversion Heq; subst. left. apply list_elem_of_fmap.
        now exists (plan_type, records).
      * right. now exists plans'.
Qed.

Lemma group_list_keys (grouped_data : groups) :
  groups_ok grouped_data -> NoDup (map fst (group_list grouped_data)).
Proof.
  unfold group_list. intros [[_ Hnodup] Hinner].
  induction grouped_data as [| [y plans] rest IH]; cbn; [constructor |].
  cbn in Hnodup. apply NoDup_cons in Hnodup. destruct Hnodup as [Hfresh Hnodup].
  apply Forall_cons in Hinner. destruct Hinner as [[[_ Hplans] _] Hinner].
  rewrite map_app. apply NoDup_app. split; [| split; [| now apply IH]].
  - replace (map fst (map (fun pr : value * list ref => (y, pr.1, pr.2)) plans))
      with (map (fun p : value => (y, p)) (map fst plans))
      by (rewrite !map_map; reflexivity).
    apply NoDup_fmap_2; [| exact Hplans].
    intros p q H. now inversion H.
  - intros [y' p'] Hhere Hthere.
    apply list_elem_of_fmap in Hhere. destruct Hhere as ([[y1 p1] r1] & Heq & Hin).
    cbn in Heq. inversion Heq; subst.
    apply list_elem_of_fmap in Hin. destruct Hin as ([p2 r2] & Heq2 & _).
    cbn in Heq2. inversion Heq2; subst.
    apply list_elem_of_fmap in Hthere. destruct Hthere as ([[y3 p3] r3] & Heq3 & Hin3).
    cbn in Heq3. inversion Heq3; subst.
    change (concat (map (fun yp => map (fun pr => (yp.1, pr.1, pr.2)) yp.2) rest))
      with (group_list rest) in Hin3.
    apply elem_of_group_list in Hin3. destruct Hin3 as (plans3 & Hin3 & _).
    apply Hfresh, list_elem_of_fmap. now exists (y3, plans3).
Qed.

Lemma group_list_records (grouped_data : groups) (year plan_type : value)
    (records : list ref) :
  groups_ok grouped_data ->
  (year, plan_type, records) ∈ group_list grouped_data ->
  plain_key year = true /\ plain_key plan_type = true
  /\ records <> []
  /\ records_of grouped_data year plan_type = records.
Proof.
  intros [Hyears Hinner] Hin. apply elem_of_group_list in Hin.
  destruct Hin as (plans & Hyear & Hplan).
  rewrite Forall_forall in Hinner. destruct (Hinner _ Hyear) as [Hkeys Hfull].
  cbn in Hkeys, Hfull.
  assert (Hy : plain_key year = true).
  { destruct Hyears as [Hplain _]. rewrite Forall_forall in Hplain.
    apply Hplain, list_elem_of_fmap. now exists (year, plans). }
  assert (Hp : plain_key plan_type = true).
  { destruct Hkeys as [Hplain _]. rewrite Forall_forall in Hplain.
    apply Hplain, list_elem_of_fmap. now exists (plan_type, records). }
  split; [assumption |]. split; [assumption |]. split.
  - rewrite Forall_forall in Hfull. exact (Hfull _ Hplan).
  - unfold records_of. rewrite (vdict_elem_lookup _ _ _ Hyears Hyear). cbn [from_option id].
    now rewrite (vdict_elem_lookup _ _ _ Hkeys Hplan).
Qed.

Lemma records_of_elem (grouped_data : groups) (year plan_type : value) (e : ref) :
  plain_key year = true -> plain_key plan_type = true ->
  groups_ok grouped_data ->
  e ∈ records_of grouped_data year plan_type ->
  (year, plan_type, records_of grouped_data year plan_type) ∈ group_list grouped_data.
Proof.
  intros Hy Hp [[Hyears _] Hinner] He. unfold records_of in *.
  destruct (vdict_lookup grouped_data year) as [plans |] eqn:Eyear; cbn [from_option id] in *;
    [| now apply elem_of_nil in He].
  destruct (vdict_lookup plans plan_type) as [records |] eqn:Eplan; cbn [from_option id] in *;
    [| now apply elem_of_nil in He].
  apply vdict_lookup_elem in Eyear. destruct Eyear as (y0 & Hin & Hmatch).
  assert (Hy0 : plain_key y0 = true).
  { rewrite Forall_forall in Hyears. apply Hyears, list_elem_of_fmap. now exists (y0, plans). }
  apply key_match_plain in Hmatch; [| assumption ..]. subst y0.
  rewrite Forall_forall in Hinner. destruct (Hinner _ Hin) as [[Hplans _] _]. cbn in Hplans.
  apply vdict_lookup_elem in Eplan. destruct Eplan as (p0 & Hinp & Hmatchp).
  assert (Hp0 : plain_key p0 = true).
  { rewrite Forall_forall in Hplans. apply Hplans, list_elem_of_fmap. now exists (p0, records). }
  apply key_match_plain in Hmatchp; [| assumption ..]. subst p0.
  apply elem_of_group_list. now exists plans.
Qed.

Lemma groups_ok_nil : groups_ok [].
Proof. split; [apply keys_ok_nil | constructor]. Qed.

(** The groups that the loop builds from well-dated records with plain
    plan types. *)
Lemma grouping (filter_year : option Z) (h h' : heap) (data : list ref)
    (grouped : groups) :
  dated_records filter_year h data ->
  plain_plan_types h data ->
  group_loop filter_year 0 data [] h = (Ok grouped, h') ->
  NoDup (map fst (group_list grouped))
  /\ Forall (fun g =>
               g.2 <> []
               /\ g.2 = List.filter (fun e => filed_under filter_year g.1.1 g.1.2 (h e)) data)
            (group_list grouped)
  /\ (forall e t,
        e ∈ data ->
        dict_lookup (h e) "Verkaufsdatum" = Some (VTimestamp t) ->
        year_passes filter_year t = true ->
        exists g, g ∈ group_list grouped /\ e ∈ g.2).
Proof.
  intros Hdated Hplain Hrun.
  destruct (group_loop_files filter_year h data 0 [] h [] grouped h'
              Hdated Hplain (fun e _ => eq_refl) groups_ok_nil
              (fun _ _ _ _ => eq_refl) Hrun) as [Hok Hrecords].
  cbn [app] in Hrecords.
  split; [now apply group_list_keys |]. split.
  - apply Forall_forall. intros [[year plan_type] records] Hin.
    destruct (group_list_records _ _ _ _ Hok Hin) as (Hy & Hp & Hfull & Hof).
    cbn. split; [assumption |]. rewrite <- Hof. now apply Hrecords.
  - intros e t He Hdate Hpass.
    destruct Hdated as [_ Hdated].
    destruct (Hdated e He) as [(t' & plan_type & Hdate' & Hplan) | [_ Hnat]];
      [| congruence].
    assert (Hp : plain_key plan_type = true) by exact (Hplain e plan_type He Hplan).
    set (year := VInt (Z.of_nat (ts_year t))).
    assert (Hfiled : e ∈ records_of grouped year plan_type).
    { rewrite Hrecords by (assumption || reflexivity).
      apply list_elem_of_In, filter_In. split; [now apply list_elem_of_In |].
      unfold filed_under. rewrite Hdate, Hplan, Hpass. cbn [andb].
      unfold year. rewrite !key_match_plain_refl by (assumption || reflexivity).
      reflexivity. }
    exists (year, plan_type, records_of grouped year plan_type).
    split; [| exact Hfiled].
    now apply (records_of_elem grouped year plan_type e).
Qed.

(** ** No group is empty

    [records[0]] in the loop over the groups always finds a record,
    whatever the dates and plan types of the records are, NaN included. *)

Lemma slot_lookup_Forall {A} (found : value * A -> bool) (P : A -> Prop)
    (d : list (value * A)) (a : A) :
  Forall (fun x => P x.2) d -> slot_lookup found d = Some a -> P a.
Proof.
  intros Hd. induction Hd as [| [k0 a0] d H0 Hd IH]; cbn; [discriminate |].
  destruct (found (k0, a0)); [| assumption]. intros H. now inversion H; subst.
Qed.

Lemma slot_set_Forall {A} (found : value * A -> bool) (P : A -> Prop)
    (d : list (value * A)) (k : value) (a : A) :
  Forall (fun x => P x.2) d -> P a -> Forall (fun x => P x.2) (slot_set found d k a).
Proof.
  intros Hd Ha. induction Hd as [| [k0 a0] d H0 Hd IH]; cbn.
  - now constructor.
  - destruct (found (k0, a0)); constructor; assumption.
Qed.

(** A key that was not found and is assigned goes to the end, where it is
    found when it finds itself. *)
Lemma slot_lookup_set_new {A} (found : value * A -> bool) (d : list (value * A))
    (k : value) (a : A) :
  slot_lookup found d = None -> found (k, a) = true ->
  slot_lookup found (slot_set found d k a) = Some a.
Proof.
  intros Hnone Hnew. induction d as [| [k0 a0] d IH]; cbn in *.
  - now rewrite Hnew.
  - destruct (found (k0, a0)) eqn:E; [discriminate |]. cbn. rewrite E. now apply IH.
Qed.

Lemma slot_set_set_new {A} (found : value * A -> bool) (d : list (value * A))
    (k : value) (a b : A) :
  slot_lookup found d = None -> found (k, a) = true ->
  slot_set found (slot_set found d k a) k b = slot_set found d k b.
Proof.
  intros Hnone Hnew. induction d as [| [k0 a0] d IH]; cbn in *.
  - now rewrite Hnew.
  - destruct (found (k0, a0)) eqn:E; [discriminate |]. cbn. rewrite E.
    now rewrite IH.
Qed.

(** The slot that a pass makes for a plan type is found by that pass,
    whatever the plan type is. *)
Lemma plan_found_new (h : heap) (entry : ref) (plan_type : value) :
  plan_found h entry plan_type (plan_type, []) = true.
Proof.
  unfold plan_found. cbn [fst snd].
  now destruct (key_match plan_type plan_type) eqn:E.
Qed.

(** The second and third statement, as one update of the dict of the year. *)
Lemma plans_add (h : heap) (entry : ref) (plan_type : value)
    (plans : list (value * list ref)) :
  let of_plan := plan_found h entry plan_type in
  let plans' :=
    match slot_lookup of_plan plans with
    | Some _ => plans
    | None => slot_set of_plan plans plan_type []
    end in
  slot_set of_plan plans' plan_type (default [] (slot_lookup of_plan plans') ++ [entry])
  = slot_set of_plan plans plan_type (default [] (slot_lookup of_plan plans) ++ [entry]).
Proof.
  cbv zeta. destruct (slot_lookup (plan_found h entry plan_type) plans) eqn:E;
    [now rewrite E |].
  rewrite slot_lookup_set_new by (assumption || apply plan_found_new).
  now rewrite slot_set_set_new by (assumption || apply plan_found_new).
Qed.

(** Every list of records in [grouped_data] has a record. *)
Lemma group_add_nonempty (h : heap) (grouped_data : groups) (year plan_type : value)
    (entry : ref) :
  Forall (fun yp => Forall (fun pr => pr.2 <> []) yp.2) grouped_data ->
  Forall (fun yp => Forall (fun pr => pr.2 <> []) yp.2)
    (group_add h grouped_data year plan_type entry).
Proof.
  intros Hfull. unfold group_add. cbv zeta.
  set (grouped1 := match slot_lookup (year_found year) grouped_data with
                   | Some _ => grouped_data
                   | None => slot_set (year_found year) grouped_data year []
                   end).
  assert (Hfull1 : Forall (fun yp => Forall (fun pr => pr.2 <> []) yp.2) grouped1).
  { subst grouped1. destruct (slot_lookup _ grouped_data); [assumption |].
    apply (slot_set_Forall _ (fun plans => Forall (fun pr => pr.2 <> []) plans));
      [assumption | constructor]. }
  assert (Hplans : Forall (fun pr => pr.2 <> [])
                     (default [] (slot_lookup (year_found year) grouped1))).
  { destruct (slot_lookup (year_found year) grouped1) as [plans |] eqn:E;
      cbn [from_option id]; [| constructor].
    exact (slot_lookup_Forall _ (fun plans => Forall (fun pr => pr.2 <> []) plans)
             _ _ Hfull1 E). }
  rewrite (plans_add h entry plan_type).
  apply (slot_set_Forall _ (fun plans => Forall (fun pr => pr.2 <> []) plans));
    [assumption |].
  apply (slot_set_Forall _ (fun records => records <> [])); [assumption |].
  intros H. now apply app_eq_nil in H.
Qed.

Lemma group_entry_nonempty (filter_year : option Z) (i : nat) (entry : ref)
    (grouped_data grouped : groups) (h h' : heap) :
  group_entry filter_year i entry grouped_data h = (Ok grouped, h') ->
  Forall (fun yp => Forall (fun pr => pr.2 <> []) yp.2) grouped_data ->
  Forall (fun yp => Forall (fun pr => pr.2 <> []) yp.2) grouped.
Proof.
  intros Hrun Hfull.
  unfold group_entry, mbind, M_bind, bind_M, get_state, put_state, lift, mret, ret_M
    in Hrun.
  repeat match type of Hrun with
         | context [match ?x with _ => _ end] => destruct x
         end.
  all: try discriminate.
  all: apply (f_equal fst) in Hrun; cbn in Hrun; apply Ok_inj in Hrun; subst grouped.
  all: first [assumption | now apply group_add_nonempty].
Qed.

Lemma group_loop_nonempty (filter_year : option Z) (data : list ref) :
  forall (i : nat) (grouped_data grouped : groups) (h h' : heap),
    group_loop filter_year i data grouped_data h = (Ok grouped, h') ->
    Forall (fun yp => Forall (fun pr => pr.2 <> []) yp.2) grouped_data ->
    Forall (fun g => g.2 <> []) (group_list grouped).
Proof.
  induction data as [| entry rest IH]; intros i grouped_data grouped h h' Hrun Hfull.
  - cbn in Hrun. apply (f_equal fst) in Hrun. cbn in Hrun. apply Ok_inj in Hrun.
    subst grouped. unfold group_list. clear -Hfull.
    induction Hfull as [| [y plans] rest Hplans _ IH]; cbn; [constructor |].
    apply Forall_app. split; [| assumption]. now apply Forall_fmap.
  - cbn [group_loop] in Hrun. apply bind_M_Ok in Hrun.
    destruct Hrun as (grouped1 & h1 & Hstep & Hrun).
    apply (IH _ _ _ _ _ Hrun). exact (group_entry_nonempty _ _ _ _ _ _ _ Hstep Hfull).
Qed.

(** Without an active year filter the loop fails at the first record
    without a date, [pd.NaT.strftime] raising a [ValueError]. *)
Lemma group_loop_undated (filter_year : option Z) (data : list ref) :
  forall (i : nat) (grouped_data : groups) (h : heap),
    filter_active filter_year = false ->
    NoDup data ->
    (forall e, e ∈ data ->
       (exists t plan_type,
          dict_lookup (h e) "Verkaufsdatum" = Some (VTimestamp t)
          /\ dict_lookup (h e) "PlanType" = Some plan_type)
       \/ dict_lookup (h e) "Verkaufsdatum" = Some VNaT) ->
    (exists e, e ∈ data /\ dict_lookup (h e) "Verkaufsdatum" = Some VNaT) ->
    exists h1, group_loop filter_year i data grouped_data h = (Raise ValueError, h1).
Proof.
  induction data as [| entry rest IH];
    intros i grouped_data h Hfilter Hnodup Hdated (undated & Hin & Hnat).
  - now apply elem_of_nil in Hin.
  - apply NoDup_cons in Hnodup. destruct Hnodup as [Hfresh Hnodup].
    cbn [group_loop].
    destruct (Hdated entry) as [(t & plan_type & Hdate & Hplan) | Hentry];
      [apply elem_of_cons; now left | |].
    + assert (Hpass : year_passes filter_year t = true).
      { destruct filter_year as [fy |]; [| reflexivity].
        cbn in Hfilter |- *. apply negb_false_iff in Hfilter. now rewrite Hfilter. }
      pose proof (group_entry_timestamp filter_year i entry grouped_data h t plan_type
                    Hdate Hplan) as Hstep.
      rewrite Hpass in Hstep. rewrite (bind_M_run _ _ _ _ _ Hstep).
      apply IH; try assumption.
      * intros e He. rewrite heap_set_other by (intros ->; contradiction).
        apply Hdated, elem_of_cons. now right.
      * exists undated. apply elem_of_cons in Hin. destruct Hin as [-> | Hin];
          [congruence |].
        split; [assumption |]. rewrite heap_set_other by (intros ->; contradiction).
        assumption.
    + exists h. apply bind_M_raise.
      unfold group_entry, mbind, M_bind, bind_M, get_state. rewrite Hentry.
      cbn [year_of lift].
      destruct filter_year as [fy |]; [| reflexivity].
      cbn in Hfilter. apply negb_false_iff in Hfilter. now rewrite Hfilter.
Qed.

Lemma main_filter_filter (selltocover : bool) (data : list dict) :
  main_filter selltocover data = List.filter (kept selltocover) data.
Proof.
  unfold main_filter.
  assert (Hfold : forall acc,
             fold_left (fun new_data elem =>
                          if kept selltocover elem then new_data ++ [elem] else new_data)
                       data acc
             = acc ++ List.filter (kept selltocover) data).
  { induction data as [| elem rest IH]; intros acc; cbn.
    - now rewrite app_nil_r.
    - rewrite IH. destruct (kept selltocover elem); [| reflexivity].
      now rewrite <- app_assoc. }
  destruct data as [| elem rest]; [reflexivity |]. apply (Hfold []).
Qed.

Lemma store_of_lookup (objects : ref -> nat) (items : list dict) (e : ref) :
  e ∈ refs_of items ->
  exists item, items !! e = Some item /\ store_of objects items e = item.
Proof.
  unfold refs_of, store_of. cbn [dict_at]. intros He. apply elem_of_seq in He.
  destruct (lookup_lt_is_Some_2 items e) as [item Hitem]; [lia |].
  exists item. split; [assumption |]. exact (f_equal (from_option id []) Hitem).
Qed.

Section ReportGroups.
Variable locale_currency : float -> string.
Variable repr_float : float -> string.

#[local] Abbreviation render :=
  (generate_pretty_table_with_hierarchy locale_currency repr_float).

(** X17.  Over records that each have a date and a plain plan type, the
    report has one table for each pair of a year and a plan type that a
    record passing the year filter has, and no other: no pair has two
    tables, every such record is in a table, and the data rows of the
    table of a pair are those of the records of [data] that pass the
    filter and have that year and plan type, in the order of [data]. *)
Theorem one_table_per_year_and_plan (data : list ref) (filter_year : option Z)
    (exclude_fields exclude_total : list string) (h h' : heap) (tables : list Table) :
  dated_records filter_year h data ->
  plain_plan_types h data ->
  render data filter_year exclude_fields exclude_total h = (Ok tables, h') ->
  exists table_groups : list (value * value * list ref),
    NoDup (map fst table_groups)
    /\ Forall (fun g =>
                 g.2 <> []
                 /\ g.2 = List.filter
                            (fun e => filed_under filter_year g.1.1 g.1.2 (h e)) data)
              table_groups
    /\ (forall e t,
          e ∈ data ->
          dict_lookup (h e) "Verkaufsdatum" = Some (VTimestamp t) ->
          year_passes filter_year t = true ->
          exists g, g ∈ table_groups /\ e ∈ g.2)
    /\ Forall2 (fun g t =>
                  take (length g.2) (rows t)
                  = map (data_row (format_value locale_currency repr_float) h'
                           (field_names t) g.1.1 g.1.2)
                        g.2)
               table_groups tables.
Proof.
  intros Hdated Hplain Hrun.
  apply render_Ok in Hrun. destruct Hrun as (grouped & Hloop & Htables).
  destruct (grouping filter_year h h' data grouped Hdated Hplain Hloop)
    as (Hkeys & Hrecords & Hall).
  exists (group_list grouped). do 3 (split; [assumption |]).
  eapply Forall2_impl; [exact Htables |].
  intros g t Ht. apply make_table_rows in Ht.
  destruct Ht as (first & rest & totals & _ & _ & _ & Hrows).
  rewrite Hrows. apply take_app_length'. now rewrite length_map.
Qed.

(** X18.  Without a year filter (none, or the year 0) a record whose date
    is [NaT] ends the rendering with the [ValueError] of [NaT.strftime]:
    no table is returned for a report with an undated record. *)
Theorem undated_record_raises (data : list ref) (filter_year : option Z)
    (exclude_fields exclude_total : list string) (h : heap) (undated : ref) :
  filter_active filter_year = false ->
  NoDup data ->
  (forall e, e ∈ data ->
     (exists t plan_type,
        dict_lookup (h e) "Verkaufsdatum" = Some (VTimestamp t)
        /\ dict_lookup (h e) "PlanType" = Some plan_type)
     \/ dict_lookup (h e) "Verkaufsdatum" = Some VNaT) ->
  undated ∈ data ->
  dict_lookup (h undated) "Verkaufsdatum" = Some VNaT ->
  exists h1,
    render data filter_year exclude_fields exclude_total h = (Raise ValueError, h1).
Proof.
  intros Hfilter Hnodup Hdated Hin Hnat.
  destruct (group_loop_undated filter_year data 0 [] h Hfilter Hnodup Hdated)
    as (h1 & Hloop); [now exists undated |].
  exists h1. unfold generate_pretty_table_with_hierarchy. now apply bind_M_raise.
Qed.

End ReportGroups.

(** ** What [main] does with the line items *)

(** X19.  The filter loop of [main] keeps the line items in their order:
    all of them with [--include-sell-to-cover], and otherwise those whose
    [is_selltocover] is missing or falsy. *)
Theorem main_filter_keeps (selltocover : bool) (data : list dict) :
  main_filter selltocover data
  = List.filter
      (fun elem =>
         selltocover || negb (py_truthy (dict_get elem "is_selltocover" (VBool false))))
      data
  /\ main_filter true data = data.
Proof.
  rewrite !main_filter_filter. split.
  - apply List.filter_ext. intros elem. unfold kept.
    destruct (py_truthy _), selltocover; reflexivity.
  - induction data as [| elem rest IH]; [reflexivity |].
    cbn [List.filter]. unfold kept at 1. rewrite andb_false_r. cbn [negb].
    now rewrite IH.
Qed.

Section MainMore.
Variable requests_get : list string -> string -> Res Response.
Variable locale_currency : float -> string.
Variable repr_float : float -> string.
Variable cleaned_frame : string -> Res (list Row).
Variable plan_type_object : ref -> nat.

(** The line items that [main] gets from rows with float quantities. *)
Lemma main_items (rows : list Row) (w : World) :
  Forall (fun row => float_row row = true) rows ->
  exists items,
    parse_data requests_get repr_float (read_csv repr_float rows) false w = (Ok items, w)
    /\ Forall2 (fun row item =>
                  dict_lookup item "Verkaufsdatum" = Some (date_value (SaleDate row))
                  /\ dict_lookup item "PlanType" = Some (PlanType row)
                  /\ dict_lookup item "is_selltocover"
                     = Some (VBool (str_contains "STC"
                                      (py_str repr_float (OrderType row)))))
               rows items.
Proof.
  intros Hrows.
  assert (Hrecords : Forall (fun entry => float_record entry = true)
                       (read_csv repr_float rows)).
  { rewrite read_csv_map. apply Forall_fmap.
    eapply Forall_impl; [exact Hrows |]. intros row. apply row_entry_float_record. }
  destruct (parse_data_floats requests_get repr_float _ w Hrecords) as (items & Hrun).
  exists items. split; [assumption |].
  apply Forall2_same_length_lookup_2.
  - symmetry. etransitivity; [exact (parse_data_length _ _ _ _ _ _ _ Hrun) |].
    now rewrite read_csv_map, length_fmap.
  - intros i row item Hrow Hitem.
    assert (Hentry : read_csv repr_float rows !! i = Some (row_entry repr_float row)).
    { now rewrite read_csv_map, list_lookup_fmap, Hrow. }
    destruct (parse_data_fields _ _ _ _ _ _ _ _ _ Hrun Hentry)
      as (item' & Hitem' & _ & Hdate & _ & Hplan & _ & Hflag).
    assert (item' = item) as -> by (apply (inj Some); now rewrite <- Hitem', <- Hitem).
    now repeat split.
Qed.

(** The report over a list that its builder alone holds, one of whose
    items has no date. *)
Lemma undated_record_helper (objects : ref -> nat) (items : list dict)
    (filter_year : option Z)
    (exclude_fields exclude_total : list string) (e : ref) (item : dict) :
  filter_active filter_year = false ->
  (forall item,
     item ∈ items ->
     exists row,
       dict_lookup item "Verkaufsdatum" = Some (date_value (SaleDate row))
       /\ dict_lookup item "PlanType" = Some (PlanType row)) ->
  items !! e = Some item ->
  dict_lookup item "Verkaufsdatum" = Some VNaT ->
  exists h1,
    generate_pretty_table_with_hierarchy locale_currency repr_float
      (refs_of items) filter_year exclude_fields exclude_total (store_of objects items)
    = (Raise ValueError, h1).
Proof.
  intros Hfilter Hfacts He Hnat.
  assert (Hin : e ∈ refs_of items).
  { apply elem_of_seq. apply lookup_lt_Some in He. lia. }
  destruct (group_loop_undated filter_year (refs_of items) 0 []
              (store_of objects items) Hfilter)
    as (h1 & Hloop).
  - apply NoDup_seq.
  - intros r Hr. apply (store_of_lookup objects) in Hr.
    destruct Hr as (item' & Hitem' & ->).
    destruct (Hfacts item') as (row & Hd & Hp); [now apply list_elem_of_lookup_2 in Hitem' |].
    rewrite Hd, Hp. destruct (SaleDate row) as [t |]; cbn [date_value]; [left | now right].
    now exists t, (PlanType row).
  - exists e. split; [assumption |].
    destruct (store_of_lookup objects items e Hin) as (item' & Hitem' & ->). congruence.
  - exists h1. unfold generate_pretty_table_with_hierarchy. now apply bind_M_raise.
Qed.

Lemma kept_flag (selltocover : bool) (item : dict) (b : bool) :
  dict_lookup item "is_selltocover" = Some (VBool b) ->
  kept selltocover item = negb (b && negb selltocover).
Proof. intros H. unfold kept, dict_get. now rewrite H. Qed.

(** X20.  When the file loads into rows whose quantity and purchase
    price are floats, one of which has a sale date that did not parse and
    is not dropped as a sell-to-cover order, [main] without
    [--include-exchange] and without an active [--year] ends with the
    [ValueError] of [NaT.strftime] and prints no table, whatever the dates
    of the other rows are. *)
Theorem main_undated_row_raises (input_file : string) (rows : list Row)
    (selltocover : bool) (year : option Z) (w : World) (i : nat) (row : Row) :
  cleaned_frame input_file = Ok rows ->
  Forall (fun row => float_row row = true) rows ->
  filter_active year = false ->
  rows !! i = Some row ->
  SaleDate row = None ->
  selltocover = true
  \/ str_contains "STC" (py_str repr_float (OrderType row)) = false ->
  main requests_get locale_currency repr_float cleaned_frame plan_type_object
    input_file selltocover year false w
  = (Raise ValueError, w).
Proof.
  intros Hframe Hrows Hfilter Hrow Hdate Hkept.
  destruct (main_items rows w Hrows) as (items & Hparse & Hitems).
  unfold main. rewrite Hframe. unfold lift at 1.
  rewrite (bind_M_run _ _ w w rows eq_refl).
  rewrite (bind_M_run _ _ _ _ _ Hparse).
  rewrite main_filter_filter.
  set (new_data := List.filter (kept selltocover) items).
  assert (Hfacts : forall item,
             item ∈ new_data ->
             exists row',
               dict_lookup item "Verkaufsdatum" = Some (date_value (SaleDate row'))
               /\ dict_lookup item "PlanType" = Some (PlanType row')).
  { intros item Hin. apply list_elem_of_In, filter_In in Hin. destruct Hin as [Hin _].
    apply list_elem_of_In, list_elem_of_lookup in Hin. destruct Hin as (j & Hj).
    destruct (Forall2_lookup_r _ _ _ _ _ Hitems Hj) as (row' & _ & Hd & Hp & _).
    now exists row'. }
  destruct (Forall2_lookup_l _ _ _ _ _ Hitems Hrow) as (item & Hitem & Hd & _ & Hflag).
  assert (Hin : item ∈ new_data).
  { apply list_elem_of_In, filter_In. split.
    - apply list_elem_of_In, list_elem_of_lookup. now exists i.
    - rewrite (kept_flag _ _ _ Hflag).
      destruct Hkept as [-> | ->]; [apply negb_true_iff, andb_false_r | reflexivity]. }
  apply list_elem_of_lookup in Hin. destruct Hin as (e & He).
  destruct (undated_record_helper plan_type_object new_data year default_exclude_fields
              default_exclude_total e item Hfilter Hfacts He)
    as (h1 & Hrender); [now rewrite Hd, Hdate |].
  apply bind_M_raise. unfold lift. now rewrite Hrender.
Qed.

(** X21.  When the file loads into rows whose quantity and purchase
    price are floats and whose order types all contain "STC", [main]
    without [--include-sell-to-cover] and without [--include-exchange]
    drops every line item and prints no table, for any [--year]; the cache
    and the request log stay as they are. *)
Theorem main_only_sell_to_cover (input_file : string) (rows : list Row)
    (year : option Z) (w : World) :
  cleaned_frame input_file = Ok rows ->
  Forall (fun row => float_row row = true) rows ->
  Forall (fun row => str_contains "STC" (py_str repr_float (OrderType row)) = true) rows ->
  main requests_get locale_currency repr_float cleaned_frame plan_type_object
    input_file false year false w
  = (Ok [], w).
Proof.
  intros Hframe Hrows Hstc.
  destruct (main_items rows w Hrows) as (items & Hparse & Hitems).
  unfold main. rewrite Hframe. unfold lift at 1.
  rewrite (bind_M_run _ _ w w rows eq_refl).
  rewrite (bind_M_run _ _ _ _ _ Hparse).
  rewrite main_filter_filter.
  assert (Hnone : List.filter (kept false) items = []).
  { clear Hparse Hframe.
    induction Hitems as [| row item rows items Hitem _ IH]; [reflexivity |].
    apply Forall_cons in Hrows, Hstc. destruct Hrows as [_ Hrows], Hstc as [Hrow Hstc].
    destruct Hitem as (_ & _ & Hflag). cbn [List.filter].
    rewrite (kept_flag _ _ _ Hflag), Hrow. cbn. now apply IH. }
  rewrite Hnone. reflexivity.
Qed.

End MainMore.

(** ** The properties at the example inputs *)

Lemma pair_eta_fst {A B} (p : A * B) (a : A) : p.1 = a -> p = (a, p.2).
Proof. destruct p. cbn. now intros ->. Qed.

(** The ESPP example of the specification: cost basis 20, bought at 17. *)
Lemma parse_data_espp_witness :
  exists item,
    plain_items !! 1%nat = Some item
    /\ dict_lookup item "Kaufwert" = Some (VFloat 17%float)
    /\ dict_lookup item "Verkaufswert" = Some (VFloat 20%float)
    /\ dict_lookup item "Gewinn/Verlust" = Some (VFloat (PrimFloat.sub 20 17))
    /\ dict_lookup item "Rabatt (inkl.)" = Some (VStr "15%").
Proof.
  exact (proj2 (parse_data_espp down_service repr_whole trade_records fresh_world
                  1%nat espp_record 20%float 17%float
                  eq_refl eq_refl eq_refl eq_refl)
               false plain_items fresh_world eq_refl).
Defined.

(** The RSU example of the specification: cost basis 20, gain 5, 10 shares. *)
Lemma parse_data_non_espp_witness :
  exists item sell gain,
    plain_items !! 0%nat = Some item
    /\ dict_lookup item "Verkaufswert" = Some (VFloat sell)
    /\ dict_lookup item "Gewinn/Verlust" = Some (VFloat gain)
    /\ dict_lookup item "Orderwert" = Some (VFloat (PrimFloat.mul sell 10))
    /\ dict_lookup item "KapitalErtrag (USD)" = Some (VFloat (PrimFloat.mul gain 10))
    /\ (is_espp rsu_record = false ->
        dict_lookup item "Kaufwert" = Some (VFloat 20%float)
        /\ sell = PrimFloat.add 20 5
        /\ gain = 5%float).
Proof.
  exact (proj2 (parse_data_non_espp down_service repr_whole trade_records fresh_world
                  0%nat rsu_record 20%float 5%float 10%float 0%float
                  eq_refl eq_refl eq_refl eq_refl eq_refl)
               false plain_items fresh_world eq_refl).
Defined.

(** A lookup against a service that answers 503. *)
Lemma failed_fetch_raises_witness :
  get_exchange_trade down_service "2023-01-16" "USD" (Some "EUR") fresh_world
  = (Raise AttributeError, logged (rate_url "2023-01-16" "USD") fresh_world).
Proof.
  apply (failed_fetch_raises down_service "2023-01-16" "USD" "EUR" fresh_world
           {| status_code := 503; content := None |});
    [reflexivity | reflexivity | discriminate | discriminate].
Defined.

(** Two lookups for a Monday: one request, and the pound served from the
    response that was fetched for the euro. *)
Lemma cache_second_lookup_witness :
  exists w1,
    get_exchange_trade weekday_service "2023-01-16" "USD" (Some "EUR") fresh_world
    = (Ok (JFloat 0.9375%float), w1)
    /\ requests_log w1 = [rate_url "2023-01-16" "USD"]
    /\ get_exchange_trade weekday_service "2023-01-16" "USD" (Some "GBP") w1
       = (Ok (JFloat 0.8125%float), w1).
Proof.
  apply (cache_second_lookup weekday_service "2023-01-16" "USD" "USD" "EUR" "GBP"
           fresh_world
           {| status_code := 200;
              content := Some (JObj [ ("amount", JFloat 1%float);
                                      ("base", JStr "USD");
                                      ("date", JStr "2023-01-16");
                                      ("rates", JObj [ ("EUR", JFloat 0.9375%float);
                                                       ("GBP", JFloat 0.8125%float) ]) ]) |}
           [ ("amount", JFloat 1%float); ("base", JStr "USD");
             ("date", JStr "2023-01-16");
             ("rates", JObj [ ("EUR", JFloat 0.9375%float);
                              ("GBP", JFloat 0.8125%float) ]) ]
           [ ("EUR", JFloat 0.9375%float); ("GBP", JFloat 0.8125%float) ]);
    first [reflexivity | discriminate].
Defined.

(** C4 as stated fails for a Sunday: the service answers with Friday's
    date, the response is never found again under the requested date, and
    the second lookup, which returns the same value, fetches once more. *)
Lemma cache_refetch_counterexample :
  let lookup :=
    get_exchange_trade weekend_service "2023-01-15" "USD" (Some "EUR") in
  let first := lookup fresh_world in
  let second := lookup first.2 in
  first.1 = Ok (JFloat 0.9375%float)
  /\ requests_log first.2 = [rate_url "2023-01-15" "USD"]
  /\ second.1 = Ok (JFloat 0.9375%float)
  /\ requests_log second.2
     = [rate_url "2023-01-15" "USD"; rate_url "2023-01-15" "USD"].
Proof. vm_compute. repeat split. Qed.

(** With conversion on, the record without a date and the record whose
    lookup is answered 503 both end the run. *)
Lemma no_rate_raises_witness :
  parse_data down_service repr_whole [undated_record] true fresh_world
  = (Raise ValueError, fresh_world)
  /\ parse_data down_service repr_whole [rsu_record] true fresh_world
     = (Raise AttributeError, logged (rate_url "2023-01-16" "USD") fresh_world).
Proof.
  split.
  - exact (proj1 (no_rate_raises down_service repr_whole undated_record []
                    fresh_world eq_refl) eq_refl).
  - apply (proj2 (no_rate_raises down_service repr_whole rsu_record []
                    fresh_world eq_refl)
             {| ts_year := 2023; ts_month := 1; ts_day := 16 |}
             {| status_code := 503; content := None |});
      first [reflexivity | discriminate].
Defined.

(** The RSU example converted at 0.9375: 50 USD are 46.875 EUR. *)
Lemma parse_data_conversion_witness :
  exists item usd,
    converted_items !! 0%nat = Some item
    /\ dict_lookup item "KapitalErtrag (USD)" = Some usd
    /\ exists t rate wi wi',
         dict_lookup rsu_record "SaleDate" = Some (VTimestamp t)
         /\ parse_data weekday_service repr_whole (take 0 trade_records) true fresh_world
            = (Ok (take 0 converted_items), wi)
         /\ get_exchange_trade weekday_service (strftime_Ymd t) "USD" (Some "EUR") wi
            = (Ok rate, wi')
         /\ if json_truthy rate
            then exists eur,
                   py_mul_json usd rate = Ok eur
                   /\ dict_lookup item "KapitalErtrag (EUR)" = Some eur
            else dict_lookup item "KapitalErtrag (EUR)" = Some (VStr "n/a").
Proof.
  exact (parse_data_conversion weekday_service repr_whole trade_records
           converted_items true fresh_world converted_world 0%nat rsu_record
           (pair_eta_fst _ _ eq_refl) eq_refl).
Defined.

(** C6 as stated fails when the rate that is found is zero: the lookup
    returns 0.0, the USD gain times the rate is 0.0, and the line item
    has "n/a". *)
Lemma zero_rate_counterexample :
  (get_exchange_trade zero_service "2023-01-16" "USD" (Some "EUR") fresh_world).1
  = Ok (JFloat 0%float)
  /\ exists item,
       (parse_data zero_service repr_whole [rsu_record] true fresh_world).1 = Ok [item]
       /\ dict_lookup item "KapitalErtrag (USD)" = Some (VFloat 50%float)
       /\ py_mul_json (VFloat 50%float) (JFloat 0%float) = Ok (VFloat 0%float)
       /\ dict_lookup item "KapitalErtrag (EUR)" = Some (VStr "n/a").
Proof. split; [reflexivity |]. eexists. vm_compute. repeat split. Qed.

(** An order type that carries the marker. *)
Lemma read_csv_selltocover_witness :
  exists entry b,
    read_csv repr_whole [order_type_row "Sale (STC)"] !! 0%nat = Some entry
    /\ dict_lookup entry "is_selltocover" = Some (VBool b)
    /\ (b = true <->
        exists pre post,
          py_str repr_whole (OrderType (order_type_row "Sale (STC)"))
          = pre +:+ "STC" +:+ post).
Proof.
  exact (read_csv_selltocover repr_whole [order_type_row "Sale (STC)"] 0%nat
           (order_type_row "Sale (STC)") eq_refl).
Defined.

(** C8 as stated fails at its own example: "Sale to Cover" does not
    contain "STC", and the record is not marked. *)
Lemma sale_to_cover_counterexample :
  OrderType (order_type_row "Sale to Cover") = VStr "Sale to Cover"
  /\ exists entry,
       read_csv repr_whole [order_type_row "Sale to Cover"] = [entry]
       /\ dict_lookup entry "is_selltocover" = Some (VBool false).
Proof. split; [reflexivity |]. eexists. split; reflexivity. Qed.

Lemma report_2023_run :
  report_2023 = (Ok (tables_of report_2023.1), report_2023.2).
Proof. apply pair_eta_fst. vm_compute. reflexivity. Qed.

Lemma report_heap_dated :
  dated_records (Some 2023) report_heap [0%nat; 1%nat; 2%nat; 3%nat].
Proof.
  split.
  - apply (bool_decide_unpack _). vm_compute. exact I.
  - intros e He. repeat (apply elem_of_cons in He; destruct He as [-> | He]).
    + left. do 2 eexists. split; reflexivity.
    + left. do 2 eexists. split; reflexivity.
    + left. do 2 eexists. split; reflexivity.
    + right. split; reflexivity.
    + now apply elem_of_nil in He.
Qed.


(** The columns of the report of 2023, for a caller that passed the
    default list. *)
Lemma table_columns_witness :
  exists grouped,
    group_loop (Some 2023) 0 [0%nat; 1%nat; 2%nat; 3%nat] [] report_heap
    = (Ok grouped, report_2023.2)
    /\ Forall2 (fun g t =>
                 exists first rest,
                   g.2 = first :: rest
                   /\ field_names t
                      = ["Year"; "PlanType"]
                        ++ List.filter
                             (fun key =>
                                negb (str_in key (["Year"; "PlanType"]
                                                  ++ default_exclude_fields
                                                  ++ ["is_selltocover"])))
                             (dict_keys (report_2023.2 first)))
              (group_list grouped) (tables_of report_2023.1).
Proof.
  exact (table_columns de_currency repr_whole [0%nat; 1%nat; 2%nat; 3%nat] (Some 2023)
           default_exclude_fields default_exclude_total report_heap report_2023.2
           (tables_of report_2023.1) report_2023_run).
Defined.

(** C9 as stated fails for a caller that passes the empty list: the
    record's PurchasePrice, which C9 counts as always excluded, is a
    column of the table. *)
Lemma purchase_price_counterexample :
  exists t,
    report_priced.1 = Ok [t]
    /\ dict_keys (priced_heap 0%nat) = ["Verkaufsdatum"; "PlanType"; "PurchasePrice"]
    /\ field_names t = ["Year"; "PlanType"; "Verkaufsdatum"; "PurchasePrice"]
    /\ str_in "PurchasePrice" (field_names t) = true.
Proof. eexists. vm_compute. repeat split. Qed.

(** In the report of 2023 the two records of 2023 show their date as
    16.01.2023, the record of 2022 keeps its Timestamp and the record
    without a date its [NaT]. *)
Lemma render_overwrites_dates_witness :
  dict_lookup (report_2023.2 0%nat) "Verkaufsdatum" = Some (VStr "16.01.2023")
  /\ dict_lookup (report_2023.2 1%nat) "Verkaufsdatum" = Some (VStr "16.01.2023")
  /\ report_2023.2 2%nat = report_heap 2%nat
  /\ dict_lookup (report_heap 2%nat) "Verkaufsdatum"
     = Some (VTimestamp {| ts_year := 2022; ts_month := 11; ts_day := 3 |})
  /\ report_2023.2 3%nat = report_heap 3%nat.
Proof.
  destruct (render_overwrites_dates de_currency repr_whole [0%nat; 1%nat; 2%nat; 3%nat]
              (Some 2023) default_exclude_fields default_exclude_total
              report_heap report_2023.2 report_2023.1
              report_heap_dated (surjective_pairing report_2023)) as (Hin & Hnat & _).
  split; [| split; [| split; [| split]]].
  - refine (proj2 (Hin 0%nat {| ts_year := 2023; ts_month := 1; ts_day := 16 |} _ eq_refl)).
    repeat constructor.
  - refine (proj2 (Hin 1%nat {| ts_year := 2023; ts_month := 1; ts_day := 16 |} _ eq_refl)).
    repeat constructor.
  - refine (Hin 2%nat {| ts_year := 2022; ts_month := 11; ts_day := 3 |} _ eq_refl).
    repeat constructor.
  - reflexivity.
  - apply Hnat; [repeat constructor | reflexivity].
Defined.

(** A lookup of the pound after the items were converted: the cache holds
    Monday's response, and the lookup is served from it. *)
Lemma cache_keeps_rates_witness :
  Forall (fun api_return => has_rates api_return = true)
    (EXCHANGE_CACHE
       (get_exchange_trade weekday_service "2023-01-16" "USD" (Some "GBP")
          converted_world).2)
  /\ exists rate,
       get_exchange_trade weekday_service "2023-01-16" "USD" (Some "GBP") converted_world
       = (Ok rate, converted_world).
Proof.
  assert (Hcache : Forall (fun api_return => has_rates api_return = true)
                     (EXCHANGE_CACHE converted_world))
    by (vm_compute; repeat constructor).
  destruct (cache_keeps_rates weekday_service "2023-01-16" "USD" (Some "GBP")
              converted_world Hcache) as [Hkept Hhit].
  split; [exact Hkept |]. apply Hhit. vm_compute. discriminate.
Defined.

(** The lookup that is answered 503. *)
Lemma failed_lookup_caches_nothing_witness :
  EXCHANGE_CACHE (logged (rate_url "2023-01-16" "USD") fresh_world)
  = EXCHANGE_CACHE fresh_world
  /\ cached_rates "2023-01-16"
       (EXCHANGE_CACHE (logged (rate_url "2023-01-16" "USD") fresh_world))
     = JNull.
Proof.
  apply (failed_lookup_caches_nothing down_service "2023-01-16" "USD" (Some "EUR")
           fresh_world (logged (rate_url "2023-01-16" "USD") fresh_world)
           AttributeError);
    [constructor | reflexivity].
Defined.

(** A body that is not JSON, a JSON string, and an object that reports an
    error instead of rates. *)
Lemma malformed_response_raises_witness :
  get_exchange_trade (answering None) "2023-01-16" "USD" (Some "EUR") fresh_world
  = (Raise ValueError, logged (rate_url "2023-01-16" "USD") fresh_world)
  /\ get_exchange_trade (answering (Some (JStr "down"))) "2023-01-16" "USD" (Some "EUR")
       fresh_world
     = (Raise AttributeError, logged (rate_url "2023-01-16" "USD") fresh_world)
  /\ get_exchange_trade (answering (Some (JObj [("message", JStr "not found")])))
       "2023-01-16" "USD" (Some "EUR") fresh_world
     = (Raise AssertionError, logged (rate_url "2023-01-16" "USD") fresh_world).
Proof.
  split; [| split].
  - destruct (malformed_response_raises (answering None) "2023-01-16" "USD"
                (Some "EUR") fresh_world {| status_code := 200; content := None |}
                eq_refl eq_refl eq_refl) as (Hnone & _ & _).
    exact (Hnone eq_refl).
  - destruct (malformed_response_raises (answering (Some (JStr "down")))
                "2023-01-16" "USD" (Some "EUR") fresh_world
                {| status_code := 200; content := Some (JStr "down") |}
                eq_refl eq_refl eq_refl) as (_ & Hshape & _).
    apply (Hshape (JStr "down") eq_refl). discriminate.
  - destruct (malformed_response_raises
                (answering (Some (JObj [("message", JStr "not found")])))
                "2023-01-16" "USD" (Some "EUR") fresh_world
                {| status_code := 200;
                   content := Some (JObj [("message", JStr "not found")]) |}
                eq_refl eq_refl eq_refl) as (_ & _ & Hrates).
    exact (Hrates [("message", JStr "not found")] eq_refl eq_refl).
Defined.

(** A cache with two responses for Monday and Friday's after them: the
    later of Monday's answers. *)
Lemma latest_response_answers_witness :
  cached_rates "2023-01-16" [friday_response] = JNull
  /\ cached_rates "2023-01-16" ([stale_response] ++ monday_response :: [friday_response])
     = JObj [("EUR", JFloat 0.9375%float)].
Proof.
  destruct (latest_response_answers "2023-01-16" [stale_response] [friday_response]
              monday_response) as [Hnone Hlast].
  - repeat constructor.
  - split; [exact Hnone | exact (Hlast eq_refl)].
Defined.

(** The two example records give two line items. *)
Lemma parse_data_one_item_per_record_witness :
  length converted_items = length trade_records
  /\ forall i entry,
       trade_records !! i = Some entry ->
       exists item wi wi',
         converted_items !! i = Some item
         /\ parse_data weekday_service repr_whole (take i trade_records) true fresh_world
            = (Ok (take i converted_items), wi)
         /\ parse_entry weekday_service repr_whole true entry wi = (Ok item, wi').
Proof.
  exact (parse_data_one_item_per_record weekday_service repr_whole trade_records
           converted_items true fresh_world converted_world (pair_eta_fst _ _ eq_refl)).
Defined.

(** The fields that the item of the ESPP example takes over. *)
Lemma parse_data_passes_fields_witness :
  exists item,
    plain_items !! 1%nat = Some item
    /\ dict_lookup item "Order"
       = Some (VStr (py_str repr_whole (dict_get espp_record "OrderNumber" VNone)))
    /\ dict_lookup item "Verkaufsdatum" = dict_lookup espp_record "SaleDate"
    /\ dict_lookup item "Type" = Some (dict_get espp_record "OrderType" VNone)
    /\ dict_lookup item "PlanType" = Some (dict_get espp_record "PlanType" VNone)
    /\ dict_lookup item "Anz." = Some (dict_get espp_record "SharesSold" VNone)
    /\ dict_lookup item "is_selltocover"
       = Some (dict_get espp_record "is_selltocover" (VBool false)).
Proof.
  exact (parse_data_passes_fields down_service repr_whole trade_records plain_items
           false fresh_world fresh_world 1%nat espp_record eq_refl eq_refl).
Defined.

(** The keys of the items of the RSU and the ESPP example. *)
Lemma parse_data_item_keys_witness :
  (exists item,
     plain_items !! 0%nat = Some item
     /\ dict_keys item = item_keys ++ (if is_espp rsu_record then ["Rabatt (inkl.)"] else [])
     /\ NoDup (dict_keys item)
     /\ (is_espp rsu_record = false -> dict_lookup item "Rabatt (inkl.)" = None))
  /\ (exists item,
        plain_items !! 1%nat = Some item
        /\ dict_keys item
           = item_keys ++ (if is_espp espp_record then ["Rabatt (inkl.)"] else [])
        /\ NoDup (dict_keys item)
        /\ (is_espp espp_record = false -> dict_lookup item "Rabatt (inkl.)" = None)).
Proof.
  split.
  - exact (parse_data_item_keys down_service repr_whole trade_records plain_items
             false fresh_world fresh_world 0%nat rsu_record eq_refl eq_refl).
  - exact (parse_data_item_keys down_service repr_whole trade_records plain_items
             false fresh_world fresh_world 1%nat espp_record eq_refl eq_refl).
Defined.

(** A record without its sale date, before a complete one. *)
Lemma missing_sale_date_raises_witness :
  parse_data down_service repr_whole (dateless_record :: [rsu_record]) false fresh_world
  = (Raise (KeyError "SaleDate" None), fresh_world)
  /\ parse_data down_service repr_whole (dateless_record :: [rsu_record]) true fresh_world
     = (Raise AttributeError, fresh_world).
Proof.
  exact (missing_sale_date_raises down_service repr_whole dateless_record [rsu_record]
           fresh_world eq_refl eq_refl).
Defined.

(** The record without a cost basis under the RSU plan and under the ESPP. *)
Lemma missing_cost_basis_witness :
  parse_data down_service repr_whole [costless_record "RSU"] false fresh_world
  = (Raise TypeError, fresh_world)
  /\ exists item,
       costless_items !! 0%nat = Some item
       /\ dict_lookup item "Verkaufswert" = Some (VFloat 0%float).
Proof.
  split.
  - exact (proj1 (missing_cost_basis down_service repr_whole (costless_record "RSU") []
                    false fresh_world eq_refl) eq_refl).
  - exact (proj2 (missing_cost_basis down_service repr_whole (costless_record "ESPP") []
                    false fresh_world eq_refl)
             eq_refl costless_items fresh_world eq_refl).
Defined.

(** A second conversion of the example records, with Monday's rates in
    the cache: no request is made. *)
Lemma cached_conversion_witness :
  exists parsed,
    parse_data weekday_service repr_whole [rsu_record; espp_record] true converted_world
    = (Ok parsed, converted_world)
    /\ Forall2 (fun entry item =>
                  exists usd rate,
                    rate_cached converted_world entry rate
                    /\ dict_lookup item "KapitalErtrag (USD)" = Some (VFloat usd)
                    /\ dict_lookup item "KapitalErtrag (EUR)" = Some (in_eur usd rate))
               [rsu_record; espp_record] parsed.
Proof.
  apply (cached_conversion weekday_service repr_whole [rsu_record; espp_record]
           converted_world).
  repeat constructor.
  all: exists (JFloat 0.9375%float).
  all: split; [| right; eexists; reflexivity].
  all: exists {| ts_year := 2023; ts_month := 1; ts_day := 16 |},
              [("EUR", JFloat 0.9375%float); ("GBP", JFloat 0.8125%float)].
  all: repeat split.
Defined.

(** A dated and an undated row. *)
Lemma rows_to_items_witness :
  exists items,
    parse_data down_service repr_whole (read_csv repr_whole [rsu_row; undated_row])
      false fresh_world
    = (Ok items, fresh_world)
    /\ length items = length [rsu_row; undated_row]
    /\ forall i row,
         [rsu_row; undated_row] !! i = Some row ->
         exists item,
           items !! i = Some item
           /\ dict_lookup item "Order" = Some (VStr (py_str repr_whole (OrderNumber row)))
           /\ dict_lookup item "Verkaufsdatum" = Some (date_value (SaleDate row))
           /\ dict_lookup item "is_selltocover"
              = Some (VBool (str_contains "STC" (py_str repr_whole (OrderType row)))).
Proof.
  apply (rows_to_items down_service repr_whole [rsu_row; undated_row] fresh_world).
  repeat constructor.
Defined.

(** Line items without a plan type are grouped under their NaN: each
    under its own when the NaN are distinct objects, which gives a table
    for each of them, and together when they are one object. *)
Lemma report_nan_tables :
  (exists t0 t1 t2,
      (report_nan own_object).1 = Ok [t0; t1; t2]
      /\ map (fun t => length (rows t)) [t0; t1; t2] = [3; 3; 3]%nat)
  /\ (exists t0 t1,
        (report_nan one_object).1 = Ok [t0; t1]
        /\ map (fun t => length (rows t)) [t0; t1] = [4; 3]%nat).
Proof. split; do 3 try eexists; vm_compute; split; reflexivity. Qed.

Lemma report_nan_run :
  report_nan one_object = (Ok (tables_of (report_nan one_object).1), (report_nan one_object).2).
Proof. apply pair_eta_fst. vm_compute. reflexivity. Qed.

(** The tables of the report of the items without a plan type, two of
    which hold the same NaN. *)
Lemma tables_well_formed_witness :
  exists grouped,
    group_loop None 0 [0%nat; 1%nat; 2%nat] [] (store_of one_object nan_items)
    = (Ok grouped, (report_nan one_object).2)
    /\ Forall2 (fun g t =>
                 length (rows t) = (length g.2 + 2)%nat
                 /\ Forall (fun row => length row = length (field_names t)) (rows t)
                 /\ (forall first rest,
                       g.2 = first :: rest ->
                       NoDup (dict_keys ((report_nan one_object).2 first)) ->
                       NoDup (field_names t)))
              (group_list grouped) (tables_of (report_nan one_object).1).
Proof.
  exact (tables_well_formed de_currency repr_whole [0%nat; 1%nat; 2%nat]
           None default_exclude_fields default_exclude_total
           (store_of one_object nan_items)
           (report_nan one_object).2 (tables_of (report_nan one_object).1) report_nan_run).
Defined.

Lemma partial_heap_dated (filter_year : option Z) :
  year_passes filter_year {| ts_year := 2023; ts_month := 1; ts_day := 16 |} = true ->
  dated_records filter_year partial_heap [0%nat]
  /\ partial_heap 0%nat
     = [ ("Verkaufsdatum", VTimestamp {| ts_year := 2023; ts_month := 1; ts_day := 16 |});
         ("PlanType", VStr "RSU"); ("Anz.", VFloat 10%float) ].
Proof.
  intros _. split; [| reflexivity]. split.
  - apply NoDup_singleton.
  - intros e He. apply list_elem_of_singleton in He. subst e.
    left. do 2 eexists. split; reflexivity.
Qed.

(** The item at index 1 has no date: the report stops there, with the
    item before it rewritten and the others as they were. *)
Lemma missing_date_key_raises_witness :
  exists h1,
    generate_pretty_table_with_hierarchy de_currency repr_whole
      ([0%nat] ++ 1%nat :: [2%nat]) None default_exclude_fields default_exclude_total
      partial_heap
    = (Raise (KeyError "Verkaufsdatum" (Some 1%nat)), h1)
    /\ (forall e, e ∈ [0%nat] -> h1 e = rendered_record None (partial_heap e))
    /\ (forall e, e ∉ [0%nat] -> h1 e = partial_heap e).
Proof.
  apply (missing_date_key_raises de_currency repr_whole [0%nat] 1%nat [2%nat] None
           default_exclude_fields default_exclude_total partial_heap).
  - exact (proj1 (partial_heap_dated None eq_refl)).
  - intros He. apply list_elem_of_singleton in He. discriminate He.
  - reflexivity.
Defined.

(** The item at index 1 of this list has no plan type: the report stops
    there, and the item shows its date as 01.02.2023. *)
Lemma missing_plan_type_raises_witness :
  exists h2,
    generate_pretty_table_with_hierarchy de_currency repr_whole
      ([0%nat] ++ 2%nat :: [1%nat]) (Some 2023) default_exclude_fields
      default_exclude_total partial_heap
    = (Raise (KeyError "PlanType" (Some 1%nat)), h2)
    /\ h2 2%nat
       = dict_set (partial_heap 2%nat) "Verkaufsdatum" (VStr "01.02.2023")
    /\ (forall e, e ∈ [0%nat] -> h2 e = rendered_record (Some 2023) (partial_heap e))
    /\ (forall e, e ∉ [0%nat] -> e <> 2%nat -> h2 e = partial_heap e).
Proof.
  apply (missing_plan_type_raises de_currency repr_whole [0%nat] 2%nat [1%nat]
           (Some 2023) default_exclude_fields default_exclude_total partial_heap
           {| ts_year := 2023; ts_month := 2; ts_day := 1 |}).
  - exact (proj1 (partial_heap_dated (Some 2023) eq_refl)).
  - intros He. apply list_elem_of_singleton in He. discriminate He.
  - reflexivity.
  - reflexivity.
  - reflexivity.
Defined.

Lemma report_heap_plain : plain_plan_types report_heap [0%nat; 1%nat; 2%nat; 3%nat].
Proof.
  intros e plan_type He Hplan.
  repeat (apply elem_of_cons in He; destruct He as [-> | He]);
    [| | | | now apply elem_of_nil in He].
  all: vm_compute in Hplan; inversion Hplan; reflexivity.
Qed.

(** The report of 2023 has one table, of the two records of 2023. *)
Lemma one_table_per_year_and_plan_witness :
  exists table_groups : list (value * value * list ref),
    NoDup (map fst table_groups)
    /\ Forall (fun g =>
                 g.2 <> []
                 /\ g.2 = List.filter
                            (fun e => filed_under (Some 2023) g.1.1 g.1.2 (report_heap e))
                            [0%nat; 1%nat; 2%nat; 3%nat])
              table_groups
    /\ (forall e t,
          e ∈ [0%nat; 1%nat; 2%nat; 3%nat] ->
          dict_lookup (report_heap e) "Verkaufsdatum" = Some (VTimestamp t) ->
          year_passes (Some 2023) t = true ->
          exists g, g ∈ table_groups /\ e ∈ g.2)
    /\ Forall2 (fun g t =>
                  take (length g.2) (rows t)
                  = map (data_row (format_value de_currency repr_whole) report_2023.2
                           (field_names t) g.1.1 g.1.2)
                        g.2)
               table_groups (tables_of report_2023.1).
Proof.
  exact (one_table_per_year_and_plan de_currency repr_whole
           [0%nat; 1%nat; 2%nat; 3%nat] (Some 2023)
           default_exclude_fields default_exclude_total report_heap report_2023.2
           (tables_of report_2023.1) report_heap_dated report_heap_plain report_2023_run).
Defined.

(** The same records without a year filter: the record without a date
    ends the report. *)
Lemma undated_record_raises_witness :
  exists h1,
    generate_pretty_table_with_hierarchy de_currency repr_whole
      [0%nat; 1%nat; 2%nat; 3%nat] None default_exclude_fields default_exclude_total
      report_heap
    = (Raise ValueError, h1).
Proof.
  apply (undated_record_raises de_currency repr_whole [0%nat; 1%nat; 2%nat; 3%nat] None
           default_exclude_fields default_exclude_total report_heap 3%nat).
  - reflexivity.
  - apply (bool_decide_unpack _). vm_compute. exact I.
  - intros e He.
    repeat (apply elem_of_cons in He; destruct He as [-> | He]);
      [left | left | left | right | now apply elem_of_nil in He].
    1-3: do 2 eexists; split; reflexivity.
    reflexivity.
  - repeat constructor.
  - reflexivity.
Defined.

(** A report of a dated and an undated sale, run without [--year]. *)
Lemma main_undated_row_raises_witness :
  main down_service de_currency repr_whole (frame_of [rsu_row; undated_row])
    (fun r => r) "sales.csv" false None false fresh_world
  = (Raise ValueError, fresh_world).
Proof.
  apply (main_undated_row_raises down_service de_currency repr_whole
           (frame_of [rsu_row; undated_row]) (fun r => r) "sales.csv"
           [rsu_row; undated_row] false None fresh_world 1%nat undated_row).
  - reflexivity.
  - repeat constructor.
  - reflexivity.
  - reflexivity.
  - reflexivity.
  - right. reflexivity.
Defined.

(** A report of two sell-to-cover orders. *)
Lemma main_only_sell_to_cover_witness :
  main down_service de_currency repr_whole
    (frame_of [order_type_row "Sale (STC)"; order_type_row "STC"]) (fun r => r)
    "sales.csv" false (Some 2023) false fresh_world
  = (Ok [], fresh_world).
Proof.
  apply (main_only_sell_to_cover down_service de_currency repr_whole
           (frame_of [order_type_row "Sale (STC)"; order_type_row "STC"]) (fun r => r)
           "sales.csv" [order_type_row "Sale (STC)"; order_type_row "STC"]
           (Some 2023) fresh_world).
  - reflexivity.
  - repeat constructor.
  - repeat constructor.
Defined.

(** The whole rates of Monday, fetched and then served from the cache,
    and the answer of a service that is down. *)
Lemma lookup_without_currency_witness :
  get_exchange_trade weekday_service "2023-01-16" "USD" None fresh_world
  = (Ok (JObj [("EUR", JFloat 0.9375%float); ("GBP", JFloat 0.8125%float)]),
     converted_world)
  /\ get_exchange_trade weekday_service "2023-01-16" "USD" (Some "") converted_world
     = (Ok (JObj [("EUR", JFloat 0.9375%float); ("GBP", JFloat 0.8125%float)]),
        converted_world)
  /\ get_exchange_trade down_service "2023-01-16" "USD" None fresh_world
     = (Ok JNull, logged (rate_url "2023-01-16" "USD") fresh_world).
Proof.
  split; [| split].
  - destruct (lookup_without_currency weekday_service "2023-01-16" "USD" None
                fresh_world (or_introl eq_refl)) as [_ Hmiss].
    destruct (Hmiss {| status_code := 200;
                       content := Some (JObj [ ("amount", JFloat 1%float);
                                               ("base", JStr "USD");
                                               ("date", JStr "2023-01-16");
                                               ("rates", JObj [ ("EUR", JFloat 0.9375%float);
                                                                ("GBP", JFloat 0.8125%float) ]) ]) |}
                eq_refl eq_refl) as [_ Hfetched].
    exact (Hfetched _ _ eq_refl eq_refl eq_refl).
  - destruct (lookup_without_currency weekday_service "2023-01-16" "USD" (Some "")
                converted_world (or_intror eq_refl)) as [Hhit _].
    exact (Hhit _ eq_refl).
  - destruct (lookup_without_currency down_service "2023-01-16" "USD" None
                fresh_world (or_introl eq_refl)) as [_ Hmiss].
    destruct (Hmiss {| status_code := 503; content := None |} eq_refl eq_refl)
      as [Hfailed _].
    apply Hfailed. discriminate.
Defined.
